(** * MyPetSync back end: chat rooms and appointment scheduling

    A shallow embedding of [ChatService] (src/chat/chat.service.ts) and of
    [AppointmentsService] (the appointments service of the repository), and
    the properties of the design document that concern them.

    Conventions of the embedding.
    - An asynchronous method is a computation in the monad [M]: it reads and
      writes the document store ([World]) and either returns a value or
      throws an [Exception].  Writes made before a throw stay in the store
      (nothing in the code is transactional).
    - JavaScript numbers that the code uses as integers (page, limit, skip,
      counts, epoch milliseconds) are [Z], exact on the safe-integer range,
      with [NaN] added where [parseInt] can produce it.  Prices are finite
      doubles, embedded in [Q].
    - What lives outside the two services (the other Nest services, the
      Mongoose models of Pet and Provider, the schema of Appointment, the
      parsers of the JavaScript runtime) is a parameter of the development. *)

From Stdlib Require Import ZArith NArith List String Ascii Bool Lia QArith.
From Stdlib Require Import Permutation Sorted.
Import ListNotations.
Open Scope string_scope.
Open Scope list_scope.
Open Scope Z_scope.

Set Implicit Arguments.

(* ================================================================= *)
(** ** JavaScript values and builtins *)

Module Js.

(** A number that is an integer or [NaN].  The operations below are those
    of JavaScript on the safe integers ([isSafeInteger]), where a double
    holds every integer exactly; past them a double rounds
    ([parseInt('9007199254740993')] is 9007199254740992) and the operations
    here, which keep every digit, are no longer the code's. *)
Inductive Number := NaN | Num (z : Z).

(** [Number.isSafeInteger]: at most [2^53 - 1] in absolute value. *)
Definition isSafeInteger (z : Z) : bool := Z.abs z <=? 2 ^ 53 - 1.

(** [Math.max] / [Math.min] of two arguments: [NaN] is contagious. *)
Definition Math_max (a b : Number) : Number :=
  match a, b with
  | Num x, Num y => Num (Z.max x y)
  | _, _ => NaN
  end.

Definition Math_min (a b : Number) : Number :=
  match a, b with
  | Num x, Num y => Num (Z.min x y)
  | _, _ => NaN
  end.

Definition sub (a b : Number) : Number :=
  match a, b with
  | Num x, Num y => Num (x - y)
  | _, _ => NaN
  end.

Definition mul (a b : Number) : Number :=
  match a, b with
  | Num x, Num y => Num (x * y)
  | _, _ => NaN
  end.

(** [Math.ceil(a / b)] for a count [a >= 0] and a divisor [b]; a division
    by zero gives [Infinity] or [NaN], which the model folds into [NaN]. *)
Definition ceil_div (a b : Number) : Number :=
  match a, b with
  | Num x, Num y => if y =? 0 then NaN else Num (- ((- x) / y))
  | _, _ => NaN
  end.

(** Truthiness of an optional string: [undefined] and [''] are falsy. *)
Definition truthy (o : option string) : bool :=
  match o with
  | None => false
  | Some s => negb (String.eqb s "")
  end.

(** [o || d] on an optional string. *)
Definition or_else (o : option string) (d : string) : string :=
  match o with
  | Some s => if String.eqb s "" then d else s
  | None => d
  end.

(** [o ?? d]. *)
Definition nullish {A} (o : option A) (d : A) : A :=
  match o with
  | Some a => a
  | None => d
  end.

(** White space and line terminators that [parseInt] skips.  A string is
    its UTF-8 bytes: the ASCII ones are one byte, U+00A0 is two, and
    U+1680, U+2000 to U+200A, U+2028, U+2029, U+202F, U+205F, U+3000 and
    U+FEFF are three. *)
Definition is_white_space (c : ascii) : bool :=
  match nat_of_ascii c with
  | 9%nat | 10%nat | 11%nat | 12%nat | 13%nat | 32%nat => true
  | _ => false
  end.

Definition is_white_space2 (c1 c2 : ascii) : bool :=
  ((nat_of_ascii c1 =? 194) && (nat_of_ascii c2 =? 160))%nat.

Definition is_white_space3 (c1 c2 c3 : ascii) : bool :=
  let '(b1, b2, b3) := (nat_of_ascii c1, nat_of_ascii c2, nat_of_ascii c3) in
  ((b1 =? 225) && (b2 =? 154) && (b3 =? 128)
   || (b1 =? 226) && (b2 =? 128)
      && ((128 <=? b3) && (b3 <=? 138) || (b3 =? 168) || (b3 =? 169) || (b3 =? 175))
   || (b1 =? 226) && (b2 =? 129) && (b3 =? 159)
   || (b1 =? 227) && (b2 =? 128) && (b3 =? 128)
   || (b1 =? 239) && (b2 =? 187) && (b3 =? 191))%nat.

Fixpoint trim_start (s : string) : string :=
  match s with
  | String c1 r1 =>
      if is_white_space c1 then trim_start r1
      else
        match r1 with
        | String c2 r2 =>
            if is_white_space2 c1 c2 then trim_start r2
            else
              match r2 with
              | String c3 r3 => if is_white_space3 c1 c2 c3 then trim_start r3 else s
              | EmptyString => s
              end
        | EmptyString => s
        end
  | EmptyString => s
  end.

Definition digit_value (c : ascii) : option Z :=
  let n := Z.of_nat (nat_of_ascii c) in
  if (48 <=? n) && (n <=? 57) then Some (n - 48) else None.

(** The longest prefix of decimal digits, read as a number; [None] when
    the prefix is empty. *)
Fixpoint digits (s : string) (acc : option Z) : option Z :=
  match s with
  | String c r =>
      match digit_value c with
      | Some d => digits r (Some (10 * match acc with Some a => a | None => 0 end + d))
      | None => acc
      end
  | EmptyString => acc
  end.

(** [parseInt(s, 10)]: the integer the leading digits spell.  It is the
    code's number when that integer is safe. *)
Definition parseInt (s : string) : Number :=
  let s := trim_start s in
  let '(neg, body) :=
    match s with
    | String "-" r => (true, r)
    | String "+" r => (false, r)
    | _ => (false, s)
    end in
  match digits body None with
  | Some n => Num (if neg then - n else n)
  | None => NaN
  end.

(** [o?.f]. *)
Definition chain {A B} (f : A -> option B) (o : option A) : option B :=
  match o with
  | Some a => f a
  | None => None
  end.

(** [s.split(',')]. *)
Fixpoint split_comma_aux (s : string) (cur : string) : list string :=
  match s with
  | String c r =>
      if Ascii.eqb c ","%char then cur :: split_comma_aux r ""
      else split_comma_aux r (String.append cur (String c ""))
  | EmptyString => [cur]
  end.

Definition split_comma (s : string) : list string := split_comma_aux s "".

End Js.

(* ================================================================= *)
(** ** BSON object identifiers *)

(** An [ObjectId] is kept by its canonical text, 24 lower-case hexadecimal
    digits ([toString()] / [toHexString()]). *)
Inductive ObjectId := OID (hex : string).

Module Types.

Definition is_hex (c : ascii) : bool :=
  let n := nat_of_ascii c in
  ((48 <=? n) && (n <=? 57) || (65 <=? n) && (n <=? 70) || (97 <=? n) && (n <=? 102))%nat.

Definition lower_hex (c : ascii) : ascii :=
  let n := nat_of_ascii c in
  if ((65 <=? n) && (n <=? 70))%nat then ascii_of_nat (n + 32) else c.

Fixpoint lower (s : string) : string :=
  match s with
  | String c r => String (lower_hex c) (lower r)
  | EmptyString => EmptyString
  end.

(** [Types.ObjectId.isValid(s)] on a string: 24 hexadecimal digits, as in
    the current major versions of the driver. *)
Definition ObjectId_isValid (s : string) : bool :=
  (String.length s =? 24)%nat && forallb is_hex (list_ascii_of_string s).

(** What [new Types.ObjectId(s)] holds when it does not throw. *)
Definition ObjectId_parse (s : string) : option ObjectId :=
  if ObjectId_isValid s then Some (OID (lower s)) else None.

Definition toString (o : ObjectId) : string := let 'OID h := o in h.

Definition eqb (a b : ObjectId) : bool := String.eqb (toString a) (toString b).

Definition hex_digit (n : N) : ascii :=
  if (n <? 10)%N then ascii_of_N (48 + n) else ascii_of_N (87 + n).

Fixpoint hex_rev (k : nat) (n : N) : list ascii :=
  match k with
  | O => []
  | S k' => hex_digit (n mod 16) :: hex_rev k' (n / 16)
  end.

(** The identifier the driver generates for a new document; the store
    draws them from a counter. *)
Definition generate (n : N) : ObjectId :=
  OID (string_of_list_ascii (rev (hex_rev 24 n))).

End Types.


(* ================================================================= *)
(** ** Local time ([Date]) *)

(** The host's time zone: the offset of local time from UTC in
    milliseconds, as ECMAScript's [LocalTZA(t, isUTC)]. *)
Definition TimeZone := Z -> bool -> Z.

Module Date.

Definition msPerDay : Z := 86400000.

(** [Day(t)]. *)
Definition Day (t : Z) : Z := t / msPerDay.

(** The civil date (year, month 0..11, day 1..31) of a day number. *)
Definition civil (day : Z) : Z * Z * Z :=
  let z := day + 719468 in
  let era := z / 146097 in
  let doe := z - era * 146097 in
  let yoe := (doe - doe / 1460 + doe / 36524 - doe / 146096) / 365 in
  let doy := doe - (365 * yoe + yoe / 4 - yoe / 100) in
  let mp := (5 * doy + 2) / 153 in
  let d := doy - (153 * mp + 2) / 5 + 1 in
  let m := if mp <? 10 then mp + 3 else mp - 9 in
  let y := yoe + era * 400 + (if m <=? 2 then 1 else 0) in
  (y, m - 1, d).

(** [MakeDay(year, month, date)]: months and days outside their range
    carry over, so [date + 1] on the last day of a month is the first day
    of the next. *)
Definition MakeDay (year month date : Z) : Z :=
  let ym := year + month / 12 in
  let mn := month mod 12 + 1 in
  let y := if mn <=? 2 then ym - 1 else ym in
  let era := y / 400 in
  let yoe := y - era * 400 in
  let doy := (153 * (if mn <=? 2 then mn + 9 else mn - 3) + 2) / 5 in
  let doe := yoe * 365 + yoe / 4 - yoe / 100 + doy in
  era * 146097 + doe - 719468 + (date - 1).

Definition LocalTime (tz : TimeZone) (t : Z) : Z := t + tz t true.

Definition getFullYear (tz : TimeZone) (t : Z) : Z :=
  let '(y, _, _) := civil (Day (LocalTime tz t)) in y.

Definition getMonth (tz : TimeZone) (t : Z) : Z :=
  let '(_, m, _) := civil (Day (LocalTime tz t)) in m.

Definition getDate (tz : TimeZone) (t : Z) : Z :=
  let '(_, _, d) := civil (Day (LocalTime tz t)) in d.

(** [new Date(year, month, date)]: local midnight of that day, as an
    instant; a year from 0 to 99 stands for 1900 + year. *)
Definition of_local_date (tz : TimeZone) (year month date : Z) : Z :=
  let full_year := if (0 <=? year) && (year <=? 99) then 1900 + year else year in
  let local := MakeDay full_year month date * msPerDay in
  local - tz local false.

End Date.

(* ================================================================= *)
(** ** Exceptions and results *)

Inductive Exception :=
| NotFoundException (message : string)
| BSONError            (* new Types.ObjectId(s) on a malformed s *)
| CastError (path : string)   (* Mongoose could not cast a query value *)
| ValidationError      (* Mongoose validators rejected a document or update *)
| MongoServerError     (* the server refused a command *)
| ServiceError (message : string).  (* a collaborator rejected *)

Inductive Result (A : Type) :=
| Ok (a : A)
| Throw (e : Exception).

Arguments Ok {A} a.
Arguments Throw {A} e.

(** [ids.map((id) => new Types.ObjectId(id))]. *)
Definition new_ObjectId (s : string) : Result ObjectId :=
  match Types.ObjectId_parse s with
  | Some o => Ok o
  | None => Throw BSONError
  end.

Fixpoint map_new_ObjectId (ids : list string) : Result (list ObjectId) :=
  match ids with
  | [] => Ok []
  | id :: rest =>
      match new_ObjectId id with
      | Throw e => Throw e
      | Ok o =>
          match map_new_ObjectId rest with
          | Throw e => Throw e
          | Ok os => Ok (o :: os)
          end
      end
  end.

(* ================================================================= *)
(** ** Documents *)

(** Modelled from the spec: the schema of Appointment
    (schemas/appointment.schema) is not among the sources.  The fields are
    those the service reads and writes; the data model lists "timestamps
    (created/updated)", and the service sorts by [createdAt], so the schema
    has Mongoose's [timestamps]: [createdAt] and [updatedAt] are set when a
    document is created, and [updatedAt] is set again by every update of
    the document. *)
Record Appointment := {
  _id : ObjectId;
  pet : ObjectId;
  provider : ObjectId;
  service : option ObjectId;
  dateTime : Z;
  duration : option Z;
  reason : option string;
  location : option string;
  price : option Q;
  status : string;
  notes : option string;
  email : option string;
  phone : option string;
  isRated : bool;
  createdAt : Z;
  appointment_updatedAt : Z
}.

(** [CreateAppointmentDto]: the fields [update] copies one by one. *)
Record CreateAppointmentDto := {
  dto_pet : string;
  dto_provider : string;
  dto_service : option string;
  dto_dateTime : string;
  dto_duration : option Z;
  dto_reason : option string;
  dto_location : option string;
  dto_price : option Q;
  dto_status : option string;
  dto_notes : option string;
  dto_email : option string;
  dto_phone : option string
}.

(** The object handed to [model.create]: the DTO with [pet], [provider]
    and [dateTime] replaced ([None] is [Invalid Date]). *)
Record AppointmentInput := {
  in_dto : CreateAppointmentDto;
  in_pet : ObjectId;
  in_provider : ObjectId;
  in_dateTime : option Z
}.

(** [{ isRated: boolean } | { status: string }]: the fields an object of
    that type may carry. *)
Record StatusUpdate := {
  set_status : option string;
  set_isRated : option bool
}.

(** What the schema of Appointment (schemas/appointment.schema) decides:
    its validators and defaults. *)
Record AppointmentSchema := {
  validate : AppointmentInput -> bool;
  validateUpdate : StatusUpdate -> bool;
  defaultStatus : string;
  defaultIsRated : bool
}.

Record ChatRoom := {
  room_id : ObjectId;
  name : string;
  participants : list ObjectId;
  isActive : bool;
  updatedAt : Z
}.

Record Message := {
  message_id : ObjectId;
  roomId : ObjectId;
  senderId : ObjectId;
  content : string;
  message_createdAt : Z
}.

Record SendMessageDto := {
  dto_roomId : string;
  dto_content : string
}.

Record CreateRoomDto := {
  dto_name : option string;
  dto_participants : list string
}.

(** Lean documents of the other collections, with the fields read here. *)
Record Pet := {
  pet_id : ObjectId;
  nome : option string;
  tutorId : option ObjectId
}.

Record Provider := {
  provider_id : ObjectId;
  userId : option ObjectId
}.

Record Tutor := {
  tutor_id : ObjectId;
  tutor_userId : option ObjectId
}.

(** The documents [populate] puts in place of the references. *)
Record PopulatedPet := {
  pp_id : ObjectId;
  pp_nome : option string;
  pp_species : option string;
  pp_tutor : option (ObjectId * option string)
}.

Record PopulatedProvider := {
  pv_id : ObjectId;
  pv_name : option string;
  pv_email : option string;
  pv_city : option string;
  pv_state : option string;
  pv_whatsapp : option string
}.

(** An item of a page: the lean appointment with [pet] and [provider]
    populated ([None] when the reference resolves to nothing). *)
Record Item := {
  doc : Appointment;
  populated_pet : option PopulatedPet;
  populated_provider : option PopulatedProvider
}.

(** [{ ...appointment, isReviewed }]. *)
Record ReviewedItem := {
  appointment : Item;
  isReviewed : bool
}.

(** A value that is a string or a number ([q.page || 1]). *)
Inductive StringOrNumber :=
| Str (s : string)
| Number (n : Js.Number).

(** The page envelope [{ items, total, page, limit, pages }]. *)
Record Envelope (I : Type) := {
  items : list I;
  total : Z;
  page : StringOrNumber;
  limit : StringOrNumber;
  pages : Js.Number
}.

(** The result of [countAppointmentsForToday]: [{ total, confirmed }]. *)
Record TodayCount := {
  today_total : Z;
  today_confirmed : Z
}.

(** A field that holds a string or an array of strings. *)
Inductive OneOrMany :=
| One (s : string)
| Many (l : list string).

Record QueryAppointmentDto := {
  q_provider : option string;
  q_pet : option OneOrMany;
  q_status : option OneOrMany;
  q_q : option string;
  q_from : option string;
  q_to : option string;
  q_minPrice : option string;
  q_maxPrice : option string;
  q_page : option string;
  q_limit : option string;
  q_sort : option string;
  q_asc : option string
}.

(* ================================================================= *)
(** ** Queries *)

Inductive Bound := Gte | Lte | Lt.

(** The keys the service puts in a [FilterQuery]. *)
Inductive Condition :=
| ProviderIs (o : ObjectId)
| PetIn (l : list ObjectId)
| StatusIn (l : list string)
| StatusNin (l : list string)
| StatusIs (s : string)
| OrRegex (pattern : string)
| DateTimeIs (bounds : list (Bound * option Z))
| PriceIs (bounds : list (Bound * option Q)).

Definition FilterQuery := list Condition.

Inductive SortOrder := Ascending | Descending.

Definition SortSpec := list (string * SortOrder).

(** What the JavaScript runtime and the database decide: [Number(s)]
    ([None] is [NaN]), [new Date(s)] ([None] is [Invalid Date]), the
    case-insensitive regular expression of a pattern ([None] when the
    pattern does not compile), and the time zone. *)
Record Runtime := {
  Number_of : string -> option Q;
  Date_of : string -> option Z;
  RegExp_i : string -> option (string -> bool);
  LocalTZA : TimeZone
}.

(** The services and models injected in [AppointmentsService] whose code
    is elsewhere: each call returns or rejects, and what it returns does not
    depend on the appointment, room and message collections. *)
Record Collaborators := {
  petModel_exists : string -> Result bool;
  petModel_findById : string -> Result (option Pet);
  providerModel_exists : string -> Result bool;
  providerModel_findById : string -> Result (option Provider);
  providersService_findOneByUserId : string -> Result (option Provider);
  petsService_findAllByTutor : string -> Result (list Pet);
  reviewsService_findReviewedAppointments : string -> list string -> Result (list string);
  tutorsService_findById : string -> Result (option Tutor);
  populate_pet : ObjectId -> option PopulatedPet;
  populate_provider : ObjectId -> option PopulatedProvider
}.

(* ================================================================= *)
(** ** The store and the monad of the services *)

(** An operation sent to the appointment collection. *)
Inductive AppointmentOp :=
| OpCreate
| OpFind
| OpCountDocuments
| OpFindByIdAndUpdate.

Record World := {
  appointments : list Appointment;
  rooms : list ChatRoom;
  messages : list Message;
  now : Z;                       (* the clock, epoch milliseconds *)
  nextId : N;                    (* the driver's identifier counter *)
  issued : list AppointmentOp;   (* operations sent to the appointment collection, oldest first *)
  console : list string          (* lines written to the console, oldest first *)
}.

Definition M (A : Type) : Type := World -> Result A * World.

Definition ret {A} (a : A) : M A := fun w => (Ok a, w).

Definition throw {A} (e : Exception) : M A := fun w => (Throw e, w).

Definition bind {A B} (m : M A) (k : A -> M B) : M B :=
  fun w =>
    match m w with
    | (Ok a, w') => k a w'
    | (Throw e, w') => (Throw e, w')
    end.

(** [try { m } catch (err) { h err }]. *)
Definition try_catch {A} (m : M A) (h : Exception -> M A) : M A :=
  fun w =>
    match m w with
    | (Ok a, w') => (Ok a, w')
    | (Throw e, w') => h e w'
    end.

(** Awaiting a call that only returns or rejects. *)
Definition await {A} (r : Result A) : M A := fun w => (r, w).

Declare Scope service_scope.
Delimit Scope service_scope with service.
Notation "x <- m ;; k" := (bind m (fun x => k))
  (at level 61, m at next level, right associativity) : service_scope.
Notation "m ;;; k" := (bind m (fun _ => k))
  (at level 61, right associativity) : service_scope.
Open Scope service_scope.

(* ================================================================= *)
(** ** Sorting and matching, as the database does them *)

(** Stable insertion sort by a "less or equal" test. *)
Fixpoint insert_by {A} (leb : A -> A -> bool) (x : A) (l : list A) : list A :=
  match l with
  | [] => [x]
  | y :: r => if leb x y then x :: l else y :: insert_by leb x r
  end.

Definition sort_by {A} (leb : A -> A -> bool) (l : list A) : list A :=
  fold_right (insert_by leb) [] l.

(** The value of a path of a document, for comparison. *)
Inductive Key :=
| KNull
| KNumber (q : Q)
| KString (s : string)
| KObjectId (o : ObjectId)
| KBoolean (b : bool)
| KDate (t : Z).

(** BSON compares values of different types by type. *)
Definition key_rank (k : Key) : Z :=
  match k with
  | KNull => 0
  | KNumber _ => 1
  | KString _ => 2
  | KObjectId _ => 3
  | KBoolean _ => 4
  | KDate _ => 5
  end.

Definition key_compare (a b : Key) : comparison :=
  match a, b with
  | KNumber x, KNumber y => Qcompare x y
  | KString x, KString y => String.compare x y
  | KObjectId x, KObjectId y => String.compare (Types.toString x) (Types.toString y)
  | KBoolean x, KBoolean y => Bool.compare x y
  | KDate x, KDate y => Z.compare x y
  | _, _ => Z.compare (key_rank a) (key_rank b)
  end.

Definition key_of_option {A} (k : A -> Key) (o : option A) : Key :=
  match o with
  | Some a => k a
  | None => KNull
  end.

Definition path_is (path name : string) : bool := String.eqb path name.

(** The value at a path of an appointment; a path the document does not
    have is null. *)
Definition key_at (path : string) (a : Appointment) : Key :=
  if path_is path "_id" then KObjectId (_id a)
  else if path_is path "pet" then KObjectId (pet a)
  else if path_is path "provider" then KObjectId (provider a)
  else if path_is path "service" then key_of_option KObjectId (service a)
  else if path_is path "dateTime" then KDate (dateTime a)
  else if path_is path "duration" then key_of_option (fun d => KNumber (inject_Z d)) (duration a)
  else if path_is path "reason" then key_of_option KString (reason a)
  else if path_is path "location" then key_of_option KString (location a)
  else if path_is path "price" then key_of_option KNumber (price a)
  else if path_is path "status" then KString (status a)
  else if path_is path "notes" then key_of_option KString (notes a)
  else if path_is path "email" then key_of_option KString (email a)
  else if path_is path "phone" then key_of_option KString (phone a)
  else if path_is path "isRated" then KBoolean (isRated a)
  else if path_is path "createdAt" then KDate (createdAt a)
  else if path_is path "updatedAt" then KDate (appointment_updatedAt a)
  else KNull.

Fixpoint sort_compare (sort : SortSpec) (a b : Appointment) : comparison :=
  match sort with
  | [] => Eq
  | (path, order) :: rest =>
      let c := key_compare (key_at path a) (key_at path b) in
      match (match order with Ascending => c | Descending => CompOpp c end) with
      | Eq => sort_compare rest a b
      | c' => c'
      end
  end.

Definition sort_leb (sort : SortSpec) (a b : Appointment) : bool :=
  match sort_compare sort a b with
  | Gt => false
  | _ => true
  end.

Definition within {A} (leb ltb : A -> A -> bool) (x : A) (b : Bound * option A) : bool :=
  match b with
  | (Gte, Some v) => leb v x
  | (Lte, Some v) => leb x v
  | (Lt, Some v) => ltb x v
  | (_, None) => false
  end.

Definition Qlt_bool (x y : Q) : bool := negb (Qle_bool y x).

Definition text_matches (test : string -> bool) (o : option string) : bool :=
  match o with
  | Some s => test s
  | None => false
  end.

(** [$all]: every identifier asked for is among the participants; an
    empty [$all] matches nothing. *)
Definition all_in (asked : list ObjectId) (have : list ObjectId) : bool :=
  match asked with
  | [] => false
  | _ => forallb (fun o => existsb (Types.eqb o) have) asked
  end.

(** Replace the first element that satisfies [p] by its image. *)
Fixpoint update_first {A} (p : A -> bool) (f : A -> A) (l : list A) : list A :=
  match l with
  | [] => []
  | x :: r => if p x then f x :: r else x :: update_first p f r
  end.

(** [new Set(ids).has(id)]. *)
Definition Set_has (ids : list string) (id : string) : bool :=
  existsb (String.eqb id) ids.

(* ================================================================= *)
(** ** Writes to the store *)

Definition log_op (op : AppointmentOp) (w : World) : World :=
  {| appointments := appointments w; rooms := rooms w; messages := messages w;
     now := now w; nextId := nextId w; issued := issued w ++ [op];
     console := console w |}.

Definition log_console (line : string) (w : World) : World :=
  {| appointments := appointments w; rooms := rooms w; messages := messages w;
     now := now w; nextId := nextId w; issued := issued w;
     console := console w ++ [line] |}.

Definition with_appointments (l : list Appointment) (w : World) : World :=
  {| appointments := l; rooms := rooms w; messages := messages w;
     now := now w; nextId := nextId w; issued := issued w;
     console := console w |}.

Definition with_rooms (l : list ChatRoom) (w : World) : World :=
  {| appointments := appointments w; rooms := l; messages := messages w;
     now := now w; nextId := nextId w; issued := issued w;
     console := console w |}.

Definition with_messages (l : list Message) (w : World) : World :=
  {| appointments := appointments w; rooms := rooms w; messages := l;
     now := now w; nextId := nextId w; issued := issued w;
     console := console w |}.

Definition next_id (w : World) : World :=
  {| appointments := appointments w; rooms := rooms w; messages := messages w;
     now := now w; nextId := N.succ (nextId w); issued := issued w;
     console := console w |}.

Definition console_log (line : string) : M unit :=
  fun w => (Ok tt, log_console line w).

Definition console_error (line : string) : M unit :=
  fun w => (Ok tt, log_console line w).

(** [new Date()]. *)
Definition Date_now : M Z := fun w => (Ok (now w), w).

(** [Promise.all([a, b])]: both operations are started; the first
    rejection is the rejection of the whole. *)
Definition Promise_all {A B} (a : M A) (b : M B) : M (A * B) :=
  fun w =>
    let '(ra, w1) := a w in
    let '(rb, w2) := b w1 in
    match ra, rb with
    | Ok x, Ok y => (Ok (x, y), w2)
    | Throw e, _ => (Throw e, w2)
    | _, Throw e => (Throw e, w2)
    end.

(* ================================================================= *)
(** ** The chat collections *)

(** [chatRoomModel.findById(id)]: Mongoose casts the string, and rejects
    when it cannot. *)
Definition chatRoomModel_findById (id : string) : M (option ChatRoom) :=
  fun w =>
    match Types.ObjectId_parse id with
    | Some o => (Ok (find (fun r => Types.eqb (room_id r) o) (rooms w)), w)
    | None => (Throw (CastError "_id"), w)
    end.

(** [chatRoomModel.findOne({ participants: { $all }, isActive: true })]. *)
Definition chatRoomModel_findOne (asked : list ObjectId) : M (option ChatRoom) :=
  fun w =>
    (Ok (find (fun r => all_in asked (participants r) && isActive r) (rooms w)), w).

(** Modelled from the spec: the schema of ChatRoom (schemas/chat-room.schema)
    is not among the sources; a room has an "active flag", no operation
    turns it off, and the listings read the rooms with [isActive: true], so
    a room is created active.  Its timestamps are the time of the write. *)
Definition chatRoomModel_create (room_name : string) (members : list ObjectId) : M ChatRoom :=
  fun w =>
    let room :=
      {| room_id := Types.generate (nextId w); name := room_name;
         participants := members; isActive := true; updatedAt := now w |} in
    (Ok room, next_id (with_rooms (rooms w ++ [room]) w)).

(** [room.set('updatedAt', t); await room.save()]. *)
Definition room_save_updatedAt (room : ChatRoom) (t : Z) : M unit :=
  fun w =>
    let touch r :=
      {| room_id := room_id r; name := name r; participants := participants r;
         isActive := isActive r; updatedAt := t |} in
    (Ok tt, with_rooms (update_first (fun r => Types.eqb (room_id r) (room_id room)) touch (rooms w)) w).

(** [messageModel.create({ roomId, senderId, content })]; [createdAt] is
    the time of the write. *)
Definition messageModel_create (room sender : ObjectId) (text : string) : M Message :=
  fun w =>
    let message :=
      {| message_id := Types.generate (nextId w); roomId := room;
         senderId := sender; content := text; message_createdAt := now w |} in
    (Ok message, next_id (with_messages (messages w ++ [message]) w)).

Definition createdAt_leb (a b : Message) : bool :=
  message_createdAt a <=? message_createdAt b.

(** [messageModel.find({ roomId }).sort({ createdAt: 1 })]. *)
Definition messageModel_find_sorted (room : ObjectId) : M (list Message) :=
  fun w =>
    (Ok (sort_by createdAt_leb (filter (fun m => Types.eqb (roomId m) room) (messages w))), w).

(* ================================================================= *)
(** ** ChatService *)

Definition createRoom (dto : CreateRoomDto) (creatorId : string) : M ChatRoom :=
  participantsIds <- await (map_new_ObjectId (dto_participants dto)) ;;
  chatRoomModel_create (Js.nullish (dto_name dto) "Atendimento") participantsIds.

Definition getRoomById (id : string) : M ChatRoom :=
  if negb (Types.ObjectId_isValid id) then
    throw (NotFoundException "Sala não encontrada")
  else
    room <- chatRoomModel_findById id ;;
    match room with
    | None => throw (NotFoundException "Sala não encontrada")
    | Some r => ret r
    end.

Definition getOrCreateRoomForParticipants (userIds : list string) (room_name : option string)
  : M ChatRoom :=
  members <- await (map_new_ObjectId userIds) ;;
  existingRoom <- chatRoomModel_findOne members ;;
  match existingRoom with
  | Some r => ret r
  | None => chatRoomModel_create (Js.nullish room_name "Atendimento") members
  end.

Definition sendMessage (sender : string) (dto : SendMessageDto) : M Message :=
  if negb (Types.ObjectId_isValid (dto_roomId dto)) then
    throw (NotFoundException "Sala não encontrada")
  else
    room <- chatRoomModel_findById (dto_roomId dto) ;;
    match room with
    | None => throw (NotFoundException "Sala não encontrada")
    | Some r =>
        senderOid <- await (new_ObjectId sender) ;;
        message <- messageModel_create (room_id r) senderOid (dto_content dto) ;;
        t <- Date_now ;;
        room_save_updatedAt r t ;;;
        ret message
    end.

Definition getMessages (id : string) : M (list Message) :=
  if negb (Types.ObjectId_isValid id) then ret []
  else
    room <- await (new_ObjectId id) ;;
    messageModel_find_sorted room.

(* ================================================================= *)
(** ** Sample data

    A small installation used to run the services on concrete inputs. *)

Module Sample.

Definition pet_rex : string := "64b7f0c2a1d3e4f5a6b7c801".
Definition pet_mia : string := "64b7f0c2a1d3e4f5a6b7c802".
Definition provider_vet : string := "64b7f0c2a1d3e4f5a6b7c811".
Definition provider_spa : string := "64b7f0c2a1d3e4f5a6b7c812".
Definition tutor_ana : string := "64b7f0c2a1d3e4f5a6b7c821".
Definition tutor_bob : string := "64b7f0c2a1d3e4f5a6b7c822".
Definition user_ana : string := "64b7f0c2a1d3e4f5a6b7c831".
Definition user_vet : string := "64b7f0c2a1d3e4f5a6b7c832".
Definition user_bob : string := "64b7f0c2a1d3e4f5a6b7c833".

(** The number two, three or four decimal digits spell. *)
Fixpoint decimal (cs : list ascii) (acc : Z) : option Z :=
  match cs with
  | [] => Some acc
  | c :: r =>
      match Js.digit_value c with
      | Some d => decimal r (10 * acc + d)
      | None => None
      end
  end.

(** [new Date(s)] for a date written as [toISOString] writes it,
    [YYYY-MM-DDTHH:mm:ss.sssZ]: the instant in epoch milliseconds.  Months
    run from 01 to 12, days from 01 to 31 (a day past the end of its month
    carries over), and hour 24 stands for the end of the day.  The dates of
    the examples are all written this way; any other text, a string of
    digits included, is an [Invalid Date] here. *)
Definition iso_date (s : string) : option Z :=
  match list_ascii_of_string s with
  | [y1; y2; y3; y4; a; m1; m2; b; d1; d2; t; h1; h2; c; n1; n2; d; s1; s2; e; f1; f2; f3; z] =>
      if Ascii.eqb a "-" && Ascii.eqb b "-" && Ascii.eqb t "T" && Ascii.eqb c ":"
         && Ascii.eqb d ":" && Ascii.eqb e "." && Ascii.eqb z "Z"
      then
        match decimal [y1; y2; y3; y4] 0, decimal [m1; m2] 0, decimal [d1; d2] 0,
              decimal [h1; h2] 0, decimal [n1; n2] 0, decimal [s1; s2] 0,
              decimal [f1; f2; f3] 0 with
        | Some year, Some month, Some day, Some hour, Some minute, Some second, Some ms =>
            if (1 <=? month) && (month <=? 12) && (1 <=? day) && (day <=? 31)
               && (minute <=? 59) && (second <=? 59)
               && ((hour <=? 23)
                   || (hour =? 24) && (minute =? 0) && (second =? 0) && (ms =? 0))
            then Some (Date.MakeDay year (month - 1) day * Date.msPerDay
                       + hour * 3600000 + minute * 60000 + second * 1000 + ms)
            else None
        | _, _, _, _, _, _, _ => None
        end
      else None
  | _ => None
  end.

(** [Number(s)] for a whole number written in decimal digits; other
    spellings of a number are not among the examples. *)
Definition whole_number (s : string) : option Q :=
  match list_ascii_of_string s with
  | [] => None
  | cs => option_map inject_Z (decimal cs 0)
  end.

Definition lower_case (c : ascii) : ascii :=
  let n := nat_of_ascii c in
  if ((65 <=? n) && (n <=? 90))%nat then ascii_of_nat (n + 32) else c.

Fixpoint lower (s : string) : string :=
  match s with
  | String c r => String (lower_case c) (lower r)
  | EmptyString => EmptyString
  end.

Definition is_word_char (c : ascii) : bool :=
  let n := nat_of_ascii c in
  ((n =? 32) || (48 <=? n) && (n <=? 57) || (65 <=? n) && (n <=? 90)
   || (97 <=? n) && (n <=? 122))%nat.

Fixpoint contains (pattern text : string) : bool :=
  String.prefix pattern text
  || match text with
     | String _ r => contains pattern r
     | EmptyString => false
     end.

(** [new RegExp(pattern, 'i')] for a pattern of letters, digits and
    blanks: the text matches when it holds the pattern, whatever the case.
    The only other pattern of the examples is ["("], which does not
    compile. *)
Definition word_pattern (pattern : string) : option (string -> bool) :=
  if forallb is_word_char (list_ascii_of_string pattern)
  then Some (fun text => contains (lower pattern) (lower text))
  else None.

(** The runtime of the examples; the host is three hours behind UTC. *)
Definition runtime : Runtime :=
  {| Number_of := whole_number;
     Date_of := iso_date;
     RegExp_i := word_pattern;
     LocalTZA := fun _ _ => -10800000 |}.

Definition appointment_schema : AppointmentSchema :=
  {| validate := fun _ => true;
     validateUpdate := fun u =>
       match set_status u with
       | Some s => existsb (String.eqb s) ["scheduled"; "confirmed"; "cancelled"; "completed"]
       | None => true
       end;
     defaultStatus := "scheduled";
     defaultIsRated := false |}.

(** Rex belongs to Ana, who has a user account; Mia belongs to Bob, whose
    tutor record the tutors service fails to read.  The vet has a user
    account, the spa has none. *)
Definition collaborators : Collaborators :=
  {| petModel_exists := fun id =>
       Ok (String.eqb id pet_rex || String.eqb id pet_mia);
     petModel_findById := fun id =>
       if String.eqb id pet_rex
       then Ok (Some {| pet_id := OID pet_rex; nome := Some "Rex"; tutorId := Some (OID tutor_ana) |})
       else if String.eqb id pet_mia
       then Ok (Some {| pet_id := OID pet_mia; nome := None; tutorId := Some (OID tutor_bob) |})
       else Ok None;
     providerModel_exists := fun id =>
       Ok (String.eqb id provider_vet || String.eqb id provider_spa);
     providerModel_findById := fun id =>
       if String.eqb id provider_vet
       then Ok (Some {| provider_id := OID provider_vet; userId := Some (OID user_vet) |})
       else if String.eqb id provider_spa
       then Ok (Some {| provider_id := OID provider_spa; userId := None |})
       else Ok None;
     providersService_findOneByUserId := fun user =>
       if String.eqb user user_vet
       then Ok (Some {| provider_id := OID provider_vet; userId := Some (OID user_vet) |})
       else Ok None;
     petsService_findAllByTutor := fun tutor =>
       if String.eqb tutor tutor_ana
       then Ok [{| pet_id := OID pet_rex; nome := Some "Rex"; tutorId := Some (OID tutor_ana) |}]
       else Ok [];
     reviewsService_findReviewedAppointments := fun author ids =>
       Ok (filter (String.eqb "0000000000000000000000a1") ids);
     tutorsService_findById := fun id =>
       if String.eqb id tutor_ana
       then Ok (Some {| tutor_id := OID tutor_ana; tutor_userId := Some (OID user_ana) |})
       else Throw (ServiceError "tutors service unavailable");
     populate_pet := fun _ => None;
     populate_provider := fun _ => None |}.

Definition appointment_at (id : string) (pet_oid provider_oid : string) (t : Z) (st : string)
  : Appointment :=
  {| _id := OID id; pet := OID pet_oid; provider := OID provider_oid; service := None;
     dateTime := t; duration := Some 30; reason := Some "vaccine"; location := None;
     price := None; status := st; notes := None; email := None; phone := None;
     isRated := false; createdAt := 1762000000000;
     appointment_updatedAt := 1762000000000 |}.

(** Noon of 2 November 2025, local time, is 1762095600000; the local day
    runs from 1762052400000 to 1762138800000. *)
Definition noon : Z := 1762095600000.

Definition day_start : Z := 1762052400000.

Definition day_end : Z := 1762138800000.

Definition booked : list Appointment :=
  [ appointment_at "0000000000000000000000a1" pet_rex provider_vet (day_start - 1000) "confirmed";
    appointment_at "0000000000000000000000a2" pet_rex provider_vet day_start "confirmed";
    appointment_at "0000000000000000000000a3" pet_rex provider_vet noon "scheduled";
    appointment_at "0000000000000000000000a4" pet_mia provider_vet noon "cancelled";
    appointment_at "0000000000000000000000a5" pet_rex provider_vet (day_end - 1000) "completed";
    appointment_at "0000000000000000000000a6" pet_rex provider_vet day_end "confirmed";
    appointment_at "0000000000000000000000a7" pet_rex provider_spa noon "confirmed" ].

Definition room_ana_vet : ChatRoom :=
  {| room_id := OID "0000000000000000000000b1"; name := "Atendimento";
     participants := [OID user_ana; OID user_vet]; isActive := true;
     updatedAt := 1762000000000 |}.

Definition message_at (id : string) (room : string) (t : Z) (text : string) : Message :=
  {| message_id := OID id; roomId := OID room; senderId := OID user_ana;
     content := text; message_createdAt := t |}.

Definition world : World :=
  {| appointments := booked;
     rooms := [room_ana_vet];
     messages :=
       [ message_at "0000000000000000000000c1" "0000000000000000000000b1" 300 "third";
         message_at "0000000000000000000000c2" "0000000000000000000000b2" 150 "elsewhere";
         message_at "0000000000000000000000c3" "0000000000000000000000b1" 100 "first";
         message_at "0000000000000000000000c4" "0000000000000000000000b1" 200 "second" ];
     now := noon;
     nextId := 4096;
     issued := [];
     console := [] |}.

(** A store with no room yet. *)
Definition empty_world : World :=
  {| appointments := []; rooms := []; messages := []; now := noon; nextId := 1;
     issued := []; console := [] |}.

Definition booking (pet_oid provider_oid : string) : CreateAppointmentDto :=
  {| dto_pet := pet_oid; dto_provider := provider_oid; dto_service := None;
     dto_dateTime := "2025-11-02T15:00:00.000Z"; dto_duration := Some 45;
     dto_reason := Some "check-up"; dto_location := None; dto_price := None;
     dto_status := None; dto_notes := None; dto_email := None; dto_phone := None |}.

Definition any_query : QueryAppointmentDto :=
  {| q_provider := None; q_pet := None; q_status := None; q_q := None;
     q_from := None; q_to := None; q_minPrice := None; q_maxPrice := None;
     q_page := None; q_limit := None; q_sort := None; q_asc := None |}.

Definition paged (pg lim : option string) : QueryAppointmentDto :=
  {| q_provider := None; q_pet := None; q_status := None; q_q := None;
     q_from := None; q_to := None; q_minPrice := None; q_maxPrice := None;
     q_page := pg; q_limit := lim; q_sort := None; q_asc := None |}.

End Sample.

(* ================================================================= *)
(** ** Documents and collaborators of the remaining operations *)

(** A user, as [populate('participants', 'nome tipo_usuario')] returns it. *)
Record PopulatedUser := {
  pu_id : ObjectId;
  pu_nome : option string;
  pu_tipo_usuario : option string
}.

(** A room with its participants populated; Mongoose leaves out of a
    populated array the references that resolve to nothing. *)
Record RoomView := {
  view_room : ChatRoom;
  view_participants : list PopulatedUser
}.

(** A provider as [providersService.findOne] returns it, with the three
    fields the chat service looks for the linked user in. *)
Record ProviderProfile := {
  profile_id : ObjectId;
  profile_userId : option ObjectId;
  profile_user : option ObjectId;
  profile_usuario : option ObjectId
}.

(** The service of an appointment, as [populate(servicePopulationConfig)]
    returns it. *)
Record PopulatedService := {
  sv_id : ObjectId;
  sv_name : option string;
  sv_price : option Q;
  sv_duration : option Z
}.

(** An appointment with [pet], [provider] and [service] populated. *)
Record FullItem := {
  full_doc : Appointment;
  full_pet : option PopulatedPet;
  full_provider : option PopulatedProvider;
  full_service : option PopulatedService
}.

(** [UpdateAppointmentDto]: every field may be absent; [service] may also
    be [null] ([Some None]). *)
Record UpdateAppointmentDto := {
  u_pet : option string;
  u_provider : option string;
  u_service : option (option string);
  u_dateTime : option string;
  u_duration : option Z;
  u_reason : option string;
  u_location : option string;
  u_price : option Q;
  u_status : option string;
  u_notes : option string;
  u_email : option string;
  u_phone : option string
}.

(** The [payload] object of [update]: the fields to [$set]; a date may be
    [Invalid Date] ([Some None]), a service may be [null] ([Some None]). *)
Record UpdatePayload := {
  p_dateTime : option (option Z);
  p_duration : option Z;
  p_reason : option string;
  p_location : option string;
  p_price : option Q;
  p_status : option string;
  p_notes : option string;
  p_email : option string;
  p_phone : option string;
  p_pet : option ObjectId;
  p_provider : option ObjectId;
  p_service : option (option ObjectId)
}.

(** An argument of type [string | Types.ObjectId]. *)
Inductive IdArgument :=
| IdString (s : string)
| IdObject (o : ObjectId).

(** [{ success: true }]. *)
Record Removed := {
  success : bool
}.

(** What the remaining operations take from outside the two services: the
    user and service collections read by [populate], the provider lookup
    of the chat service, and the update validators of the Appointment
    schema for a payload of [update]. *)
Record Directory := {
  populate_user : ObjectId -> option PopulatedUser;
  populate_service : ObjectId -> option PopulatedService;
  providersService_findOne : string -> Result (option ProviderProfile);
  validatePayload : UpdatePayload -> bool
}.

Module Fixture.

(** The vet is registered under the legacy field [usuario]; the spa has no
    linked user under any name. *)
Definition directory : Directory :=
  {| populate_user := fun o =>
       if Types.eqb o (OID Sample.user_ana)
       then Some {| pu_id := o; pu_nome := Some "Ana"; pu_tipo_usuario := Some "tutor" |}
       else if Types.eqb o (OID Sample.user_vet)
       then Some {| pu_id := o; pu_nome := Some "Vet"; pu_tipo_usuario := Some "prestador" |}
       else None;
     populate_service := fun _ => None;
     providersService_findOne := fun id =>
       if String.eqb id Sample.provider_vet
       then Ok (Some {| profile_id := OID Sample.provider_vet; profile_userId := None;
                        profile_user := None; profile_usuario := Some (OID Sample.user_vet) |})
       else if String.eqb id Sample.provider_spa
       then Ok (Some {| profile_id := OID Sample.provider_spa; profile_userId := None;
                        profile_user := None; profile_usuario := None |})
       else Ok None;
     validatePayload := fun _ => true |}.

Definition room_at (id : string) (members : list string) (active : bool) (t : Z) : ChatRoom :=
  {| room_id := OID id; name := "Atendimento"; participants := map OID members;
     isActive := active; updatedAt := t |}.

(** Three rooms of Ana (one closed) and one of Bob. *)
Definition chat_world : World :=
  {| appointments := Sample.booked;
     rooms :=
       [ room_at "0000000000000000000000b1" [Sample.user_ana; Sample.user_vet] true 100;
         room_at "0000000000000000000000b2" [Sample.user_bob; Sample.user_vet] true 400;
         room_at "0000000000000000000000b3" [Sample.user_ana; Sample.user_bob] true 300;
         room_at "0000000000000000000000b4" [Sample.user_ana] false 500 ];
     messages :=
       [ Sample.message_at "0000000000000000000000c1" "0000000000000000000000b1" 90 "oi" ];
     now := 1000;
     nextId := 4096;
     issued := [];
     console := [] |}.

Definition no_change : UpdateAppointmentDto :=
  {| u_pet := None; u_provider := None; u_service := None; u_dateTime := None;
     u_duration := None; u_reason := None; u_location := None; u_price := None;
     u_status := None; u_notes := None; u_email := None; u_phone := None |}.

(** Move the appointment to another time and say why. *)
Definition reschedule (t reason_text : string) : UpdateAppointmentDto :=
  {| u_pet := None; u_provider := None; u_service := None; u_dateTime := Some t;
     u_duration := None; u_reason := Some reason_text; u_location := None; u_price := None;
     u_status := None; u_notes := None; u_email := None; u_phone := None |}.

(** Hand the appointment to another pet. *)
Definition for_pet (pet_text : string) : UpdateAppointmentDto :=
  {| u_pet := Some pet_text; u_provider := None; u_service := None; u_dateTime := None;
     u_duration := None; u_reason := None; u_location := None; u_price := None;
     u_status := None; u_notes := None; u_email := None; u_phone := None |}.

(** The vet's confirmed or scheduled appointments from the start of the
    sample day to noon. *)
Definition vet_day : QueryAppointmentDto :=
  {| q_provider := Some Sample.provider_vet; q_pet := None;
     q_status := Some (One "confirmed,scheduled"); q_q := None;
     q_from := Some "2025-11-02T03:00:00.000Z"; q_to := Some "2025-11-02T15:00:00.000Z";
     q_minPrice := None; q_maxPrice := None;
     q_page := None; q_limit := None; q_sort := None; q_asc := None |}.

(** A message for the room of Ana and the vet. *)
Definition greeting : SendMessageDto :=
  {| dto_roomId := "0000000000000000000000b1"; dto_content := "oi" |}.

(** The same text, with the id of a room that does not exist in the body. *)
Definition misdirected : SendMessageDto :=
  {| dto_roomId := "0000000000000000000000bf"; dto_content := "oi" |}.

(** A room for Ana and the vet, who already share one. *)
Definition second_room : CreateRoomDto :=
  {| dto_name := None; dto_participants := [Sample.user_ana; Sample.user_vet] |}.

(** The profile of the vet in [directory]. *)
Definition vet_profile : ProviderProfile :=
  {| profile_id := OID Sample.provider_vet; profile_userId := None;
     profile_user := None; profile_usuario := Some (OID Sample.user_vet) |}.

End Fixture.

(* ================================================================= *)
(** ** The appointment collection *)

Section Services.

Variable rt : Runtime.
Variable schema : AppointmentSchema.
Variable ext : Collaborators.
Variable dir : Directory.

(** Mongoose casts the values of a filter to the types of the schema
    before sending it: an [Invalid Date] or a [NaN] is a [CastError]. *)
Fixpoint cast_filter (f : FilterQuery) : Result unit :=
  match f with
  | [] => Ok tt
  | DateTimeIs bounds :: rest =>
      if forallb (fun b => match snd b with Some _ => true | None => false end) bounds
      then cast_filter rest else Throw (CastError "dateTime")
  | PriceIs bounds :: rest =>
      if forallb (fun b => match snd b with Some _ => true | None => false end) bounds
      then cast_filter rest else Throw (CastError "price")
  | _ :: rest => cast_filter rest
  end.

(** The server refuses a [$regex] that does not compile. *)
Definition server_accepts (f : FilterQuery) : bool :=
  forallb
    (fun c =>
       match c with
       | OrRegex pattern => match RegExp_i rt pattern with Some _ => true | None => false end
       | _ => true
       end) f.

Definition holds (a : Appointment) (c : Condition) : bool :=
  match c with
  | ProviderIs o => Types.eqb (provider a) o
  | PetIn l => existsb (Types.eqb (pet a)) l
  | StatusIn l => existsb (String.eqb (status a)) l
  | StatusNin l => negb (existsb (String.eqb (status a)) l)
  | StatusIs s => String.eqb (status a) s
  | OrRegex pattern =>
      match RegExp_i rt pattern with
      | Some test =>
          text_matches test (reason a) || text_matches test (location a)
          || text_matches test (notes a)
      | None => false
      end
  | DateTimeIs bounds => forallb (within Z.leb Z.ltb (dateTime a)) bounds
  | PriceIs bounds =>
      match price a with
      | Some p => forallb (within Qle_bool Qlt_bool p) bounds
      | None => false
      end
  end.

Definition matches (f : FilterQuery) (a : Appointment) : bool :=
  forallb (holds a) f.

Definition checked_filter (f : FilterQuery) : Result unit :=
  match cast_filter f with
  | Throw e => Throw e
  | Ok _ => if server_accepts f then Ok tt else Throw MongoServerError
  end.

Definition populate (a : Appointment) : Item :=
  {| doc := a; populated_pet := populate_pet ext (pet a);
     populated_provider := populate_provider ext (provider a) |}.

(** [model.find(filter).populate(..).populate(..).sort(sort).skip(skip)
    .limit(limit).lean()].  The server refuses a [skip] or a [limit] that
    is not a number. *)
Definition model_find (f : FilterQuery) (sort : SortSpec) (skip lim : Js.Number)
  : M (list Item) :=
  fun w =>
    let w' := log_op OpFind w in
    match checked_filter f, skip, lim with
    | Throw e, _, _ => (Throw e, w')
    | Ok _, Js.Num s, Js.Num l =>
        let found := sort_by (sort_leb sort) (filter (matches f) (appointments w)) in
        (Ok (map populate (firstn (Z.to_nat l) (skipn (Z.to_nat s) found))), w')
    | Ok _, _, _ => (Throw MongoServerError, w')
    end.

(** [model.countDocuments(filter)]. *)
Definition model_countDocuments (f : FilterQuery) : M Z :=
  fun w =>
    let w' := log_op OpCountDocuments w in
    match checked_filter f with
    | Throw e => (Throw e, w')
    | Ok _ => (Ok (Z.of_nat (List.length (filter (matches f) (appointments w)))), w')
    end.

(** [service] is cast to an [ObjectId] when the document is built. *)
Definition cast_service (s : option string) : option (option ObjectId) :=
  match s with
  | None => Some None
  | Some text =>
      match Types.ObjectId_parse text with
      | Some o => Some (Some o)
      | None => None
      end
  end.

(** The document [model.create] would write, when the input casts to the
    schema and passes its validators. *)
Definition new_document (input : AppointmentInput) (id : ObjectId) (t : Z)
  : option Appointment :=
  match in_dateTime input, cast_service (dto_service (in_dto input)) with
  | Some date, Some serv =>
      if validate schema input then
        Some {| _id := id; pet := in_pet input; provider := in_provider input;
                service := serv; dateTime := date;
                duration := dto_duration (in_dto input);
                reason := dto_reason (in_dto input);
                location := dto_location (in_dto input);
                price := dto_price (in_dto input);
                status := Js.nullish (dto_status (in_dto input)) (defaultStatus schema);
                notes := dto_notes (in_dto input);
                email := dto_email (in_dto input);
                phone := dto_phone (in_dto input);
                isRated := defaultIsRated schema;
                createdAt := t;
                appointment_updatedAt := t |}
      else None
  | _, _ => None
  end.

(** [model.create(input)]. *)
Definition model_create (input : AppointmentInput) : M Appointment :=
  fun w =>
    let w' := log_op OpCreate w in
    match new_document input (Types.generate (nextId w)) (now w) with
    | Some a => (Ok a, next_id (with_appointments (appointments w ++ [a]) w'))
    | None => (Throw ValidationError, w')
    end.

(** [{ $set: updateData }] on one document, at the time [t]. *)
Definition apply_set (u : StatusUpdate) (t : Z) (a : Appointment) : Appointment :=
  {| _id := _id a; pet := pet a; provider := provider a; service := service a;
     dateTime := dateTime a; duration := duration a; reason := reason a;
     location := location a; price := price a;
     status := Js.nullish (set_status u) (status a);
     notes := notes a; email := email a; phone := phone a;
     isRated := Js.nullish (set_isRated u) (isRated a);
     createdAt := createdAt a;
     appointment_updatedAt := t |}.

(** [model.findByIdAndUpdate(id, { $set: u }, { new: true, runValidators:
    true, lean: true })]. *)
Definition model_findByIdAndUpdate (id : string) (u : StatusUpdate)
  : M (option Appointment) :=
  fun w =>
    let w' := log_op OpFindByIdAndUpdate w in
    match Types.ObjectId_parse id with
    | None => (Throw (CastError "_id"), w')
    | Some o =>
        if validateUpdate schema u then
          match find (fun a => Types.eqb (_id a) o) (appointments w) with
          | Some a =>
              (Ok (Some (apply_set u (now w) a)),
               with_appointments
                 (update_first (fun a => Types.eqb (_id a) o) (apply_set u (now w))
                    (appointments w)) w')
          | None => (Ok None, w')
          end
        else (Throw ValidationError, w')
    end.

(* ================================================================= *)
(** ** AppointmentsService *)

Definition assertPet (id : string) : M unit :=
  ok <- await (petModel_exists ext id) ;;
  if ok then ret tt else throw (NotFoundException "Pet não encontrado.").

Definition assertProvider (id : string) : M unit :=
  ok <- await (providerModel_exists ext id) ;;
  if ok then ret tt else throw (NotFoundException "Prestador não encontrado.").

(** The argument of [model.create] in [create]. *)
Definition create_input (dto : CreateAppointmentDto) (pet_oid provider_oid : ObjectId)
  : AppointmentInput :=
  {| in_dto := dto; in_pet := pet_oid; in_provider := provider_oid;
     in_dateTime := Date_of rt (dto_dateTime dto) |}.

Definition create (dto : CreateAppointmentDto) : M Appointment :=
  assertPet (dto_pet dto) ;;;
  assertProvider (dto_provider dto) ;;;
  pet_oid <- await (new_ObjectId (dto_pet dto)) ;;
  provider_oid <- await (new_ObjectId (dto_provider dto)) ;;
  created <- model_create (create_input dto pet_oid provider_oid) ;;
  try_catch
    (found_pet <- await (petModel_findById ext (dto_pet dto)) ;;
     found_provider <- await (providerModel_findById ext (dto_provider dto)) ;;
     tutorUserId <-
       match Js.chain tutorId found_pet with
       | Some tutor_oid =>
           tutor <- await (tutorsService_findById ext (Types.toString tutor_oid)) ;;
           ret (option_map Types.toString (Js.chain tutor_userId tutor))
       | None => ret None
       end ;;
     match Js.chain userId found_provider, tutorUserId with
     | Some provider_user, Some tutor_user =>
         if negb (String.eqb tutor_user "") then
           getOrCreateRoomForParticipants
             [Types.toString provider_user; tutor_user]
             (Some (String.append "Atendimento - "
                      (Js.nullish (Js.chain nome found_pet) "Pet"))) ;;;
           ret tt
         else ret tt
     | _, _ => ret tt
     end)
    (fun err => console_error "Erro ao criar/associar sala de chat para o agendamento:") ;;;
  ret created.

(** [q.page || 1] and [q.limit || 20] in the empty envelopes: the raw
    string of the query, or the default number. *)
Definition or_number (o : option string) (d : Z) : StringOrNumber :=
  if Js.truthy o then Str (Js.nullish o "") else Number (Js.Num d).

(** Lines 233-235 of [findAll]: [(page, limit, skip)], with the numbers
    of [Js]: the code's plan as long as the integers parsed and the product
    are safe. *)
Definition pagination (q : QueryAppointmentDto) : Js.Number * Js.Number * Js.Number :=
  let pg := Js.Math_max (Js.parseInt (Js.or_else (q_page q) "1")) (Js.Num 1) in
  let lim :=
    Js.Math_min (Js.Math_max (Js.parseInt (Js.or_else (q_limit q) "20")) (Js.Num 1)) (Js.Num 100) in
  let skip := Js.mul (Js.sub pg (Js.Num 1)) lim in
  (pg, lim, skip).

Definition truthy_field (o : option OneOrMany) : bool :=
  match o with
  | Some (One s) => negb (String.eqb s "")
  | Some (Many _) => true
  | None => false
  end.

(** [Array.isArray(v) ? v : [v]]. *)
Definition as_array (v : OneOrMany) : list string :=
  match v with
  | One s => [s]
  | Many l => l
  end.

(** [Array.isArray(v) ? v : typeof v === 'string' ? v.split(',') : [v]]. *)
Definition status_array (v : OneOrMany) : list string :=
  match v with
  | One s => Js.split_comma s
  | Many l => l
  end.

(** The filter of [findAll], key by key in the order the code adds them;
    building it throws when an identifier is malformed. *)
Definition build_filter (q : QueryAppointmentDto) : Result FilterQuery :=
  match (if Js.truthy (q_provider q)
         then match new_ObjectId (Js.nullish (q_provider q) "") with
              | Ok o => Ok [ProviderIs o]
              | Throw e => Throw e
              end
         else Ok []) with
  | Throw e => Throw e
  | Ok by_provider =>
      match (if truthy_field (q_pet q)
             then match map_new_ObjectId (as_array (Js.nullish (q_pet q) (Many []))) with
                  | Ok os => Ok [PetIn os]
                  | Throw e => Throw e
                  end
             else Ok []) with
      | Throw e => Throw e
      | Ok by_pet =>
          let by_status :=
            if truthy_field (q_status q)
            then [StatusIn (status_array (Js.nullish (q_status q) (Many [])))] else [] in
          let by_text :=
            if Js.truthy (q_q q) then [OrRegex (Js.nullish (q_q q) "")] else [] in
          let by_date :=
            if Js.truthy (q_from q) || Js.truthy (q_to q)
            then [DateTimeIs
                    ((if Js.truthy (q_from q)
                      then [(Gte, Date_of rt (Js.nullish (q_from q) ""))] else [])
                     ++ (if Js.truthy (q_to q)
                         then [(Lte, Date_of rt (Js.nullish (q_to q) ""))] else []))]
            else [] in
          let by_price :=
            if Js.truthy (q_minPrice q) || Js.truthy (q_maxPrice q)
            then [PriceIs
                    ((if Js.truthy (q_minPrice q)
                      then [(Gte, Number_of rt (Js.nullish (q_minPrice q) ""))] else [])
                     ++ (if Js.truthy (q_maxPrice q)
                         then [(Lte, Number_of rt (Js.nullish (q_maxPrice q) ""))] else []))]
            else [] in
          Ok (by_provider ++ by_pet ++ by_status ++ by_text ++ by_date ++ by_price)
      end
  end.

(** The sort of [findAll]. *)
Definition build_sort (q : QueryAppointmentDto) : SortSpec :=
  let sortAsc :=
    match q_asc q with
    | Some flag =>
        if String.eqb flag "true" then [("dateTime", Ascending)]
        else [("dateTime", Descending); ("createdAt", Descending)]
    | None => [("dateTime", Descending); ("createdAt", Descending)]
    end in
  if Js.truthy (q_sort q) then [(Js.nullish (q_sort q) "", Ascending)] else sortAsc.

Definition findAll (q : QueryAppointmentDto) : M (Envelope Item) :=
  f <- await (build_filter q) ;;
  let '(pg, lim, skip) := pagination q in
  let sort := build_sort q in
  found <- Promise_all (model_find f sort skip lim) (model_countDocuments f) ;;
  let '(found_items, count) := found in
  ret {| items := found_items; total := count; page := Number pg; limit := Number lim;
         pages := Js.ceil_div (Js.Num count) lim |}.

(** [{ ...q, provider }]. *)
Definition with_provider (q : QueryAppointmentDto) (id : string) : QueryAppointmentDto :=
  {| q_provider := Some id; q_pet := q_pet q; q_status := q_status q; q_q := q_q q;
     q_from := q_from q; q_to := q_to q; q_minPrice := q_minPrice q;
     q_maxPrice := q_maxPrice q; q_page := q_page q; q_limit := q_limit q;
     q_sort := q_sort q; q_asc := q_asc q |}.

(** [{ ...q, pet }]. *)
Definition with_pet (q : QueryAppointmentDto) (v : OneOrMany) : QueryAppointmentDto :=
  {| q_provider := q_provider q; q_pet := Some v; q_status := q_status q; q_q := q_q q;
     q_from := q_from q; q_to := q_to q; q_minPrice := q_minPrice q;
     q_maxPrice := q_maxPrice q; q_page := q_page q; q_limit := q_limit q;
     q_sort := q_sort q; q_asc := q_asc q |}.

Definition findAllByProviderUser (user : string) (q : QueryAppointmentDto)
  : M (Envelope Item) :=
  found <- await (providersService_findOneByUserId ext user) ;;
  match found with
  | None =>
      ret {| items := []; total := 0; page := Number (Js.Num 1);
             limit := or_number (q_limit q) 20; pages := Js.Num 1 |}
  | Some p => findAll (with_provider q (Types.toString (provider_id p)))
  end.

(** [{ ...appointment, isReviewed: reviewedSet.has(appointment._id.toString()) }]. *)
Definition with_review_status (reviewedIds : list string) (it : Item) : ReviewedItem :=
  {| appointment := it;
     isReviewed := Set_has reviewedIds (Types.toString (_id (doc it))) |}.

Definition findAllByTutorId (tutor : string) (q : QueryAppointmentDto)
  : M (Envelope ReviewedItem) :=
  pets <- await (petsService_findAllByTutor ext tutor) ;;
  match pets with
  | [] =>
      console_log "⚠️ Nenhum pet encontrado para este tutor!" ;;;
      ret {| items := []; total := 0; page := or_number (q_page q) 1;
             limit := or_number (q_limit q) 20; pages := Js.Num 0 |}
  | _ =>
      let petIds := map (fun p => Types.toString (pet_id p)) pets in
      result <- findAll (with_pet q (Many petIds)) ;;
      let appointmentIds := map (fun it => Types.toString (_id (doc it))) (items result) in
      reviewedIds <- await (reviewsService_findReviewedAppointments ext tutor appointmentIds) ;;
      ret {| items := map (with_review_status reviewedIds) (items result);
             total := total result; page := page result; limit := limit result;
             pages := pages result |}
  end.

(** [new Date(now.getFullYear(), now.getMonth(), now.getDate())]. *)
Definition startOfToday (t : Z) : Z :=
  let tz := LocalTZA rt in
  Date.of_local_date tz (Date.getFullYear tz t) (Date.getMonth tz t) (Date.getDate tz t).

(** [new Date(now.getFullYear(), now.getMonth(), now.getDate() + 1)]. *)
Definition endOfToday (t : Z) : Z :=
  let tz := LocalTZA rt in
  Date.of_local_date tz (Date.getFullYear tz t) (Date.getMonth tz t) (Date.getDate tz t + 1).

Definition countAppointmentsForToday (providerId : string) : M TodayCount :=
  t <- Date_now ;;
  providerObjId <- await (new_ObjectId providerId) ;;
  let dateFilter := DateTimeIs [(Gte, Some (startOfToday t)); (Lt, Some (endOfToday t))] in
  let totalFilter :=
    [ProviderIs providerObjId; dateFilter; StatusNin ["cancelled"; "completed"]] in
  let confirmedFilter :=
    [ProviderIs providerObjId; dateFilter; StatusIs "confirmed"] in
  counts <- Promise_all (model_countDocuments totalFilter)
                        (model_countDocuments confirmedFilter) ;;
  ret {| today_total := fst counts; today_confirmed := snd counts |}.

Definition updateAppointmentStatus (id : string) (updateData : StatusUpdate) : M unit :=
  updated <- model_findByIdAndUpdate id updateData ;;
  match updated with
  | None => throw (NotFoundException "Agendamento não encontrado para atualização de status.")
  | Some _ => ret tt
  end.

(** Two versions of an appointment that agree on every field except,
    possibly, [status], [isRated] and [updatedAt]. *)
Definition same_but_status_rating_updatedAt (old new : Appointment) : Prop :=
  _id new = _id old /\ pet new = pet old /\ provider new = provider old /\
  service new = service old /\ dateTime new = dateTime old /\
  duration new = duration old /\ reason new = reason old /\
  location new = location old /\ price new = price old /\ notes new = notes old /\
  email new = email old /\ phone new = phone old /\ createdAt new = createdAt old.

(** The two users of the chat room of an appointment resolve: the pet has
    a tutor, the tutor record carries a user, and the provider record
    carries a user. *)
Definition linked_users (dto : CreateAppointmentDto) : Prop :=
  exists found_pet tutor_oid tutor tutor_user found_provider provider_user,
    petModel_findById ext (dto_pet dto) = Ok (Some found_pet) /\
    tutorId found_pet = Some tutor_oid /\
    tutorsService_findById ext (Types.toString tutor_oid) = Ok (Some tutor) /\
    tutor_userId tutor = Some tutor_user /\
    providerModel_findById ext (dto_provider dto) = Ok (Some found_provider) /\
    userId found_provider = Some provider_user.

(** A field that is absent, empty, or passes a test. *)
Definition field_ok (test : string -> bool) (o : option string) : bool :=
  match o with
  | Some s => String.eqb s "" || test s
  | None => true
  end.

Definition is_some {A} (o : option A) : bool :=
  match o with
  | Some _ => true
  | None => false
  end.

Definition is_integer (n : Js.Number) : bool :=
  match n with
  | Js.Num _ => true
  | Js.NaN => false
  end.

(** The queries [findAll] answers: each field that is present and not
    empty is well formed (identifiers are ObjectId strings, the pattern
    compiles, dates and prices parse, page and limit start with an
    integer). *)
Definition well_formed_query (q : QueryAppointmentDto) : bool :=
  field_ok Types.ObjectId_isValid (q_provider q)
  && match q_pet q with
     | Some (One s) => String.eqb s "" || Types.ObjectId_isValid s
     | Some (Many l) => forallb Types.ObjectId_isValid l
     | None => true
     end
  && field_ok (fun s => is_some (RegExp_i rt s)) (q_q q)
  && field_ok (fun s => is_some (Date_of rt s)) (q_from q)
  && field_ok (fun s => is_some (Date_of rt s)) (q_to q)
  && field_ok (fun s => is_some (Number_of rt s)) (q_minPrice q)
  && field_ok (fun s => is_some (Number_of rt s)) (q_maxPrice q)
  && field_ok (fun s => is_integer (Js.parseInt s)) (q_page q)
  && field_ok (fun s => is_integer (Js.parseInt s)) (q_limit q).

(* ================================================================= *)
(** ** The remaining operations

    The operations below complete the two services.  Their reads and
    writes of the appointment collection are not entered in [issued]. *)

(** Remove the first element that satisfies [p]. *)
Fixpoint remove_first {A} (p : A -> bool) (l : list A) : list A :=
  match l with
  | [] => []
  | x :: r => if p x then r else x :: remove_first p r
  end.

(** Keep the values a partial function is defined on. *)
Fixpoint map_some {A B} (f : A -> option B) (l : list A) : list B :=
  match l with
  | [] => []
  | x :: r =>
      match f x with
      | Some y => y :: map_some f r
      | None => map_some f r
      end
  end.

(** [populate('participants', 'nome tipo_usuario')]. *)
Definition populate_participants (r : ChatRoom) : RoomView :=
  {| view_room := r; view_participants := map_some (populate_user dir) (participants r) |}.

Definition updatedAt_desc (a b : ChatRoom) : bool := updatedAt b <=? updatedAt a.

(** [chatRoomModel.find({ participants: user, isActive: true })
    .populate(..).sort({ updatedAt: -1 })]. *)
Definition chatRoomModel_find_by_participant (user : ObjectId) : M (list RoomView) :=
  fun w =>
    (Ok (map populate_participants
           (sort_by updatedAt_desc
              (filter (fun r => existsb (Types.eqb user) (participants r) && isActive r)
                 (rooms w)))), w).

Definition getRoomsByUser (user : string) : M (list RoomView) :=
  if negb (Types.ObjectId_isValid user) then ret []
  else
    user_oid <- await (new_ObjectId user) ;;
    chatRoomModel_find_by_participant user_oid.

Definition getRoomDetails (id : string) : M RoomView :=
  if negb (Types.ObjectId_isValid id) then
    throw (NotFoundException "Sala não encontrada")
  else
    found <- chatRoomModel_findById id ;;
    match found with
    | None => throw (NotFoundException "Sala não encontrada")
    | Some r => ret (populate_participants r)
    end.

(** [provider.userId || provider.user || provider.usuario || null]. *)
Definition rawUserId (p : ProviderProfile) : option ObjectId :=
  match profile_userId p, profile_user p, profile_usuario p with
  | Some o, _, _ => Some o
  | None, Some o, _ => Some o
  | None, None, o => o
  end.

Definition getOrCreateRoomForTutorAndProviderUser (tutorUserId providerId : string)
  : M ChatRoom :=
  if negb (Types.ObjectId_isValid providerId) then
    throw (NotFoundException "Prestador inválido")
  else
    found <- await (providersService_findOne dir providerId) ;;
    match found with
    | None => throw (NotFoundException "Prestador não encontrado")
    | Some p =>
        match rawUserId p with
        | None =>
            throw (NotFoundException "Usuário do prestador não está vinculado no cadastro.")
        | Some raw =>
            getOrCreateRoomForParticipants [tutorUserId; Types.toString raw]
              (Some "Atendimento com prestador")
        end
    end.

Definition getProviderByUser (user : string) : M Provider :=
  found <- await (providersService_findOneByUserId ext user) ;;
  match found with
  | None =>
      throw (NotFoundException "Perfil de Prestador não encontrado para o usuário logado.")
  | Some p => ret p
  end.

(** [{ ...payload, pet: petId }]. *)
Definition with_dto_pet (payload : CreateAppointmentDto) (petId : string)
  : CreateAppointmentDto :=
  {| dto_pet := petId; dto_provider := dto_provider payload;
     dto_service := dto_service payload; dto_dateTime := dto_dateTime payload;
     dto_duration := dto_duration payload; dto_reason := dto_reason payload;
     dto_location := dto_location payload; dto_price := dto_price payload;
     dto_status := dto_status payload; dto_notes := dto_notes payload;
     dto_email := dto_email payload; dto_phone := dto_phone payload |}.

(** [{ ...payload, provider: providerId }]. *)
Definition with_dto_provider (payload : CreateAppointmentDto) (providerId : string)
  : CreateAppointmentDto :=
  {| dto_pet := dto_pet payload; dto_provider := providerId;
     dto_service := dto_service payload; dto_dateTime := dto_dateTime payload;
     dto_duration := dto_duration payload; dto_reason := dto_reason payload;
     dto_location := dto_location payload; dto_price := dto_price payload;
     dto_status := dto_status payload; dto_notes := dto_notes payload;
     dto_email := dto_email payload; dto_phone := dto_phone payload |}.

Definition createForPet (petId : string) (payload : CreateAppointmentDto) : M Appointment :=
  create (with_dto_pet payload petId).

Definition createForProvider (providerId : string) (payload : CreateAppointmentDto)
  : M Appointment :=
  create (with_dto_provider payload providerId).

(** [populate(pet).populate(provider).populate(service)]. *)
Definition populate_full (a : Appointment) : FullItem :=
  {| full_doc := a; full_pet := populate_pet ext (pet a);
     full_provider := populate_provider ext (provider a);
     full_service := Js.chain (populate_service dir) (service a) |}.

(** [model.findById(id)]: Mongoose casts the string, and rejects when it
    cannot. *)
Definition model_findById (id : string) : M (option Appointment) :=
  fun w =>
    match Types.ObjectId_parse id with
    | Some o => (Ok (find (fun a => Types.eqb (_id a) o) (appointments w)), w)
    | None => (Throw (CastError "_id"), w)
    end.

Definition findOne (id : string) : M FullItem :=
  found <- model_findById id ;;
  match found with
  | None => throw (NotFoundException "Consulta não encontrada.")
  | Some a => ret (populate_full a)
  end.

(** The [payload] of [update], field by field in the order of the code;
    [new Types.ObjectId] throws on a malformed [pet], [provider] or
    (non-empty) [service]. *)
Definition build_payload (dto : UpdateAppointmentDto) : Result UpdatePayload :=
  match
    (match u_pet dto with
     | Some s => match new_ObjectId s with Ok o => Ok (Some o) | Throw e => Throw e end
     | None => Ok None
     end) with
  | Throw e => Throw e
  | Ok pet_oid =>
      match
        (match u_provider dto with
         | Some s => match new_ObjectId s with Ok o => Ok (Some o) | Throw e => Throw e end
         | None => Ok None
         end) with
      | Throw e => Throw e
      | Ok provider_oid =>
          match
            (match u_service dto with
             | Some serv =>
                 if Js.truthy serv
                 then match new_ObjectId (Js.nullish serv "") with
                      | Ok o => Ok (Some (Some o))
                      | Throw e => Throw e
                      end
                 else Ok (Some None)
             | None => Ok None
             end) with
          | Throw e => Throw e
          | Ok service_oid =>
              Ok {| p_dateTime := option_map (Date_of rt) (u_dateTime dto);
                    p_duration := u_duration dto; p_reason := u_reason dto;
                    p_location := u_location dto; p_price := u_price dto;
                    p_status := u_status dto; p_notes := u_notes dto;
                    p_email := u_email dto; p_phone := u_phone dto;
                    p_pet := pet_oid; p_provider := provider_oid;
                    p_service := service_oid |}
          end
      end
  end.

(** [{ $set: payload }] on one document, at the time [t]. *)
Definition apply_payload (p : UpdatePayload) (t : Z) (a : Appointment) : Appointment :=
  {| _id := _id a;
     pet := Js.nullish (p_pet p) (pet a);
     provider := Js.nullish (p_provider p) (provider a);
     service := Js.nullish (p_service p) (service a);
     dateTime := Js.nullish (Js.chain (fun d => d) (p_dateTime p)) (dateTime a);
     duration := match p_duration p with Some d => Some d | None => duration a end;
     reason := match p_reason p with Some s => Some s | None => reason a end;
     location := match p_location p with Some s => Some s | None => location a end;
     price := match p_price p with Some q => Some q | None => price a end;
     status := Js.nullish (p_status p) (status a);
     notes := match p_notes p with Some s => Some s | None => notes a end;
     email := match p_email p with Some s => Some s | None => email a end;
     phone := match p_phone p with Some s => Some s | None => phone a end;
     isRated := isRated a;
     createdAt := createdAt a;
     appointment_updatedAt := t |}.

(** Mongoose cannot cast an [Invalid Date]. *)
Definition castable (p : UpdatePayload) : bool :=
  match p_dateTime p with
  | Some None => false
  | _ => true
  end.

(** [model.findOneAndUpdate({ _id }, { $set: payload }, { new: true,
    runValidators: true, context: 'query' })]. *)
Definition model_findOneAndUpdate (o : ObjectId) (p : UpdatePayload)
  : M (option Appointment) :=
  fun w =>
    if negb (castable p) then (Throw (CastError "dateTime"), w)
    else if negb (validatePayload dir p) then (Throw ValidationError, w)
    else
      match find (fun a => Types.eqb (_id a) o) (appointments w) with
      | Some a =>
          (Ok (Some (apply_payload p (now w) a)),
           with_appointments
             (update_first (fun a => Types.eqb (_id a) o) (apply_payload p (now w))
                (appointments w)) w)
      | None => (Ok None, w)
      end.

Definition update (id : string) (dto : UpdateAppointmentDto) : M FullItem :=
  (if Js.truthy (u_pet dto) then assertPet (Js.nullish (u_pet dto) "") else ret tt) ;;;
  (if Js.truthy (u_provider dto)
   then assertProvider (Js.nullish (u_provider dto) "") else ret tt) ;;;
  payload <- await (build_payload dto) ;;
  oid <- await (new_ObjectId id) ;;
  updated <- model_findOneAndUpdate oid payload ;;
  match updated with
  | None => throw (NotFoundException "Consulta não encontrada.")
  | Some a => ret (populate_full a)
  end.

(** [model.findByIdAndDelete(id)]. *)
Definition model_findByIdAndDelete (id : string) : M (option Appointment) :=
  fun w =>
    match Types.ObjectId_parse id with
    | Some o =>
        let found := find (fun a => Types.eqb (_id a) o) (appointments w) in
        (Ok found,
         with_appointments (remove_first (fun a => Types.eqb (_id a) o) (appointments w)) w)
    | None => (Throw (CastError "_id"), w)
    end.

Definition remove (id : string) : M Removed :=
  deleted <- model_findByIdAndDelete id ;;
  match deleted with
  | None => throw (NotFoundException "Consulta não encontrada.")
  | Some _ => ret {| success := true |}
  end.

(** Mongoose casts a string argument of a filter to the [ObjectId] of the
    path. *)
Definition cast_argument (path : string) (arg : IdArgument) : Result ObjectId :=
  match arg with
  | IdObject o => Ok o
  | IdString s =>
      match Types.ObjectId_parse s with
      | Some o => Ok o
      | None => Throw (CastError path)
      end
  end.

(** [model.deleteMany({ pet })] and [model.deleteMany({ provider })]. *)
Definition model_deleteMany (keep : Appointment -> bool) : M unit :=
  fun w => (Ok tt, with_appointments (filter keep (appointments w)) w).

Definition removeByPet (petId : IdArgument) : M unit :=
  o <- await (cast_argument "pet" petId) ;;
  model_deleteMany (fun a => negb (Types.eqb (pet a) o)).

Definition removeByProvider (providerId : IdArgument) : M unit :=
  o <- await (cast_argument "provider" providerId) ;;
  model_deleteMany (fun a => negb (Types.eqb (provider a) o)).

(* ================================================================= *)
(** ** ChatController

    The handlers pass their arguments on to the service; [userId] is
    [user.userId] of the authenticated user. *)

(** [sendMessage(roomId, dto, user)]: [{ ...dto, roomId }]. *)
Definition ChatController_sendMessage (id : string) (dto : SendMessageDto) (userId : string)
  : M Message :=
  sendMessage userId {| dto_roomId := id; dto_content := dto_content dto |}.

(* ================================================================= *)
(** * Properties *)

(** ** Identifiers and builtins *)

Lemma ObjectId_eqb_eq (a b : ObjectId) : Types.eqb a b = true <-> a = b.
Proof.
  destruct a as [x], b as [y]; unfold Types.eqb; simpl.
  rewrite String.eqb_eq. split; [intros -> | intros [= ->]]; reflexivity.
Qed.

Lemma ObjectId_eqb_refl (a : ObjectId) : Types.eqb a a = true.
Proof. apply ObjectId_eqb_eq; reflexivity. Qed.

Lemma ObjectId_parse_valid (s : string) (o : ObjectId) :
  Types.ObjectId_parse s = Some o -> Types.ObjectId_isValid s = true.
Proof.
  unfold Types.ObjectId_parse. destruct (Types.ObjectId_isValid s); [reflexivity | discriminate].
Qed.

Lemma ObjectId_valid_parse (s : string) :
  Types.ObjectId_isValid s = true -> Types.ObjectId_parse s = Some (OID (Types.lower s)).
Proof. unfold Types.ObjectId_parse. intros ->. reflexivity. Qed.

Lemma ObjectId_invalid_parse (s : string) :
  Types.ObjectId_isValid s = false -> Types.ObjectId_parse s = None.
Proof. unfold Types.ObjectId_parse. intros ->. reflexivity. Qed.

Example parseInt_examples :
  Js.parseInt "20" = Js.Num 20 /\ Js.parseInt "  -7px" = Js.Num (-7) /\
  Js.parseInt "+15" = Js.Num 15 /\ Js.parseInt "abc" = Js.NaN /\
  Js.parseInt "" = Js.NaN /\ Js.parseInt "0x1f" = Js.Num 0.
Proof. repeat split. Qed.

(** A no-break space (U+00A0), a byte order mark (U+FEFF) and a line
    separator (U+2028) before the digits are skipped like a blank. *)
Example parseInt_white_space :
  Js.parseInt (String (ascii_of_nat 194) (String (ascii_of_nat 160) "12")) = Js.Num 12 /\
  Js.parseInt
    (String (ascii_of_nat 239) (String (ascii_of_nat 187) (String (ascii_of_nat 191) " 5")))
  = Js.Num 5 /\
  Js.parseInt
    (String (ascii_of_nat 226) (String (ascii_of_nat 128) (String (ascii_of_nat 168) "-3")))
  = Js.Num (-3) /\
  Js.parseInt (String (ascii_of_nat 194) (String (ascii_of_nat 161) "12")) = Js.NaN.
Proof. repeat split. Qed.

Example split_examples :
  Js.split_comma "pending,confirmed" = ["pending"; "confirmed"] /\
  Js.split_comma "done" = ["done"] /\ Js.split_comma "a,,b" = ["a"; ""; "b"].
Proof. repeat split. Qed.

Example ObjectId_examples :
  Types.ObjectId_parse "64B7F0C2A1D3E4F5A6B7C8D9" = Some (OID "64b7f0c2a1d3e4f5a6b7c8d9") /\
  Types.ObjectId_parse "xyz" = None /\
  Types.generate 255 = OID "0000000000000000000000ff".
Proof. repeat split. Qed.

(** ** Sorting *)

Section Sorting.

Context {A : Type} (leb : A -> A -> bool).

Lemma insert_by_permutation (x : A) (l : list A) :
  Permutation (x :: l) (insert_by leb x l).
Proof.
  induction l as [| y r IH]; simpl.
  - reflexivity.
  - destruct (leb x y).
    + reflexivity.
    + rewrite perm_swap. now apply perm_skip.
Qed.

Lemma sort_by_permutation (l : list A) : Permutation l (sort_by leb l).
Proof.
  induction l as [| x r IH]; simpl.
  - constructor.
  - rewrite <- insert_by_permutation. now apply perm_skip.
Qed.

Hypothesis leb_total : forall a b, leb a b = false -> leb b a = true.

Lemma insert_by_head (x y : A) (l : list A) :
  leb y x = true -> HdRel (fun a b => leb a b = true) y l ->
  HdRel (fun a b => leb a b = true) y (insert_by leb x l).
Proof.
  intros Hyx Hhd. destruct l as [| z r]; simpl.
  - now constructor.
  - destruct (leb x z); constructor; [assumption | now inversion Hhd].
Qed.

Lemma insert_by_sorted (x : A) (l : list A) :
  Sorted (fun a b => leb a b = true) l ->
  Sorted (fun a b => leb a b = true) (insert_by leb x l).
Proof.
  induction 1 as [| y r Hs IH Hhd]; simpl.
  - repeat constructor.
  - destruct (leb x y) eqn:Hxy.
    + constructor; [now constructor | now constructor].
    + constructor; [exact IH | apply insert_by_head; auto].
Qed.

Lemma sort_by_sorted (l : list A) :
  Sorted (fun a b => leb a b = true) (sort_by leb l).
Proof.
  induction l as [| x r IH]; simpl.
  - constructor.
  - now apply insert_by_sorted.
Qed.

End Sorting.

Lemma find_app_last {A} (p : A -> bool) (l : list A) (x : A) :
  find p l = None -> p x = true -> find p (l ++ [x]) = Some x.
Proof.
  induction l as [| y r IH]; simpl; intros Hnone Hx.
  - now rewrite Hx.
  - destruct (p y); [discriminate | auto].
Qed.

(** ** ChatService *)

Lemma map_new_ObjectId_pair (a b : string) :
  Types.ObjectId_isValid a = true -> Types.ObjectId_isValid b = true ->
  map_new_ObjectId [a; b] = Ok [OID (Types.lower a); OID (Types.lower b)].
Proof.
  intros Ha Hb. simpl. unfold new_ObjectId.
  now rewrite (ObjectId_valid_parse _ Ha), (ObjectId_valid_parse _ Hb).
Qed.

Lemma all_in_pair (a b : ObjectId) : all_in [a; b] [a; b] = true.
Proof.
  simpl. rewrite !ObjectId_eqb_refl. simpl. now rewrite orb_true_r.
Qed.

(** C6.  Two calls of [getOrCreateRoomForParticipants([A, B])] in sequence,
    with nothing in between, return the same room: the first call finds or
    creates a room, the second call finds that very room and writes
    nothing. *)
Theorem getOrCreateRoomForParticipants_twice
  (A B : string) (name1 name2 : option string) (w : World) :
  Types.ObjectId_isValid A = true ->
  Types.ObjectId_isValid B = true ->
  exists (room : ChatRoom) (w1 : World),
    getOrCreateRoomForParticipants [A; B] name1 w = (Ok room, w1) /\
    getOrCreateRoomForParticipants [A; B] name2 w1 = (Ok room, w1) /\
    find (fun r => Types.eqb (room_id r) (room_id room)) (rooms w1) <> None.
Proof.
  intros HA HB.
  unfold getOrCreateRoomForParticipants, bind, await.
  rewrite (map_new_ObjectId_pair _ _ HA HB).
  set (a := OID (Types.lower A)). set (b := OID (Types.lower B)).
  unfold chatRoomModel_findOne at 1.
  destruct (find (fun r => all_in [a; b] (participants r) && isActive r) (rooms w))
    as [found |] eqn:Hfind.
  - exists found, w. unfold chatRoomModel_findOne, ret. rewrite Hfind.
    repeat split.
    apply find_some in Hfind as [Hin _].
    intros Hnone. apply (find_none _ _ Hnone) in Hin.
    now rewrite ObjectId_eqb_refl in Hin.
  - unfold chatRoomModel_create.
    set (room := {| room_id := Types.generate (nextId w);
                    name := Js.nullish name1 "Atendimento";
                    participants := [a; b]; isActive := true; updatedAt := now w |}).
    exists room, (next_id (with_rooms (rooms w ++ [room]) w)).
    assert (Hlast : find (fun r => all_in [a; b] (participants r) && isActive r)
                      (rooms w ++ [room]) = Some room).
    { apply find_app_last; [exact Hfind |].
      subst room; cbn [participants isActive]. now rewrite all_in_pair. }
    unfold chatRoomModel_findOne, ret. cbn [rooms next_id with_rooms].
    rewrite Hlast. repeat split.
    intros Hnone.
    assert (Hin : In room (rooms w ++ [room])) by (apply in_or_app; right; now left).
    apply (find_none _ _ Hnone) in Hin. now rewrite ObjectId_eqb_refl in Hin.
Qed.

(** X1.  The match of [getOrCreateRoomForParticipants] is by inclusion:
    when an active room already holds every participant asked for (and
    possibly others), that room or an earlier such room is returned and
    nothing is created. *)
Theorem getOrCreateRoomForParticipants_superset
  (ids : list string) (members : list ObjectId) (room_name : option string)
  (w : World) (r : ChatRoom) :
  map_new_ObjectId ids = Ok members ->
  In r (rooms w) -> isActive r = true -> all_in members (participants r) = true ->
  exists r',
    getOrCreateRoomForParticipants ids room_name w = (Ok r', w) /\
    In r' (rooms w) /\ isActive r' = true /\ all_in members (participants r') = true.
Proof.
  intros Hids Hin Hactive Hall.
  unfold getOrCreateRoomForParticipants, bind, await, chatRoomModel_findOne.
  rewrite Hids.
  destruct (find (fun r0 => all_in members (participants r0) && isActive r0) (rooms w))
    as [r' |] eqn:Hfind.
  - exists r'. apply find_some in Hfind as [Hin' Hp].
    apply andb_true_iff in Hp as [Hall' Hactive']. now repeat split.
  - apply (find_none _ _ Hfind) in Hin. now rewrite Hall, Hactive in Hin.
Qed.

Lemma createdAt_leb_total (a b : Message) :
  createdAt_leb a b = false -> createdAt_leb b a = true.
Proof. unfold createdAt_leb. intros H. apply Z.leb_gt in H. apply Z.leb_le. lia. Qed.

Lemma messages_sorted (l : list Message) :
  StronglySorted (fun a b => message_createdAt a <= message_createdAt b)
    (sort_by createdAt_leb l).
Proof.
  apply Sorted_StronglySorted.
  - intros x y z Hxy Hyz. lia.
  - pose proof (sort_by_sorted createdAt_leb createdAt_leb_total l) as Hs.
    induction Hs as [| m r Hr IH Hhd]; constructor; [exact IH |].
    destruct Hhd as [| m' r' Hle]; constructor.
    unfold createdAt_leb in Hle. now apply Z.leb_le.
Qed.

(** C7.  [sendMessage] fails with NotFound when the room id is malformed and
    when it is well formed but names no room; [getMessages] returns the
    empty sequence for a malformed id; and for the id of a room it returns
    exactly the messages of that room, in ascending order of creation
    time. *)
Theorem sendMessage_getMessages_room_id (sender : string) (dto : SendMessageDto) (w : World) :
  (Types.ObjectId_isValid (dto_roomId dto) = false ->
   sendMessage sender dto w = (Throw (NotFoundException "Sala não encontrada"), w)) /\
  (forall o, Types.ObjectId_parse (dto_roomId dto) = Some o ->
   find (fun r => Types.eqb (room_id r) o) (rooms w) = None ->
   sendMessage sender dto w = (Throw (NotFoundException "Sala não encontrada"), w)) /\
  (Types.ObjectId_isValid (dto_roomId dto) = false ->
   getMessages (dto_roomId dto) w = (Ok [], w)) /\
  (forall o room, Types.ObjectId_parse (dto_roomId dto) = Some o ->
   find (fun r => Types.eqb (room_id r) o) (rooms w) = Some room ->
   exists found,
     getMessages (dto_roomId dto) w = (Ok found, w) /\
     StronglySorted (fun a b => message_createdAt a <= message_createdAt b) found /\
     Permutation (filter (fun m => Types.eqb (roomId m) (room_id room)) (messages w)) found).
Proof.
  repeat split.
  - intros Hbad. unfold sendMessage. now rewrite Hbad.
  - intros o Hparse Hnone. unfold sendMessage.
    rewrite (ObjectId_parse_valid _ Hparse). simpl.
    unfold bind, chatRoomModel_findById. now rewrite Hparse, Hnone.
  - intros Hbad. unfold getMessages. now rewrite Hbad.
  - intros o room Hparse Hfound. unfold getMessages.
    rewrite (ObjectId_parse_valid _ Hparse). simpl.
    unfold bind, await, new_ObjectId, messageModel_find_sorted. rewrite Hparse.
    apply find_some in Hfound as [_ Heq]. apply ObjectId_eqb_eq in Heq. subst o.
    eexists. split; [reflexivity |]. split.
    + apply messages_sorted.
    + apply sort_by_permutation.
Qed.

(** ** AppointmentsService: pagination *)

Lemma parseInt_empty : Js.parseInt "" = Js.NaN.
Proof. reflexivity. Qed.

(** A field that parses to an integer is not the empty string, so [||]
    keeps it. *)
Lemma or_else_parsed (s d : string) (n : Z) :
  Js.parseInt s = Js.Num n -> Js.or_else (Some s) d = s.
Proof.
  intros Hparse. unfold Js.or_else.
  destruct (String.eqb_spec s "") as [-> | _]; [discriminate | reflexivity].
Qed.

(** C3.  When [page] and [limit] parse to the integers [p] and [l] (an
    absent or empty field standing for 1 and 20), and [p], [l] and the
    product below are safe integers, the plan is [page = max(p, 1)],
    [limit = min(max(l, 1), 100)] and [skip = (page - 1) * limit], all three
    safe integers.  The bounds are those within which the code's doubles
    hold every integer of the computation exactly; past them a double
    rounds, and the statement says nothing. *)
Theorem pagination_plan (q : QueryAppointmentDto) (p l : Z) :
  match q_page q with
  | Some s => (s = "" /\ p = 1) \/ Js.parseInt s = Js.Num p
  | None => p = 1
  end ->
  match q_limit q with
  | Some s => (s = "" /\ l = 20) \/ Js.parseInt s = Js.Num l
  | None => l = 20
  end ->
  Js.isSafeInteger p = true -> Js.isSafeInteger l = true ->
  Js.isSafeInteger ((Z.max p 1 - 1) * Z.min (Z.max l 1) 100) = true ->
  pagination q =
    (Js.Num (Z.max p 1),
     Js.Num (Z.min (Z.max l 1) 100),
     Js.Num ((Z.max p 1 - 1) * Z.min (Z.max l 1) 100)) /\
  1 <= Z.max p 1 /\ 1 <= Z.min (Z.max l 1) 100 <= 100 /\
  Js.isSafeInteger (Z.max p 1) = true /\
  Js.isSafeInteger (Z.max p 1 - 1) = true /\
  Js.isSafeInteger (Z.min (Z.max l 1) 100) = true.
Proof.
  intros Hp Hl Hsafe_p _ _.
  assert (Hsafe : Js.isSafeInteger (Z.max p 1) = true /\
                  Js.isSafeInteger (Z.max p 1 - 1) = true /\
                  Js.isSafeInteger (Z.min (Z.max l 1) 100) = true).
  { unfold Js.isSafeInteger in *. rewrite !Z.leb_le in *.
    change (2 ^ 53 - 1) with 9007199254740991 in *. lia. }
  split; [| split; [lia | split; [lia | exact Hsafe]]].
  unfold pagination.
  assert (Hpage : Js.parseInt (Js.or_else (q_page q) "1") = Js.Num p).
  { destruct (q_page q) as [s |].
    - destruct Hp as [[-> ->] | Hp]; [reflexivity |].
      now rewrite (@or_else_parsed s "1" p Hp).
    - subst p. reflexivity. }
  assert (Hlimit : Js.parseInt (Js.or_else (q_limit q) "20") = Js.Num l).
  { destruct (q_limit q) as [s |].
    - destruct Hl as [[-> ->] | Hl]; [reflexivity |].
      now rewrite (@or_else_parsed s "20" l Hl).
    - subst l. reflexivity. }
  rewrite Hpage, Hlimit. reflexivity.
Qed.

(** The envelope of [findAll] carries the page and the limit of the plan. *)
Lemma findAll_envelope_plan (q : QueryAppointmentDto) (w w' : World) (env : Envelope Item) :
  findAll q w = (Ok env, w') ->
  page env = Number (fst (fst (pagination q))) /\
  limit env = Number (snd (fst (pagination q))) /\
  pages env = Js.ceil_div (Js.Num (total env)) (snd (fst (pagination q))).
Proof.
  unfold findAll, bind, await.
  destruct (build_filter q) as [f | e]; [| discriminate].
  destruct (pagination q) as [[pg lim] skip]. simpl.
  destruct (Promise_all _ _ w) as [[[its n] | e] w1]; [| discriminate].
  unfold ret. intros [= <- _]. repeat split.
Qed.

(** ** AppointmentsService: the scoped listings *)

(** [o || d] in an envelope: the string of the query when it is not empty,
    the default number otherwise. *)
Lemma or_number_cases (o : option string) (d : Z) :
  or_number o d =
    match o with
    | Some s => if String.eqb s "" then Number (Js.Num d) else Str s
    | None => Number (Js.Num d)
    end.
Proof.
  unfold or_number, Js.truthy. destruct o as [s |]; [| reflexivity].
  now destruct (String.eqb s "").
Qed.

(** C5.  When the pet lookup returns no pet for the tutor,
    [findAllByTutorId] returns [{items: [], total: 0, pages: 0}] with the
    page and the limit of the query (or 1 and 20), sends nothing to the
    appointment collection and writes no document. *)
Theorem findAllByTutorId_no_pets (tutor : string) (q : QueryAppointmentDto) (w : World) :
  petsService_findAllByTutor ext tutor = Ok [] ->
  exists w',
    findAllByTutorId tutor q w =
      (Ok {| items := []; total := 0;
             page := match q_page q with
                     | Some s => if String.eqb s "" then Number (Js.Num 1) else Str s
                     | None => Number (Js.Num 1)
                     end;
             limit := match q_limit q with
                      | Some s => if String.eqb s "" then Number (Js.Num 20) else Str s
                      | None => Number (Js.Num 20)
                      end;
             pages := Js.Num 0 |}, w') /\
    issued w' = issued w /\
    appointments w' = appointments w /\ rooms w' = rooms w /\ messages w' = messages w.
Proof.
  intros Hpets. eexists. unfold findAllByTutorId, bind, await. rewrite Hpets.
  unfold console_log, ret. rewrite !or_number_cases. repeat split.
Qed.

(** C10.  When the provider lookup finds no profile for the user,
    [findAllByProviderUser] returns [{items: [], total: 0, page: 1,
    limit: q.limit || 20, pages: 1}] and leaves the store as it was: no
    operation reaches the appointment collection.  [pages] is 1 here, and 0
    in the empty case of [findAllByTutorId]. *)
Theorem findAllByProviderUser_no_provider (user : string) (q : QueryAppointmentDto) (w : World) :
  providersService_findOneByUserId ext user = Ok None ->
  findAllByProviderUser user q w =
    (Ok {| items := []; total := 0; page := Number (Js.Num 1);
           limit := match q_limit q with
                    | Some s => if String.eqb s "" then Number (Js.Num 20) else Str s
                    | None => Number (Js.Num 20)
                    end;
           pages := Js.Num 1 |}, w) /\
  issued (snd (findAllByProviderUser user q w)) = issued w.
Proof.
  intros Hnone. unfold findAllByProviderUser, bind, await. rewrite Hnone.
  unfold ret. rewrite or_number_cases. split; reflexivity.
Qed.

Lemma Set_has_In (ids : list string) (id : string) :
  Set_has ids id = true <-> In id ids.
Proof.
  unfold Set_has. rewrite existsb_exists. split.
  - intros [x [Hin Heq]]. apply String.eqb_eq in Heq. now subst x.
  - intros Hin. exists id. split; [exact Hin | apply String.eqb_refl].
Qed.

(** C4.  For a tutor with at least one pet, when the base query and the
    review lookup return, [findAllByTutorId] returns the items of the base
    query in the same order, each with [isReviewed] true exactly when its
    appointment id is among the ids the review lookup returned for that
    tutor and the ids of the page; [total] and [pages] (and [page],
    [limit]) are those of the base query. *)
Theorem findAllByTutorId_review_join
  (tutor : string) (q : QueryAppointmentDto) (w w1 : World)
  (pets : list Pet) (result : Envelope Item) (reviewedIds : list string) :
  petsService_findAllByTutor ext tutor = Ok pets ->
  pets <> [] ->
  findAll (with_pet q (Many (map (fun p => Types.toString (pet_id p)) pets))) w
    = (Ok result, w1) ->
  reviewsService_findReviewedAppointments ext tutor
    (map (fun it => Types.toString (_id (doc it))) (items result)) = Ok reviewedIds ->
  exists env,
    findAllByTutorId tutor q w = (Ok env, w1) /\
    map appointment (items env) = items result /\
    (forall r, In r (items env) ->
       (isReviewed r = true <-> In (Types.toString (_id (doc (appointment r)))) reviewedIds)) /\
    total env = total result /\ pages env = pages result /\
    page env = page result /\ limit env = limit result.
Proof.
  intros Hpets Hsome Hbase Hreviews.
  unfold findAllByTutorId, bind, await. rewrite Hpets.
  destruct pets as [| p0 rest]; [contradiction |].
  rewrite Hbase, Hreviews. unfold ret. eexists. split; [reflexivity |].
  cbn [items total page limit pages].
  split; [| split; [| repeat split]].
  - rewrite map_map. cbn [appointment with_review_status]. apply map_id.
  - intros r Hr. apply in_map_iff in Hr as [it [<- _]].
    cbn [isReviewed appointment with_review_status]. apply Set_has_In.
Qed.

(** ** AppointmentsService: today's counters *)

Lemma filter_length_ext {A} (p p' : A -> bool) (l : list A) :
  (forall a, p a = p' a) -> List.length (filter p l) = List.length (filter p' l).
Proof. intros Hext. now rewrite (filter_ext p p' Hext). Qed.


Lemma MakeDay_next (y m d : Z) : Date.MakeDay y m (d + 1) = Date.MakeDay y m d + 1.
Proof. unfold Date.MakeDay. ring. Qed.

(** The window is one local calendar day: [startOfToday] and [endOfToday]
    are the local midnights of two consecutive day numbers. *)
Lemma today_window_is_a_day (t : Z) :
  exists day,
    startOfToday t = day * Date.msPerDay - LocalTZA rt (day * Date.msPerDay) false /\
    endOfToday t =
      (day + 1) * Date.msPerDay - LocalTZA rt ((day + 1) * Date.msPerDay) false.
Proof.
  unfold startOfToday, endOfToday, Date.of_local_date. cbv zeta.
  eexists. split; [reflexivity |]. now rewrite MakeDay_next.
Qed.

(** The year of the era of a day of the era, and the day of that year. *)
Lemma year_of_era_range (doe : Z) :
  0 <= doe < 146097 ->
  let yoe := (doe - doe / 1460 + doe / 36524 - doe / 146096) / 365 in
  0 <= yoe <= 399 /\ 0 <= doe - (365 * yoe + yoe / 4 - yoe / 100) <= 365.
Proof. intros H yoe. subst yoe. Z.div_mod_to_equations. lia. Qed.

(** [MakeDay] undoes [civil]: the civil date of a day number names that
    day, with a month from 0 to 11 and a day from 1 to 31. *)
Lemma MakeDay_civil (day : Z) :
  let '(y, m, d) := Date.civil day in
  Date.MakeDay y m d = day /\ 0 <= m <= 11 /\ 1 <= d <= 31.
Proof.
  unfold Date.civil.
  set (z := day + 719468). set (era := z / 146097). set (doe := z - era * 146097).
  assert (Hdoe : 0 <= doe < 146097) by (subst doe era; Z.div_mod_to_equations; lia).
  destruct (@year_of_era_range doe Hdoe) as [Hyoe Hdoy].
  set (yoe := (doe - doe / 1460 + doe / 36524 - doe / 146096) / 365) in *.
  set (doy := doe - (365 * yoe + yoe / 4 - yoe / 100)) in *.
  set (mp := (5 * doy + 2) / 153).
  assert (Hmp : 0 <= mp <= 11) by (subst mp; Z.div_mod_to_equations; lia).
  assert (Hd : 1 <= doy - (153 * mp + 2) / 5 + 1 <= 31)
    by (subst mp; Z.div_mod_to_equations; lia).
  cbv zeta. unfold Date.MakeDay.
  assert (Hz : z = era * 146097 + doe) by (subst doe; lia).
  clearbody doe era yoe.
  destruct (Z.ltb_spec mp 10) as [Hlt | Hge].
  - destruct (Z.leb_spec (mp + 3) 2) as [Hle | _]; [lia |].
    replace ((mp + 3 - 1) / 12) with 0 by (Z.div_mod_to_equations; lia).
    replace ((mp + 3 - 1) mod 12) with (mp + 2) by (Z.div_mod_to_equations; lia).
    destruct (Z.leb_spec (mp + 2 + 1) 2) as [Hle | _]; [lia |].
    replace ((yoe + era * 400 + 0 + 0) / 400) with era by (Z.div_mod_to_equations; lia).
    replace (mp + 2 + 1 - 3) with mp by lia.
    subst doy z. Z.div_mod_to_equations. lia.
  - destruct (Z.leb_spec (mp - 9) 2) as [_ | Hgt]; [| lia].
    replace ((mp - 9 - 1) / 12) with 0 by (Z.div_mod_to_equations; lia).
    replace ((mp - 9 - 1) mod 12) with (mp - 10) by (Z.div_mod_to_equations; lia).
    destruct (Z.leb_spec (mp - 10 + 1) 2) as [_ | Hgt]; [| lia].
    replace ((yoe + era * 400 + 1 + 0 - 1) / 400) with era by (Z.div_mod_to_equations; lia).
    replace (mp - 10 + 1 + 9) with mp by lia.
    subst doy z. Z.div_mod_to_equations. lia.
Qed.

(** With local time at a constant offset from UTC, [startOfToday] and
    [endOfToday] are the local midnights that open and close the local
    calendar day of the clock. *)
Lemma today_is_the_local_day (t offset : Z) :
  (forall s b, LocalTZA rt s b = offset) ->
  99 < Date.getFullYear (LocalTZA rt) t ->
  startOfToday t = Date.Day (t + offset) * Date.msPerDay - offset /\
  endOfToday t = (Date.Day (t + offset) + 1) * Date.msPerDay - offset.
Proof.
  intros Hoffset.
  unfold startOfToday, endOfToday, Date.of_local_date. cbv zeta.
  rewrite MakeDay_next.
  unfold Date.getFullYear, Date.getMonth, Date.getDate, Date.LocalTime.
  rewrite !Hoffset.
  pose proof (MakeDay_civil (Date.Day (t + offset))) as Hcivil.
  destruct (Date.civil (Date.Day (t + offset))) as [[y m] d].
  destruct Hcivil as [Hday _]. intros Hyear.
  replace ((0 <=? y) && (y <=? 99)) with false
    by (symmetry; apply andb_false_iff; right; apply Z.leb_gt; lia).
  rewrite Hday. split; reflexivity.
Qed.

(** C8.  For the provider [o], [countAppointmentsForToday] counts the
    appointments of that provider whose date-time [t] satisfies
    [startOfToday <= t < endOfToday]: [total] those whose status is neither
    cancelled nor completed, [confirmed] those whose status is confirmed;
    the call writes no document.  The window is the local calendar day of
    the clock: with local time at a constant offset from UTC (and a local
    year after 99), [startOfToday] is a local midnight, the window holds
    the instant of the call and ends 24 hours after it starts, and an
    instant is in the window exactly when its local day is the local day of
    the clock; one second before [startOfToday] (23:59:59 of the day
    before) is in the previous local day and [endOfToday] (00:00:00 of the
    next day) is in the next one, so an appointment at either instant is in
    neither count. *)
Theorem countAppointmentsForToday_window (providerId : string) (o : ObjectId) (w : World) :
  Types.ObjectId_parse providerId = Some o ->
  exists w',
    countAppointmentsForToday providerId w =
      (Ok {| today_total :=
               Z.of_nat (List.length (filter
                 (fun a =>
                    Types.eqb (provider a) o
                    && (startOfToday (now w) <=? dateTime a)
                    && (dateTime a <? endOfToday (now w))
                    && negb (String.eqb (status a) "cancelled")
                    && negb (String.eqb (status a) "completed"))
                 (appointments w)));
             today_confirmed :=
               Z.of_nat (List.length (filter
                 (fun a =>
                    Types.eqb (provider a) o
                    && (startOfToday (now w) <=? dateTime a)
                    && (dateTime a <? endOfToday (now w))
                    && String.eqb (status a) "confirmed")
                 (appointments w))) |}, w') /\
    appointments w' = appointments w /\
    forall offset,
      (forall s b, LocalTZA rt s b = offset) ->
      99 < Date.getFullYear (LocalTZA rt) (now w) ->
      (startOfToday (now w) + offset) mod Date.msPerDay = 0 /\
      startOfToday (now w) <= now w < endOfToday (now w) /\
      endOfToday (now w) = startOfToday (now w) + Date.msPerDay /\
      (forall t,
         (startOfToday (now w) <=? t) && (t <? endOfToday (now w))
         = (Date.Day (t + offset) =? Date.Day (now w + offset))) /\
      Date.Day (startOfToday (now w) - 1000 + offset) = Date.Day (now w + offset) - 1 /\
      Date.Day (endOfToday (now w) + offset) = Date.Day (now w + offset) + 1.
Proof.
  intros Hparse. exists (log_op OpCountDocuments (log_op OpCountDocuments w)).
  unfold countAppointmentsForToday, bind, await, Date_now, new_ObjectId.
  rewrite Hparse. unfold Promise_all, model_countDocuments, checked_filter, ret.
  cbn [cast_filter server_accepts forallb snd andb fst appointments log_op].
  split; [| split; [reflexivity |]].
  {  match goal with
  | |- (Ok {| today_total := Z.of_nat (List.length (filter ?p1 _));
              today_confirmed := Z.of_nat (List.length (filter ?p2 _)) |}, _)
       = (Ok {| today_total := Z.of_nat (List.length (filter ?q1 _));
                today_confirmed := Z.of_nat (List.length (filter ?q2 _)) |}, _) =>
      rewrite (filter_length_ext p1 q1), (filter_length_ext p2 q2)
  end; try reflexivity;
    intros a; unfold matches, holds, within; cbn [forallb existsb];
    repeat match goal with
      | |- context [Types.eqb ?x ?y] => generalize (Types.eqb x y); intros []
      | |- context [Z.leb ?x ?y] => generalize (Z.leb x y); intros []
      | |- context [Z.ltb ?x ?y] => generalize (Z.ltb x y); intros []
      | |- context [String.eqb ?x ?y] => generalize (String.eqb x y); intros []
      end; reflexivity. }
  intros offset Hoffset Hyear.
  destruct (@today_is_the_local_day (now w) offset Hoffset Hyear) as [-> ->].
  unfold Date.Day, Date.msPerDay.
  split; [| split; [| split; [| split; [| split]]]].
  - Z.div_mod_to_equations. lia.
  - Z.div_mod_to_equations. lia.
  - ring.
  - intros t.
    destruct (Z.leb_spec ((now w + offset) / 86400000 * 86400000 - offset) t);
      destruct (Z.ltb_spec t (((now w + offset) / 86400000 + 1) * 86400000 - offset));
      destruct (Z.eqb_spec ((t + offset) / 86400000) ((now w + offset) / 86400000));
      try reflexivity; exfalso; Z.div_mod_to_equations; lia.
  - Z.div_mod_to_equations. lia.
  - Z.div_mod_to_equations. lia.
Qed.

(** X2.  When local time is at a constant offset from UTC and the local
    year is after 99, the window of [countAppointmentsForToday] is the
    local calendar day of the clock: it starts at a local midnight, holds
    the instant of the call and lasts 24 hours. *)
Theorem today_window_holds_now (t offset : Z) :
  (forall s b, LocalTZA rt s b = offset) ->
  99 < Date.getFullYear (LocalTZA rt) t ->
  startOfToday t <= t < endOfToday t /\
  endOfToday t - startOfToday t = Date.msPerDay /\
  (startOfToday t + offset) mod Date.msPerDay = 0.
Proof.
  intros Hoffset.
  unfold startOfToday, endOfToday, Date.of_local_date. cbv zeta.
  rewrite MakeDay_next.
  unfold Date.getFullYear, Date.getMonth, Date.getDate, Date.LocalTime.
  rewrite !Hoffset.
  pose proof (MakeDay_civil (Date.Day (t + offset))) as Hcivil.
  destruct (Date.civil (Date.Day (t + offset))) as [[y m] d].
  destruct Hcivil as [Hday _]. intros Hyear.
  replace ((0 <=? y) && (y <=? 99)) with false
    by (symmetry; apply andb_false_iff; right; apply Z.leb_gt; lia).
  rewrite Hday. unfold Date.Day, Date.msPerDay.
  repeat split; Z.div_mod_to_equations; lia.
Qed.

(** ** AppointmentsService: the status update *)

Lemma update_first_Forall2 {A} (R : A -> A -> Prop) (p : A -> bool) (f : A -> A) (l : list A) :
  (forall x, R x x) -> (forall x, p x = true -> R x (f x)) ->
  Forall2 R l (update_first p f l).
Proof.
  intros Hrefl Hstep. induction l as [| x r IH]; simpl.
  - constructor.
  - destruct (p x) eqn:Hp.
    + constructor; [now apply Hstep |]. clear IH.
      induction r; constructor; auto.
    + constructor; [apply Hrefl | exact IH].
Qed.

Lemma find_update_first {A} (p : A -> bool) (f : A -> A) (l : list A) :
  (forall x, p x = true -> p (f x) = true) ->
  find p (update_first p f l) = option_map f (find p l).
Proof.
  intros Hkeep. induction l as [| x r IH]; simpl.
  - reflexivity.
  - destruct (p x) eqn:Hp; simpl.
    + now rewrite (Hkeep x Hp).
    + now rewrite Hp.
Qed.

Lemma Forall2_same {A} (R : A -> A -> Prop) (l : list A) :
  (forall x, R x x) -> Forall2 R l l.
Proof. intros Hrefl. induction l; constructor; auto. Qed.

Lemma apply_set_frame (u : StatusUpdate) (t : Z) (a : Appointment) :
  same_but_status_rating_updatedAt a (apply_set u t a) /\
  (set_status u = None -> status (apply_set u t a) = status a) /\
  (set_isRated u = None -> isRated (apply_set u t a) = isRated a) /\
  appointment_updatedAt (apply_set u t a) = t.
Proof.
  unfold same_but_status_rating_updatedAt, apply_set; simpl.
  repeat split; intros ->; reflexivity.
Qed.

(** C9, amended.  [updateAppointmentStatus(id, u)] changes, in the
    appointment that has the id, the field named in [u] and the update
    timestamp, which becomes the time of the call; every other field of
    that appointment, every other appointment and the other collections
    are as before.  When the id is well formed and the update passes the
    validators of the schema: if an appointment has that id the call
    returns, if none has it fails with NotFound.  An id that is not an
    ObjectId fails with a cast error, not with NotFound, and an update the
    validators refuse fails with their error; both leave the collection
    unchanged. *)
Theorem updateAppointmentStatus_frame (id : string) (u : StatusUpdate) (w : World) :
  let outcome := updateAppointmentStatus id u w in
  Forall2
    (fun old new =>
       same_but_status_rating_updatedAt old new /\
       (set_status u = None -> status new = status old) /\
       (set_isRated u = None -> isRated new = isRated old) /\
       (appointment_updatedAt new = appointment_updatedAt old \/
        appointment_updatedAt new = now w) /\
       (Types.ObjectId_parse id <> Some (_id old) -> new = old))
    (appointments w) (appointments (snd outcome)) /\
  rooms (snd outcome) = rooms w /\ messages (snd outcome) = messages w /\
  (Types.ObjectId_isValid id = false ->
   fst outcome = Throw (CastError "_id") /\ appointments (snd outcome) = appointments w) /\
  (Types.ObjectId_isValid id = true -> validateUpdate schema u = false ->
   fst outcome = Throw ValidationError /\ appointments (snd outcome) = appointments w) /\
  (forall o,
     Types.ObjectId_parse id = Some o -> validateUpdate schema u = true ->
     match find (fun a => Types.eqb (_id a) o) (appointments w) with
     | Some a =>
         fst outcome = Ok tt /\
         exists a',
           find (fun a => Types.eqb (_id a) o) (appointments (snd outcome)) = Some a' /\
           same_but_status_rating_updatedAt a a' /\
           status a' = Js.nullish (set_status u) (status a) /\
           isRated a' = Js.nullish (set_isRated u) (isRated a) /\
           appointment_updatedAt a' = now w
     | None =>
         fst outcome =
           Throw (NotFoundException "Agendamento não encontrado para atualização de status.") /\
         appointments (snd outcome) = appointments w
     end).
Proof.
  assert (Hsame : forall l : list Appointment,
            Forall2
              (fun old new =>
                 same_but_status_rating_updatedAt old new /\
                 (set_status u = None -> status new = status old) /\
                 (set_isRated u = None -> isRated new = isRated old) /\
                 (appointment_updatedAt new = appointment_updatedAt old \/
                  appointment_updatedAt new = now w) /\
                 (Types.ObjectId_parse id <> Some (_id old) -> new = old)) l l).
  { intros l. apply Forall2_same. intros a.
    unfold same_but_status_rating_updatedAt. repeat split. now left. }
  cbv zeta. unfold updateAppointmentStatus, bind, model_findByIdAndUpdate.
  destruct (Types.ObjectId_parse id) as [o |] eqn:Hparse.
  2: { cbn [fst snd appointments rooms messages log_op].
       split; [apply Hsame |]. split; [reflexivity |]. split; [reflexivity |].
       split; [now split |]. split; [| discriminate].
       intros Hvalid. now rewrite (ObjectId_valid_parse _ Hvalid) in Hparse. }
  destruct (validateUpdate schema u) eqn:Hvalid.
  2: { cbn [fst snd appointments rooms messages log_op].
       split; [apply Hsame |]. split; [reflexivity |]. split; [reflexivity |].
       split; [| split; [now split | discriminate]].
       intros Hbad. now rewrite (ObjectId_invalid_parse _ Hbad) in Hparse. }
  assert (Hgood : Types.ObjectId_isValid id = false -> False).
  { intros Hbad. now rewrite (ObjectId_invalid_parse _ Hbad) in Hparse. }
  destruct (find (fun a => Types.eqb (_id a) o) (appointments w)) as [a |] eqn:Hfind.
  - cbn [fst snd appointments rooms messages log_op with_appointments ret].
    split; [| split; [reflexivity | split; [reflexivity |]]].
    + apply update_first_Forall2.
      * intros x. unfold same_but_status_rating_updatedAt. repeat split. now left.
      * intros x Hx. destruct (apply_set_frame u (now w) x) as [Hfields [Hst [Hrt Ht]]].
        repeat split; try assumption.
        -- now right.
        -- intros Hother. apply ObjectId_eqb_eq in Hx. now subst o.
    + split; [intros Hbad; destruct (Hgood Hbad) |]. split; [discriminate |].
      intros o' [= <-] _. rewrite Hfind. split; [reflexivity |].
      exists (apply_set u (now w) a).
      rewrite find_update_first, Hfind by (intros x Hx; exact Hx).
      destruct (apply_set_frame u (now w) a) as [Hfields [_ [_ Ht]]].
      repeat split; assumption.
  - cbn [fst snd appointments rooms messages log_op throw].
    split; [apply Hsame |]. split; [reflexivity |]. split; [reflexivity |].
    split; [intros Hbad; destruct (Hgood Hbad) |]. split; [discriminate |].
    intros o' [= <-] _. rewrite Hfind. split; reflexivity.
Qed.

(** ** AppointmentsService: creation *)

(** Resolving a room writes to the room collection only. *)
Lemma getOrCreateRoomForParticipants_store
  (ids : list string) (room_name : option string) (w : World) :
  appointments (snd (getOrCreateRoomForParticipants ids room_name w)) = appointments w /\
  messages (snd (getOrCreateRoomForParticipants ids room_name w)) = messages w /\
  issued (snd (getOrCreateRoomForParticipants ids room_name w)) = issued w.
Proof.
  unfold getOrCreateRoomForParticipants, bind, await.
  destruct (map_new_ObjectId ids) as [members | e]; [| now simpl].
  unfold chatRoomModel_findOne.
  destruct (find _ (rooms w)); now simpl.
Qed.

(** C1.  When the pet and the provider of the input resolve to existing
    records, the outcome of [create] is decided by the primary write alone.
    If the store accepts the document, [create] writes the appointment and
    returns it, whatever the lookups of the room provisioning do (return
    nothing, return records without users, or reject): nothing is thrown,
    and unless both users resolve no room is created.  If the store refuses
    the document, that refusal is the only thing thrown. *)
Theorem create_survives_room_provisioning
  (dto : CreateAppointmentDto) (pet_oid provider_oid : ObjectId) (w : World) :
  petModel_exists ext (dto_pet dto) = Ok true ->
  providerModel_exists ext (dto_provider dto) = Ok true ->
  Types.ObjectId_parse (dto_pet dto) = Some pet_oid ->
  Types.ObjectId_parse (dto_provider dto) = Some provider_oid ->
  match new_document (create_input dto pet_oid provider_oid)
          (Types.generate (nextId w)) (now w) with
  | Some created =>
      exists w',
        create dto w = (Ok created, w') /\
        appointments w' = appointments w ++ [created] /\
        (~ linked_users dto -> rooms w' = rooms w)
  | None => create dto w = (Throw ValidationError, log_op OpCreate w)
  end.
Proof.
  intros Hpet Hprovider Hpet_oid Hprovider_oid.
  destruct (new_document (create_input dto pet_oid provider_oid)
              (Types.generate (nextId w)) (now w)) as [created |] eqn:Hdoc.
  2: { unfold create, assertPet, assertProvider, bind, await, new_ObjectId.
       rewrite Hpet, Hprovider, Hpet_oid, Hprovider_oid. unfold ret at 1 2.
       unfold model_create. now rewrite Hdoc. }
  unfold create, assertPet, assertProvider, bind, await, new_ObjectId.
  rewrite Hpet, Hprovider, Hpet_oid, Hprovider_oid. unfold ret at 1 2.
  unfold model_create. rewrite Hdoc.
  set (w1 := next_id (with_appointments (appointments w ++ [created]) (log_op OpCreate w))).
  unfold try_catch.

  assert (Hlinked :
    forall found_pet tutor_oid tutor tutor_user found_provider provider_user,
      petModel_findById ext (dto_pet dto) = Ok (Some found_pet) ->
      tutorId found_pet = Some tutor_oid ->
      tutorsService_findById ext (Types.toString tutor_oid) = Ok (Some tutor) ->
      tutor_userId tutor = Some tutor_user ->
      providerModel_findById ext (dto_provider dto) = Ok (Some found_provider) ->
      userId found_provider = Some provider_user ->
      linked_users dto).
  { intros p t tu u pv pu H1 H2 H3 H4 H5 H6.
    exists p, t, tu, u, pv, pu. repeat split; assumption. }
  assert (Hw1 : appointments w1 = appointments w ++ [created]) by reflexivity.
  assert (Hr1 : rooms w1 = rooms w) by reflexivity.
  clearbody w1.
  assert (Hskip : forall r : Result unit,
            exists w',
              (let (r', w2) :=
                 match r with
                 | Ok a => (Ok a, w1)
                 | Throw _ =>
                     console_error
                       "Erro ao criar/associar sala de chat para o agendamento:" w1
                 end in
               match r' with
               | Ok _ => ret created w2
               | Throw e => (Throw e, w2)
               end) = (Ok created, w') /\
              appointments w' = appointments w ++ [created] /\
              (~ linked_users dto -> rooms w' = rooms w)).
  { intros [[] | e]; eexists; (split; [reflexivity |]);
      split; solve [exact Hw1 | intros _; exact Hr1]. }
  destruct (petModel_findById ext (dto_pet dto)) as [[found_pet |] | e1] eqn:Hfp.
  2: { destruct (providerModel_findById ext (dto_provider dto)) as [[pv |] | e2];
         cbn [Js.chain ret];
         [destruct (userId pv); exact (Hskip (Ok tt))
         | exact (Hskip (Ok tt)) | exact (Hskip (Throw e2))]. }
  2: { exact (Hskip (Throw e1)). }
  destruct (providerModel_findById ext (dto_provider dto))
    as [[found_provider |] | e2] eqn:Hfv; [| | exact (Hskip (Throw e2))];
    cbn [Js.chain].
  - destruct (tutorId found_pet) as [tutor_oid |] eqn:Htid; cbn [Js.chain ret].
    2: { destruct (userId found_provider); exact (Hskip (Ok tt)). }
    destruct (tutorsService_findById ext (Types.toString tutor_oid))
      as [[tutor |] | e3] eqn:Htutor; cbn [Js.chain option_map ret].
    2: { destruct (userId found_provider); exact (Hskip (Ok tt)). }
    2: { exact (Hskip (Throw e3)). }
    destruct (tutor_userId tutor) as [tutor_user |] eqn:Huser; cbn [option_map].
    2: { destruct (userId found_provider); exact (Hskip (Ok tt)). }
    destruct (userId found_provider) as [provider_user |] eqn:Hpu;
      [| exact (Hskip (Ok tt))].
    destruct (negb (String.eqb (Types.toString tutor_user) ""));
      [| exact (Hskip (Ok tt))].
    match goal with
    | |- context [getOrCreateRoomForParticipants ?ids ?nm w1] =>
        destruct (getOrCreateRoomForParticipants_store ids nm w1) as [Happ _];
        destruct (getOrCreateRoomForParticipants ids nm w1) as [[room | e4] w2]
    end;
      (eexists; split; [reflexivity |]; split;
       [cbn [snd] in Happ; cbn [console_error log_console appointments ret]; congruence
       | intros Hnot; exfalso; apply Hnot; eauto]).
  - destruct (tutorId found_pet) as [tutor_oid |] eqn:Htid; cbn [Js.chain ret];
      [| exact (Hskip (Ok tt))].
    destruct (tutorsService_findById ext (Types.toString tutor_oid))
      as [[tutor |] | e3] eqn:Htutor; cbn [Js.chain option_map ret];
      [| exact (Hskip (Ok tt)) | exact (Hskip (Throw e3))].
    destruct (tutor_userId tutor); exact (Hskip (Ok tt)).
Qed.

(** ** AppointmentsService: the query builder *)

Lemma cast_filter_app (f g : FilterQuery) :
  cast_filter (f ++ g) =
    match cast_filter f with
    | Ok _ => cast_filter g
    | Throw e => Throw e
    end.
Proof.
  induction f as [| c r IH]; simpl; [reflexivity |].
  destruct c; try exact IH;
    match goal with |- context [forallb ?p ?l] => destruct (forallb p l) end;
    auto.
Qed.

Lemma checked_filter_app (f g : FilterQuery) :
  checked_filter f = Ok tt -> checked_filter g = Ok tt -> checked_filter (f ++ g) = Ok tt.
Proof.
  unfold checked_filter, server_accepts. rewrite cast_filter_app, forallb_app.
  destruct (cast_filter f) as [[] | e]; [| discriminate].
  destruct (forallb _ f); [| discriminate].
  destruct (cast_filter g) as [[] | e]; [| discriminate].
  destruct (forallb _ g); [reflexivity | discriminate].
Qed.

Lemma field_ok_truthy (test : string -> bool) (o : option string) :
  field_ok test o = true -> Js.truthy o = true -> test (Js.nullish o "") = true.
Proof.
  destruct o as [s |]; simpl; [| discriminate].
  destruct (String.eqb s ""); simpl; [discriminate | auto].
Qed.

Lemma map_new_ObjectId_valid (ids : list string) :
  forallb Types.ObjectId_isValid ids = true -> exists os, map_new_ObjectId ids = Ok os.
Proof.
  induction ids as [| id r IH]; simpl; intros Hall.
  - now exists [].
  - apply andb_true_iff in Hall as [Hid Hr]. destruct (IH Hr) as [os Hos].
    unfold new_ObjectId. rewrite (ObjectId_valid_parse _ Hid), Hos. eauto.
Qed.

Lemma pagination_integer (q : QueryAppointmentDto) :
  field_ok (fun s => is_integer (Js.parseInt s)) (q_page q) = true ->
  field_ok (fun s => is_integer (Js.parseInt s)) (q_limit q) = true ->
  exists pg lim,
    pagination q = (Js.Num pg, Js.Num lim, Js.Num ((pg - 1) * lim)) /\
    1 <= pg /\ 1 <= lim <= 100.
Proof.
  intros Hpage Hlimit. unfold pagination.
  assert (Hp : exists p, Js.parseInt (Js.or_else (q_page q) "1") = Js.Num p).
  { destruct (q_page q) as [s |]; simpl in *; [| now exists 1].
    destruct (String.eqb s ""); simpl in *; [now exists 1 |].
    destruct (Js.parseInt s) as [| p]; [discriminate | now exists p]. }
  assert (Hl : exists l, Js.parseInt (Js.or_else (q_limit q) "20") = Js.Num l).
  { destruct (q_limit q) as [s |]; simpl in *; [| now exists 20].
    destruct (String.eqb s ""); simpl in *; [now exists 20 |].
    destruct (Js.parseInt s) as [| l]; [discriminate | now exists l]. }
  destruct Hp as [p ->], Hl as [l ->]. simpl.
  exists (Z.max p 1), (Z.min (Z.max l 1) 100). split; [reflexivity | lia].
Qed.

Lemma is_some_witness {A} (o : option A) : is_some o = true -> exists a, o = Some a.
Proof. destruct o as [a |]; [now exists a | discriminate]. Qed.

Lemma build_filter_ok (q : QueryAppointmentDto) :
  well_formed_query q = true ->
  exists f, build_filter q = Ok f /\ checked_filter f = Ok tt.
Proof.
  unfold well_formed_query. rewrite !andb_true_iff.
  intros [[[[[[[[Hprovider Hpet] Htext] Hfrom] Hto] Hmin] Hmax] _] _].
  unfold build_filter.
  assert (Hby_provider :
    exists l, (if Js.truthy (q_provider q)
               then match new_ObjectId (Js.nullish (q_provider q) "") with
                    | Ok o => Ok [ProviderIs o]
                    | Throw e => Throw e
                    end
               else Ok []) = Ok l /\ checked_filter l = Ok tt).
  { destruct (Js.truthy (q_provider q)) eqn:Htruthy; [| now exists []].
    pose proof (field_ok_truthy _ _ Hprovider Htruthy) as Hvalid.
    unfold new_ObjectId. rewrite (ObjectId_valid_parse _ Hvalid). eauto. }
  destruct Hby_provider as [by_provider [-> Hc1]].
  assert (Hby_pet :
    exists l, (if truthy_field (q_pet q)
               then match map_new_ObjectId (as_array (Js.nullish (q_pet q) (Many []))) with
                    | Ok os => Ok [PetIn os]
                    | Throw e => Throw e
                    end
               else Ok []) = Ok l /\ checked_filter l = Ok tt).
  { destruct (q_pet q) as [[s | ids] |]; simpl.
    - destruct (String.eqb s ""); simpl in *; [now exists [] |].
      unfold new_ObjectId. rewrite (ObjectId_valid_parse _ Hpet). eauto.
    - destruct (map_new_ObjectId_valid _ Hpet) as [os ->]. eauto.
    - now exists []. }
  destruct Hby_pet as [by_pet [-> Hc2]].
  eexists. split; [reflexivity |].
  repeat apply checked_filter_app; try assumption.
  - now destruct (truthy_field (q_status q)).
  - destruct (Js.truthy (q_q q)) eqn:Htruthy; [| reflexivity].
    pose proof (field_ok_truthy _ _ Htext Htruthy) as Hsome. cbv beta in Hsome.
    apply is_some_witness in Hsome as [test Htest].
    unfold checked_filter, server_accepts. simpl. now rewrite Htest.
  - destruct (Js.truthy (q_from q)) eqn:Hf, (Js.truthy (q_to q)) eqn:Ht;
      try reflexivity;
      try (pose proof (field_ok_truthy _ _ Hfrom Hf) as Hs1; cbv beta in Hs1;
           apply is_some_witness in Hs1 as [t1 Ht1]);
      try (pose proof (field_ok_truthy _ _ Hto Ht) as Hs2; cbv beta in Hs2;
           apply is_some_witness in Hs2 as [t2 Ht2]);
      unfold checked_filter; simpl; now rewrite ?Ht1, ?Ht2.
  - destruct (Js.truthy (q_minPrice q)) eqn:Hf, (Js.truthy (q_maxPrice q)) eqn:Ht;
      try reflexivity;
      try (pose proof (field_ok_truthy _ _ Hmin Hf) as Hs1; cbv beta in Hs1;
           apply is_some_witness in Hs1 as [t1 Ht1]);
      try (pose proof (field_ok_truthy _ _ Hmax Ht) as Hs2; cbv beta in Hs2;
           apply is_some_witness in Hs2 as [t2 Ht2]);
      unfold checked_filter; simpl; now rewrite ?Ht1, ?Ht2.
Qed.

(** A malformed provider id is not coerced: the ObjectId constructor throws
    while the filter is built, before anything is sent to the store. *)
Lemma findAll_malformed_provider (q : QueryAppointmentDto) (s : string) (w : World) :
  q_provider q = Some s -> s <> "" -> Types.ObjectId_isValid s = false ->
  findAll q w = (Throw BSONError, w).
Proof.
  intros Hq Hs Hbad. unfold findAll, bind, await, build_filter.
  rewrite Hq. simpl. destruct (String.eqb_spec s ""); [contradiction |]. simpl.
  unfold new_ObjectId. now rewrite (ObjectId_invalid_parse _ Hbad).
Qed.

Lemma map_new_ObjectId_invalid (ids : list string) :
  forallb Types.ObjectId_isValid ids = false -> map_new_ObjectId ids = Throw BSONError.
Proof.
  induction ids as [| id r IH]; simpl; [discriminate |].
  unfold new_ObjectId, Types.ObjectId_parse.
  destruct (Types.ObjectId_isValid id); simpl; [| reflexivity].
  intros Hr. now rewrite (IH Hr).
Qed.

(** A malformed pet id is not coerced either. *)
Lemma findAll_malformed_pet (q : QueryAppointmentDto) (v : OneOrMany) (w : World) :
  field_ok Types.ObjectId_isValid (q_provider q) = true ->
  q_pet q = Some v -> truthy_field (Some v) = true ->
  forallb Types.ObjectId_isValid (as_array v) = false ->
  findAll q w = (Throw BSONError, w).
Proof.
  intros Hprovider Hq Htruthy Hbad. unfold findAll, bind, await, build_filter.
  assert (Hby_provider :
    exists l, (if Js.truthy (q_provider q)
               then match new_ObjectId (Js.nullish (q_provider q) "") with
                    | Ok o => Ok [ProviderIs o]
                    | Throw e => Throw e
                    end
               else Ok []) = Ok l).
  { destruct (Js.truthy (q_provider q)) eqn:Ht; [| now exists []].
    pose proof (field_ok_truthy _ _ Hprovider Ht) as Hvalid.
    unfold new_ObjectId. rewrite (ObjectId_valid_parse _ Hvalid). eauto. }
  destruct Hby_provider as [l ->].
  rewrite Hq, Htruthy. cbn [Js.nullish].
  now rewrite (map_new_ObjectId_invalid _ Hbad).
Qed.

(** C2, amended.  [findAll] returns a page envelope, with a page of at
    least 1 and a limit between 1 and 100, for every query whose fields are
    well formed where they are present and not empty; absent and empty
    fields are ignored or take their defaults, and the call only reads.  A
    malformed provider id or pet id is neither coerced nor ignored: the
    call throws. *)
Theorem findAll_answers_well_formed (q : QueryAppointmentDto) (w : World) :
  (well_formed_query q = true ->
   exists env w',
     findAll q w = (Ok env, w') /\
     appointments w' = appointments w /\
     exists pg lim,
       page env = Number (Js.Num pg) /\ limit env = Number (Js.Num lim) /\
       1 <= pg /\ 1 <= lim <= 100 /\
       pages env = Js.Num (- (- total env / lim)) /\
       Z.of_nat (List.length (items env)) <= lim) /\
  (forall s,
     q_provider q = Some s -> s <> "" -> Types.ObjectId_isValid s = false ->
     findAll q w = (Throw BSONError, w)) /\
  (forall v,
     field_ok Types.ObjectId_isValid (q_provider q) = true ->
     q_pet q = Some v -> truthy_field (Some v) = true ->
     forallb Types.ObjectId_isValid (as_array v) = false ->
     findAll q w = (Throw BSONError, w)).
Proof.
  split; [| split; [intros s; apply findAll_malformed_provider
                   | intros v; apply findAll_malformed_pet]].
  intros Hwf.
  destruct (build_filter_ok q Hwf) as [f [Hbuild Hchecked]].
  assert (Hpl : exists pg lim,
             pagination q = (Js.Num pg, Js.Num lim, Js.Num ((pg - 1) * lim)) /\
             1 <= pg /\ 1 <= lim <= 100).
  { unfold well_formed_query in Hwf. rewrite !andb_true_iff in Hwf.
    destruct Hwf as [[_ Hpage] Hlimit]. now apply pagination_integer. }
  destruct Hpl as [pg [lim [Hplan [Hpg Hlim]]]].
  unfold findAll, bind, await. rewrite Hbuild, Hplan.
  unfold Promise_all, model_find, model_countDocuments. rewrite Hchecked.
  unfold ret. do 2 eexists. split; [reflexivity |]. split; [reflexivity |].
  exists pg, lim. cbn [page limit pages total items Js.ceil_div].
  destruct (Z.eqb_spec lim 0); [lia |].
  repeat split; try lia.
  rewrite length_map.
  pose proof (firstn_le_length (Z.to_nat lim)
                (skipn (Z.to_nat ((pg - 1) * lim))
                   (sort_by (sort_leb (build_sort q)) (filter (matches f) (appointments w))))).
  lia.
Qed.

(* ================================================================= *)
(** * Properties of the remaining operations *)

(** ** ChatService: listing and reading rooms *)

Lemma updatedAt_desc_total (a b : ChatRoom) :
  updatedAt_desc a b = false -> updatedAt_desc b a = true.
Proof. unfold updatedAt_desc. intros H. apply Z.leb_gt in H. apply Z.leb_le. lia. Qed.

Lemma rooms_sorted_desc (l : list ChatRoom) :
  StronglySorted (fun a b => updatedAt b <= updatedAt a) (sort_by updatedAt_desc l).
Proof.
  apply Sorted_StronglySorted.
  - intros x y z Hxy Hyz. lia.
  - pose proof (sort_by_sorted updatedAt_desc updatedAt_desc_total l) as Hs.
    induction Hs as [| r rest Hrest IH Hhd]; constructor; [exact IH |].
    destruct Hhd as [| r' rest' Hle]; constructor.
    unfold updatedAt_desc in Hle. now apply Z.leb_le.
Qed.

Lemma StronglySorted_map {A B} (R : B -> B -> Prop) (f : A -> B) (l : list A) :
  StronglySorted (fun x y => R (f x) (f y)) l -> StronglySorted R (map f l).
Proof.
  induction 1 as [| x r Hr IH Hall]; simpl; constructor; [exact IH |].
  apply Forall_map. exact Hall.
Qed.

(** X3.  [getRoomsByUser] returns the empty list for a malformed user id;
    for a well-formed one it returns exactly the active rooms that have the
    user among their participants, most recently updated first, each with
    its participants populated.  It never throws and never writes. *)
Theorem getRoomsByUser_listing (user : string) (w : World) :
  (Types.ObjectId_isValid user = false -> getRoomsByUser user w = (Ok [], w)) /\
  (forall o,
     Types.ObjectId_parse user = Some o ->
     exists views,
       getRoomsByUser user w = (Ok views, w) /\
       StronglySorted
         (fun a b => updatedAt (view_room b) <= updatedAt (view_room a)) views /\
       Permutation
         (filter (fun r => existsb (Types.eqb o) (participants r) && isActive r) (rooms w))
         (map view_room views) /\
       Forall
         (fun v =>
            isActive (view_room v) = true /\ In o (participants (view_room v)) /\
            view_participants v = map_some (populate_user dir) (participants (view_room v)))
         views).
Proof.
  split.
  - intros Hbad. unfold getRoomsByUser. now rewrite Hbad.
  - intros o Hparse. unfold getRoomsByUser.
    rewrite (ObjectId_parse_valid _ Hparse). simpl.
    unfold bind, await, new_ObjectId, chatRoomModel_find_by_participant. rewrite Hparse.
    eexists. split; [reflexivity |].
    set (mine := filter (fun r => existsb (Types.eqb o) (participants r) && isActive r)
                   (rooms w)).
    assert (Hperm : Permutation mine (sort_by updatedAt_desc mine))
      by apply sort_by_permutation.
    repeat split.
    + apply StronglySorted_map with (f := populate_participants)
        (R := fun a b => updatedAt (view_room b) <= updatedAt (view_room a)).
      cbn [view_room populate_participants]. apply rooms_sorted_desc.
    + rewrite map_map. cbn [view_room populate_participants]. now rewrite map_id.
    + apply Forall_map. apply Forall_forall. intros r Hin.
      apply (Permutation_in _ (Permutation_sym Hperm)) in Hin.
      apply filter_In in Hin as [_ Hp]. apply andb_true_iff in Hp as [Hmember Hactive].
      cbn [view_room view_participants populate_participants]. repeat split; auto.
      apply existsb_exists in Hmember as [x [Hx Heq]].
      apply ObjectId_eqb_eq in Heq. now subst x.
Qed.

(** X4.  [getRoomById] and [getRoomDetails] fail in one way only, with
    NotFound "Sala não encontrada" (malformed id or no such room), and then
    agree; otherwise both find the same stored room, whose id is the one
    asked for.  Neither writes. *)
Theorem getRoomById_getRoomDetails (id : string) (w : World) :
  match getRoomById id w with
  | (Ok r, w') =>
      w' = w /\ In r (rooms w) /\ Types.ObjectId_parse id = Some (room_id r) /\
      getRoomDetails id w = (Ok (populate_participants r), w)
  | (Throw e, w') =>
      w' = w /\ e = NotFoundException "Sala não encontrada" /\
      getRoomDetails id w = (Throw e, w) /\
      (forall r o, In r (rooms w) -> Types.ObjectId_parse id = Some o -> room_id r <> o)
  end.
Proof.
  unfold getRoomById, getRoomDetails.
  destruct (Types.ObjectId_isValid id) eqn:Hvalid; simpl.
  - unfold bind, chatRoomModel_findById. rewrite (ObjectId_valid_parse _ Hvalid).
    destruct (find _ (rooms w)) as [r |] eqn:Hfind; simpl.
    + apply find_some in Hfind as [Hin Heq]. apply ObjectId_eqb_eq in Heq.
      repeat split; auto. now rewrite Heq.
    + repeat split. intros r o Hin [= <-] Hid.
      apply (find_none _ _ Hfind) in Hin. rewrite Hid in Hin.
      now rewrite ObjectId_eqb_refl in Hin.
  - repeat split. intros r o _ Hparse.
    apply ObjectId_parse_valid in Hparse. congruence.
Qed.

(** ** ChatService: sending *)

Lemma update_first_In {A} (p : A -> bool) (f : A -> A) (l : list A) (y : A) :
  In y (update_first p f l) -> In y l \/ exists x, find p l = Some x /\ y = f x.
Proof.
  induction l as [| x r IH]; simpl; [tauto |].
  destruct (p x) eqn:Hp; simpl.
  - intros [<- | Hin]; [right; eauto | left; now right].
  - intros [<- | Hin]; [left; now left |].
    destruct (IH Hin) as [Hold | Hnew]; [left; now right | right; exact Hnew].
Qed.

Lemma update_first_image {A} (p : A -> bool) (f : A -> A) (l : list A) (x : A) :
  find p l = Some x -> In (f x) (update_first p f l).
Proof.
  induction l as [| z r IH]; simpl; [discriminate |].
  destruct (p z) eqn:Hp; simpl.
  - intros [= ->]. now left.
  - intros Hfind. right. now apply IH.
Qed.

(** X5.  When the room exists and the sender id is well formed,
    [sendMessage] appends one message (that room, that sender, that
    content, created now) and sets the room's [updatedAt] to now; no other
    room and no other field of the room changes, and a following
    [getMessages] of the room returns the earlier messages and the new
    one. *)
Theorem sendMessage_stores
  (sender : string) (dto : SendMessageDto) (w : World) (o s : ObjectId) (r : ChatRoom) :
  Types.ObjectId_parse (dto_roomId dto) = Some o ->
  find (fun r0 => Types.eqb (room_id r0) o) (rooms w) = Some r ->
  Types.ObjectId_parse sender = Some s ->
  exists m w',
    sendMessage sender dto w = (Ok m, w') /\
    roomId m = room_id r /\ senderId m = s /\ content m = dto_content dto /\
    message_createdAt m = now w /\
    messages w' = messages w ++ [m] /\ appointments w' = appointments w /\
    Forall2
      (fun old new =>
         room_id new = room_id old /\ name new = name old /\
         participants new = participants old /\ isActive new = isActive old /\
         (room_id old <> room_id r -> new = old))
      (rooms w) (rooms w') /\
    (exists r', find (fun r0 => Types.eqb (room_id r0) o) (rooms w') = Some r' /\
                updatedAt r' = now w) /\
    exists found,
      getMessages (dto_roomId dto) w' = (Ok found, w') /\ In m found /\
      Permutation
        (filter (fun m0 => Types.eqb (roomId m0) (room_id r)) (messages w) ++ [m]) found.
Proof.
  intros Hroom Hfind Hsender.
  pose proof Hfind as Hid. apply find_some in Hid as [_ Hid]. apply ObjectId_eqb_eq in Hid.
  unfold sendMessage. rewrite (ObjectId_parse_valid _ Hroom). simpl.
  unfold bind, chatRoomModel_findById, await, new_ObjectId. rewrite Hroom, Hfind, Hsender.
  unfold messageModel_create, Date_now, room_save_updatedAt, ret.
  cbn [now rooms messages next_id with_messages with_rooms].
  do 2 eexists. split; [reflexivity |].
  cbn [roomId senderId content message_createdAt messages appointments rooms
       with_rooms next_id with_messages].
  repeat split.
  - apply update_first_Forall2.
    + intros x. repeat split.
    + intros x Hx. cbn [room_id name participants isActive]. repeat split.
      intros Hother. apply ObjectId_eqb_eq in Hx. congruence.
  - rewrite Hid. rewrite find_update_first by (intros x Hx; exact Hx).
    rewrite Hfind. simpl. eexists. split; reflexivity.
  - unfold getMessages. rewrite (ObjectId_parse_valid _ Hroom). simpl.
    unfold bind, await, new_ObjectId, messageModel_find_sorted. rewrite Hroom.
    cbn [messages with_rooms next_id with_messages].
    eexists. split; [reflexivity |].
    assert (Hfilter :
      filter (fun m0 => Types.eqb (roomId m0) o)
        (messages w ++
         [{| message_id := Types.generate (nextId w); roomId := room_id r; senderId := s;
             content := dto_content dto; message_createdAt := now w |}])
      = filter (fun m0 => Types.eqb (roomId m0) (room_id r)) (messages w) ++
        [{| message_id := Types.generate (nextId w); roomId := room_id r; senderId := s;
            content := dto_content dto; message_createdAt := now w |}]).
    { rewrite filter_app. simpl. rewrite Hid, ObjectId_eqb_refl. reflexivity. }
    rewrite Hfilter. split.
    + eapply Permutation_in; [apply sort_by_permutation |].
      apply in_or_app. right. now left.
    + apply sort_by_permutation.
Qed.

(** X6.  In an existing room, a sender id that is not an ObjectId string
    makes [sendMessage] throw the ObjectId constructor's error, not
    NotFound; no message is stored and the room is not touched. *)
Theorem sendMessage_malformed_sender
  (sender : string) (dto : SendMessageDto) (w : World) (o : ObjectId) (r : ChatRoom) :
  Types.ObjectId_parse (dto_roomId dto) = Some o ->
  find (fun r0 => Types.eqb (room_id r0) o) (rooms w) = Some r ->
  Types.ObjectId_isValid sender = false ->
  sendMessage sender dto w = (Throw BSONError, w).
Proof.
  intros Hroom Hfind Hbad.
  unfold sendMessage. rewrite (ObjectId_parse_valid _ Hroom). simpl.
  unfold bind, chatRoomModel_findById, await, new_ObjectId.
  now rewrite Hroom, Hfind, (ObjectId_invalid_parse _ Hbad).
Qed.

(** X7.  After a message is sent in a room, when every room was last
    updated before now, the listing of any participant of that (active)
    room starts with that room. *)
Theorem sendMessage_moves_room_first
  (sender user : string) (dto : SendMessageDto) (w : World) (o s u : ObjectId) (r : ChatRoom) :
  Types.ObjectId_parse (dto_roomId dto) = Some o ->
  find (fun r0 => Types.eqb (room_id r0) o) (rooms w) = Some r ->
  Types.ObjectId_parse sender = Some s ->
  Types.ObjectId_parse user = Some u ->
  In u (participants r) -> isActive r = true ->
  (forall r0, In r0 (rooms w) -> updatedAt r0 < now w) ->
  exists m w' first others,
    sendMessage sender dto w = (Ok m, w') /\
    getRoomsByUser user w' = (Ok (first :: others), w') /\
    room_id (view_room first) = room_id r /\ updatedAt (view_room first) = now w.
Proof.
  intros Hroom Hfind Hsender Huser Hmember Hactive Hbefore.
  set (touch := fun r0 : ChatRoom =>
         {| room_id := room_id r0; name := name r0; participants := participants r0;
            isActive := isActive r0; updatedAt := now w |}).
  set (stored := update_first (fun r0 => Types.eqb (room_id r0) (room_id r)) touch (rooms w)).
  set (m := {| message_id := Types.generate (nextId w); roomId := room_id r; senderId := s;
               content := dto_content dto; message_createdAt := now w |}).
  set (w' := with_rooms stored (next_id (with_messages (messages w ++ [m]) w))).
  assert (Hsend : sendMessage sender dto w = (Ok m, w')).
  { unfold sendMessage. rewrite (ObjectId_parse_valid _ Hroom). simpl.
    unfold bind, chatRoomModel_findById, await, new_ObjectId.
    rewrite Hroom, Hfind, Hsender. reflexivity. }
  set (mine := filter (fun r0 => existsb (Types.eqb u) (participants r0) && isActive r0)
                 stored).
  assert (Hlist : getRoomsByUser user w'
                  = (Ok (map populate_participants (sort_by updatedAt_desc mine)), w')).
  { unfold getRoomsByUser. rewrite (ObjectId_parse_valid _ Huser). simpl.
    unfold bind, await, new_ObjectId, chatRoomModel_find_by_participant.
    rewrite Huser. reflexivity. }
  exists m, w'. rewrite Hsend, Hlist. clear Hsend Hlist.
  pose proof (find_some _ _ Hfind) as [_ Hid]. apply ObjectId_eqb_eq in Hid.
  assert (Htouched : In (touch r) mine).
  { apply filter_In. split.
    - apply update_first_image. now rewrite Hid.
    - cbn [participants isActive touch]. rewrite Hactive, andb_true_r.
      apply existsb_exists. exists u. split; [exact Hmember | apply ObjectId_eqb_refl]. }
  pose proof (sort_by_permutation updatedAt_desc mine) as Hperm.
  pose proof (rooms_sorted_desc mine) as Hsorted.
  destruct (sort_by updatedAt_desc mine) as [| h rest] eqn:Hsort.
  - apply (Permutation_in _ Hperm) in Htouched. destruct Htouched.
  - exists (populate_participants h), (map populate_participants rest).
    split; [reflexivity |]. split; [reflexivity |]. cbn [view_room populate_participants].
    assert (Hh : In h stored).
    { assert (Hin : In h mine)
        by (apply (Permutation_in _ (Permutation_sym Hperm)); now left).
      now apply filter_In in Hin as [Hin _]. }
    assert (Hmax : now w <= updatedAt h).
    { apply (Permutation_in _ Hperm) in Htouched. destruct Htouched as [Heq | Hin].
      - rewrite Heq. cbn [updatedAt touch]. lia.
      - inversion Hsorted as [| ? ? _ Hall]; subst.
        rewrite Forall_forall in Hall. specialize (Hall _ Hin).
        cbn [updatedAt touch] in Hall. exact Hall. }
    apply update_first_In in Hh as [Hold | [x [Hx ->]]].
    + specialize (Hbefore _ Hold). lia.
    + rewrite Hid, Hfind in Hx. injection Hx as <-.
      cbn [room_id updatedAt touch]. split; reflexivity.
Qed.

(** ** Generated identifiers *)

Lemma hex_digit_canonical (m : N) :
  (m < 16)%N ->
  Types.is_hex (Types.hex_digit m) = true /\
  Types.lower_hex (Types.hex_digit m) = Types.hex_digit m.
Proof.
  intros Hm. destruct m as [| p]; [now vm_compute |].
  do 4 (try destruct p as [p | p |]); try lia; now vm_compute.
Qed.

Lemma hex_rev_canonical (k : nat) (n : N) :
  List.length (Types.hex_rev k n) = k /\
  Forall (fun c => Types.is_hex c = true /\ Types.lower_hex c = c) (Types.hex_rev k n).
Proof.
  revert n. induction k as [| k IH]; intros n; simpl.
  - split; [reflexivity | constructor].
  - destruct (IH (n / 16)%N) as [Hlen Hall]. split; [now rewrite Hlen |].
    constructor; [| exact Hall].
    apply hex_digit_canonical. apply N.mod_lt. discriminate.
Qed.

Lemma string_of_list_ascii_length (l : list ascii) :
  String.length (string_of_list_ascii l) = List.length l.
Proof. induction l as [| c r IH]; simpl; [reflexivity | now rewrite IH]. Qed.

Lemma lower_canonical (l : list ascii) :
  Forall (fun c => Types.is_hex c = true /\ Types.lower_hex c = c) l ->
  Types.lower (string_of_list_ascii l) = string_of_list_ascii l.
Proof.
  induction 1 as [| c r [_ Hc] _ IH]; simpl; [reflexivity | now rewrite Hc, IH].
Qed.

(** An identifier the driver generates is canonical: its text is 24
    lower-case hexadecimal digits, and parses back to itself. *)
Lemma generate_canonical (n : N) :
  Types.ObjectId_parse (Types.toString (Types.generate n)) = Some (Types.generate n).
Proof.
  destruct (hex_rev_canonical 24 n) as [Hlen Hall].
  assert (Hrev : Forall (fun c => Types.is_hex c = true /\ Types.lower_hex c = c)
                   (rev (Types.hex_rev 24 n))).
  { apply Forall_forall. intros c Hc. apply in_rev in Hc.
    rewrite Forall_forall in Hall. now apply Hall. }
  unfold Types.generate, Types.ObjectId_parse, Types.ObjectId_isValid.
  cbn [Types.toString].
  rewrite string_of_list_ascii_length, length_rev, Hlen.
  rewrite list_ascii_of_string_of_list_ascii.
  assert (Hhex : forallb Types.is_hex (rev (Types.hex_rev 24 n)) = true).
  { apply forallb_forall. intros c Hc. rewrite Forall_forall in Hrev.
    now apply Hrev. }
  rewrite Hhex. change ((24 =? 24)%nat) with true. cbn [andb].
  now rewrite (lower_canonical Hrev).
Qed.

(** ** ChatService: opening rooms *)

Lemma map_new_ObjectId_map (ids : list string) :
  forallb Types.ObjectId_isValid ids = true ->
  map_new_ObjectId ids = Ok (map (fun s => OID (Types.lower s)) ids).
Proof.
  induction ids as [| id r IH]; simpl; intros Hall; [reflexivity |].
  apply andb_true_iff in Hall as [Hid Hr].
  unfold new_ObjectId. now rewrite (ObjectId_valid_parse _ Hid), (IH Hr).
Qed.

Lemma all_in_In (asked have : list ObjectId) (o : ObjectId) :
  all_in asked have = true -> In o asked -> In o have.
Proof.
  unfold all_in. destruct asked as [| a r]; [discriminate |].
  intros Hall Hin. rewrite forallb_forall in Hall. specialize (Hall _ Hin).
  apply existsb_exists in Hall as [x [Hx Heq]]. apply ObjectId_eqb_eq in Heq. now subst x.
Qed.

(** X8.  [createRoom] does not look for an existing room and does not read
    the creator: with well-formed participant ids it always adds one
    active room with exactly the participants of the DTO (the creator is a
    participant only when the DTO lists them), leaves the other rooms as
    they were, and the new room is then found under its id; a malformed
    participant id throws before anything is written. *)
Theorem createRoom_adds_a_room (dto : CreateRoomDto) (creator : string) (w : World) :
  (forallb Types.ObjectId_isValid (dto_participants dto) = false ->
   createRoom dto creator w = (Throw BSONError, w)) /\
  (forallb Types.ObjectId_isValid (dto_participants dto) = true ->
   exists r w',
     createRoom dto creator w = (Ok r, w') /\
     rooms w' = rooms w ++ [r] /\ messages w' = messages w /\
     appointments w' = appointments w /\
     participants r = map (fun s => OID (Types.lower s)) (dto_participants dto) /\
     isActive r = true /\ name r = Js.nullish (dto_name dto) "Atendimento" /\
     ((forall r0, In r0 (rooms w) -> room_id r0 <> Types.generate (nextId w)) ->
      getRoomById (Types.toString (room_id r)) w' = (Ok r, w'))).
Proof.
  split; intros Hids; unfold createRoom, bind, await.
  - now rewrite (map_new_ObjectId_invalid _ Hids).
  - rewrite (map_new_ObjectId_map _ Hids). unfold chatRoomModel_create.
    do 2 eexists. split; [reflexivity |].
    cbn [rooms messages appointments participants isActive name room_id
         next_id with_rooms].
    repeat split. intros Hfresh.
    unfold getRoomById. rewrite (ObjectId_parse_valid _ (generate_canonical (nextId w))).
    cbn [negb]. unfold bind, chatRoomModel_findById.
    rewrite generate_canonical. cbn [rooms next_id with_rooms].
    rewrite find_app_last.
    + reflexivity.
    + destruct (find _ (rooms w)) as [r0 |] eqn:Hfind; [| reflexivity].
      apply find_some in Hfind as [Hin Heq]. apply ObjectId_eqb_eq in Heq.
      now apply Hfresh in Hin.
    + cbn [room_id]. apply ObjectId_eqb_refl.
Qed.

(** X9.  [getOrCreateRoomForTutorAndProviderUser] fails with NotFound, and
    writes nothing, when the provider id is malformed, when there is no
    such provider, and when the provider has no linked user under any of
    the three field names; a malformed tutor user id then makes the ObjectId
    constructor throw.  Otherwise it returns an active stored room that has
    both the tutor's user and the provider's user among its participants,
    creating at most one room and touching nothing else. *)
Theorem getOrCreateRoomForTutorAndProviderUser_cases
  (tutorUserId providerId : string) (w : World) :
  (Types.ObjectId_isValid providerId = false ->
   getOrCreateRoomForTutorAndProviderUser tutorUserId providerId w
   = (Throw (NotFoundException "Prestador inválido"), w)) /\
  (Types.ObjectId_isValid providerId = true ->
   providersService_findOne dir providerId = Ok None ->
   getOrCreateRoomForTutorAndProviderUser tutorUserId providerId w
   = (Throw (NotFoundException "Prestador não encontrado"), w)) /\
  (forall p,
     Types.ObjectId_isValid providerId = true ->
     providersService_findOne dir providerId = Ok (Some p) ->
     match rawUserId p with
     | None =>
         getOrCreateRoomForTutorAndProviderUser tutorUserId providerId w
         = (Throw (NotFoundException "Usuário do prestador não está vinculado no cadastro."), w)
     | Some u =>
         (Types.ObjectId_isValid tutorUserId = false ->
          getOrCreateRoomForTutorAndProviderUser tutorUserId providerId w
          = (Throw BSONError, w)) /\
         (forall t,
            Types.ObjectId_parse tutorUserId = Some t ->
            Types.ObjectId_parse (Types.toString u) = Some u ->
            exists r w',
              getOrCreateRoomForTutorAndProviderUser tutorUserId providerId w = (Ok r, w') /\
              In r (rooms w') /\ isActive r = true /\
              In t (participants r) /\ In u (participants r) /\
              (rooms w' = rooms w \/ rooms w' = rooms w ++ [r]) /\
              messages w' = messages w /\ appointments w' = appointments w)
     end).
Proof.
  split; [| split].
  - intros Hbad. unfold getOrCreateRoomForTutorAndProviderUser. now rewrite Hbad.
  - intros Hvalid Hnone. unfold getOrCreateRoomForTutorAndProviderUser.
    rewrite Hvalid. simpl. unfold bind, await. now rewrite Hnone.
  - intros p Hvalid Hsome.
    assert (Hstep :
      getOrCreateRoomForTutorAndProviderUser tutorUserId providerId w
      = match rawUserId p with
        | None =>
            (Throw (NotFoundException "Usuário do prestador não está vinculado no cadastro."),
             w)
        | Some raw =>
            getOrCreateRoomForParticipants [tutorUserId; Types.toString raw]
              (Some "Atendimento com prestador") w
        end).
    { unfold getOrCreateRoomForTutorAndProviderUser. rewrite Hvalid. cbn [negb].
      unfold bind at 1. unfold await at 1. rewrite Hsome.
      now destruct (rawUserId p). }
    rewrite Hstep. clear Hstep.
    destruct (rawUserId p) as [u |]; [| reflexivity].
    split.
    + intros Hbad. unfold getOrCreateRoomForParticipants, bind, await.
      cbn [map_new_ObjectId]. unfold new_ObjectId at 1.
      now rewrite (ObjectId_invalid_parse _ Hbad).
    + intros t Ht Hu. unfold getOrCreateRoomForParticipants, bind, await.
      cbn [map_new_ObjectId]. unfold new_ObjectId. rewrite Ht, Hu.
      unfold chatRoomModel_findOne.
      destruct (find (fun r => all_in [t; u] (participants r) && isActive r) (rooms w))
        as [r |] eqn:Hfind.
      * exists r, w. apply find_some in Hfind as [Hin Hp].
        apply andb_true_iff in Hp as [Hall Hactive].
        repeat split; auto.
        -- apply (all_in_In _ _ _ Hall). now left.
        -- apply (all_in_In _ _ _ Hall). right. now left.
      * unfold chatRoomModel_create. do 2 eexists. split; [reflexivity |].
        cbn [rooms messages appointments participants isActive next_id with_rooms].
        repeat split.
        -- apply in_or_app. right. now left.
        -- now left.
        -- right. now left.
        -- now right.
Qed.

(** ** AppointmentsService: what [create] leaves in the store *)

Lemma getOrCreateRoomForParticipants_rooms
  (ids : list string) (room_name : option string) (w : World) :
  exists opened,
    rooms (snd (getOrCreateRoomForParticipants ids room_name w)) = rooms w ++ opened /\
    (List.length opened <= 1)%nat.
Proof.
  unfold getOrCreateRoomForParticipants, bind, await.
  destruct (map_new_ObjectId ids) as [members | e].
  - unfold chatRoomModel_findOne.
    destruct (find _ (rooms w)); simpl.
    + exists []. split; [now rewrite app_nil_r | simpl; lia].
    + eexists [_]. split; [reflexivity | simpl; lia].
  - exists []. simpl. split; [now rewrite app_nil_r | lia].
Qed.

(** The outcome of [create], on every path through the guards, the write
    and the room provisioning. *)
Lemma create_outcome (dto : CreateAppointmentDto) (w : World) :
  exists opened,
    rooms (snd (create dto w)) = rooms w ++ opened /\ (List.length opened <= 1)%nat /\
    messages (snd (create dto w)) = messages w /\
    match fst (create dto w) with
    | Ok a =>
        appointments (snd (create dto w)) = appointments w ++ [a] /\
        _id a = Types.generate (nextId w) /\ createdAt a = now w /\
        petModel_exists ext (dto_pet dto) = Ok true /\
        providerModel_exists ext (dto_provider dto) = Ok true /\
        Types.ObjectId_parse (dto_pet dto) = Some (pet a) /\
        Types.ObjectId_parse (dto_provider dto) = Some (provider a) /\
        Date_of rt (dto_dateTime dto) = Some (dateTime a) /\
        status a = Js.nullish (dto_status dto) (defaultStatus schema) /\
        isRated a = defaultIsRated schema
    | Throw e => appointments (snd (create dto w)) = appointments w /\ opened = []
    end.
Proof.
  destruct (create dto w) as [res w'] eqn:Hrun. cbn [fst snd].
  unfold create in Hrun.
  match type of Hrun with
  | context [try_catch ?b ?h] => set (body := b) in Hrun
  end.
  assert (Hbody : forall w1,
            appointments (snd (body w1)) = appointments w1 /\
            messages (snd (body w1)) = messages w1 /\
            exists opened,
              rooms (snd (body w1)) = rooms w1 ++ opened /\ (List.length opened <= 1)%nat).
  { intros w1. unfold body, bind, await.
    repeat first
      [ progress cbn -[getOrCreateRoomForParticipants String.append String.eqb]
      | match goal with
        | |- context [petModel_findById ext ?x] =>
            destruct (petModel_findById ext x) as [[? |] | ?]
        | |- context [providerModel_findById ext ?x] =>
            destruct (providerModel_findById ext x) as [[? |] | ?]
        | |- context [tutorsService_findById ext ?x] =>
            destruct (tutorsService_findById ext x) as [[? |] | ?]
        | |- context [tutorId ?p] => destruct (tutorId p)
        | |- context [tutor_userId ?p] => destruct (tutor_userId p)
        | |- context [userId ?p] => destruct (userId p)
        | |- context [String.eqb ?a ""] => destruct (String.eqb a "")
        end ];
      try (repeat split; exists []; split; [now rewrite app_nil_r | simpl; lia]).
    all: match goal with
         | |- context [getOrCreateRoomForParticipants ?ids ?nm ?w0] =>
             destruct (getOrCreateRoomForParticipants_store ids nm w0) as [Ha [Hm _]];
             destruct (getOrCreateRoomForParticipants_rooms ids nm w0) as [opened [Hr Hl]];
             destruct (getOrCreateRoomForParticipants ids nm w0) as [[r | e] w2]
         end; cbn [fst snd ret] in *; repeat split; try assumption;
         exists opened; split; assumption. }
  clearbody body.
  unfold assertPet, assertProvider, bind, await, new_ObjectId in Hrun.
  destruct (petModel_exists ext (dto_pet dto)) as [[|] | e1] eqn:Hpet_ok;
    cbn [ret throw] in Hrun;
    try (injection Hrun as <- <-; exists []; rewrite app_nil_r; simpl; repeat split; lia).
  destruct (providerModel_exists ext (dto_provider dto)) as [[|] | e2] eqn:Hprovider_ok;
    cbn [ret throw] in Hrun;
    try (injection Hrun as <- <-; exists []; rewrite app_nil_r; simpl; repeat split; lia).
  destruct (Types.ObjectId_parse (dto_pet dto)) as [pet_oid |] eqn:Hpet_oid;
    try (injection Hrun as <- <-; exists []; rewrite app_nil_r; simpl; repeat split; lia).
  destruct (Types.ObjectId_parse (dto_provider dto)) as [provider_oid |] eqn:Hprovider_oid;
    try (injection Hrun as <- <-; exists []; rewrite app_nil_r; simpl; repeat split; lia).
  unfold model_create in Hrun.
  destruct (new_document (create_input dto pet_oid provider_oid)
              (Types.generate (nextId w)) (now w)) as [a |] eqn:Hdoc;
    try (injection Hrun as <- <-; exists []; rewrite app_nil_r; simpl; repeat split; lia).
  unfold try_catch in Hrun.
  match type of Hrun with
  | context [body ?w1] =>
      destruct (Hbody w1) as [Happ [Hmsg [opened [Hrooms Hlen]]]];
      destruct (body w1) as [[[] | e3] w2]
  end; cbn [fst snd] in *;
    unfold console_error, ret in Hrun; injection Hrun as <- <-;
    exists opened;
    cbn [rooms messages appointments log_console] in *;
    rewrite Hrooms, Hmsg, Happ.
  all: unfold new_document, create_input in Hdoc; cbn [in_dateTime in_dto in_pet in_provider] in Hdoc;
    destruct (Date_of rt (dto_dateTime dto)) as [date |]; [| discriminate];
    destruct (cast_service (dto_service dto)) as [serv |]; [| discriminate];
    destruct (validate schema _); [| discriminate];
    injection Hdoc as <-; cbn; repeat split; assumption.
Qed.

(** X10.  [create] is all or nothing, and only ever adds: on every path
    the appointments and rooms already stored stay as they were, in their
    order, the messages are untouched and at most one room is opened; when
    [create] throws (a guard, a malformed id, the validators), no
    appointment and no room has been written; when it returns, exactly the
    returned appointment has been appended. *)
Theorem create_all_or_nothing (dto : CreateAppointmentDto) (w : World) :
  exists opened,
    rooms (snd (create dto w)) = rooms w ++ opened /\ (List.length opened <= 1)%nat /\
    messages (snd (create dto w)) = messages w /\
    match fst (create dto w) with
    | Ok a => appointments (snd (create dto w)) = appointments w ++ [a]
    | Throw e => appointments (snd (create dto w)) = appointments w /\ opened = []
    end.
Proof.
  destruct (create_outcome dto w) as [opened [Hrooms [Hlen [Hmsg Hres]]]].
  exists opened. repeat split; try assumption.
  destruct (fst (create dto w)); [apply Hres | exact Hres].
Qed.

(** X11.  An appointment [create] returns can be read back: it carries a
    fresh canonical id, the time of the write, the default [isRated] and
    the status of the DTO or the default one, and, when no stored
    appointment had that id, [findOne] of its id returns it (populated)
    without writing. *)
Theorem create_then_findOne (dto : CreateAppointmentDto) (w w' : World) (a : Appointment) :
  create dto w = (Ok a, w') ->
  (forall old, In old (appointments w) -> _id old <> Types.generate (nextId w)) ->
  findOne (Types.toString (_id a)) w' = (Ok (populate_full a), w') /\
  Types.ObjectId_parse (Types.toString (_id a)) = Some (_id a) /\
  createdAt a = now w /\ isRated a = defaultIsRated schema /\
  status a = Js.nullish (dto_status dto) (defaultStatus schema) /\
  Date_of rt (dto_dateTime dto) = Some (dateTime a).
Proof.
  intros Hrun Hfresh.
  destruct (create_outcome dto w) as [opened [_ [_ [_ Hres]]]].
  rewrite Hrun in Hres. cbn [fst snd] in Hres.
  destruct Hres as [Happ [Hid [Hcreated [_ [_ [_ [_ [Hdate [Hstatus Hrated]]]]]]]]].
  rewrite Hid. rewrite generate_canonical. repeat split; try assumption.
  unfold findOne, bind, model_findById. rewrite generate_canonical, Happ.
  rewrite find_app_last.
  - reflexivity.
  - destruct (find _ (appointments w)) as [old |] eqn:Hfind; [| reflexivity].
    apply find_some in Hfind as [Hin Heq]. apply ObjectId_eqb_eq in Heq.
    now apply Hfresh in Hin.
  - rewrite Hid. apply ObjectId_eqb_refl.
Qed.

(** X12.  [createForPet] and [createForProvider] book for the id of the
    path: whatever [pet] (or [provider]) the payload itself carries, the
    guard is asked about the path id and the stored appointment has the
    path id as its pet (or provider); the other reference comes from the
    payload. *)
Theorem createForPet_createForProvider_path_id
  (id : string) (payload : CreateAppointmentDto) (w w' : World) (a : Appointment) :
  (createForPet id payload w = (Ok a, w') ->
   petModel_exists ext id = Ok true /\
   Types.ObjectId_parse id = Some (pet a) /\
   Types.ObjectId_parse (dto_provider payload) = Some (provider a) /\
   appointments w' = appointments w ++ [a]) /\
  (createForProvider id payload w = (Ok a, w') ->
   providerModel_exists ext id = Ok true /\
   Types.ObjectId_parse id = Some (provider a) /\
   Types.ObjectId_parse (dto_pet payload) = Some (pet a) /\
   appointments w' = appointments w ++ [a]).
Proof.
  split; intros Hrun.
  - unfold createForPet in Hrun.
    destruct (create_outcome (with_dto_pet payload id) w) as [opened [_ [_ [_ Hres]]]].
    rewrite Hrun in Hres. cbn [fst snd dto_pet dto_provider with_dto_pet] in Hres.
    tauto.
  - unfold createForProvider in Hrun.
    destruct (create_outcome (with_dto_provider payload id) w) as [opened [_ [_ [_ Hres]]]].
    rewrite Hrun in Hres. cbn [fst snd dto_pet dto_provider with_dto_provider] in Hres.
    tauto.
Qed.

(** ** AppointmentsService: deleting *)

Lemma remove_first_none {A} (p : A -> bool) (l : list A) :
  find p l = None -> remove_first p l = l.
Proof.
  induction l as [| x r IH]; simpl; [reflexivity |].
  destruct (p x); [discriminate |]. intros Hnone. now rewrite IH.
Qed.

Lemma remove_first_split {A} (p : A -> bool) (l : list A) (x : A) :
  find p l = Some x ->
  exists before after,
    l = before ++ x :: after /\ remove_first p l = before ++ after /\
    find p before = None.
Proof.
  induction l as [| y r IH]; simpl; [discriminate |].
  destruct (p y) eqn:Hp.
  - intros [= ->]. now exists [], r.
  - intros Hfind. destruct (IH Hfind) as [before [after [Hl [Hr Hnone]]]].
    exists (y :: before), after. simpl. rewrite Hp, Hr, <- Hl. auto.
Qed.

Lemma find_by_id_unique (l : list Appointment) (o : ObjectId) :
  NoDup (map _id l) ->
  find (fun a => Types.eqb (_id a) o) (remove_first (fun a => Types.eqb (_id a) o) l) = None.
Proof.
  induction l as [| x r IH]; simpl; [reflexivity |].
  intros Hnodup. inversion Hnodup as [| ? ? Hnotin Hrest]; subst.
  destruct (Types.eqb (_id x) o) eqn:Hx.
  - apply ObjectId_eqb_eq in Hx. subst o.
    destruct (find _ r) as [y |] eqn:Hfind; [| reflexivity].
    apply find_some in Hfind as [Hin Heq]. apply ObjectId_eqb_eq in Heq.
    exfalso. apply Hnotin. rewrite <- Heq. now apply in_map.
  - simpl. rewrite Hx. now apply IH.
Qed.

Lemma with_appointments_same (w : World) : with_appointments (appointments w) w = w.
Proof. now destruct w. Qed.

(** X13.  [remove] deletes exactly one appointment, the first stored under
    the id: the appointments before and after it stay, in their order, and
    rooms and messages are untouched.  A malformed id is a cast error and
    an id nobody has is NotFound, both with the store as it was; and when
    ids are unique, the appointment is gone afterwards: [findOne] and a
    second [remove] of the id answer NotFound. *)
Theorem remove_deletes_one (id : string) (w : World) :
  (Types.ObjectId_isValid id = false -> remove id w = (Throw (CastError "_id"), w)) /\
  (forall o,
     Types.ObjectId_parse id = Some o ->
     find (fun a => Types.eqb (_id a) o) (appointments w) = None ->
     remove id w = (Throw (NotFoundException "Consulta não encontrada."), w)) /\
  (forall o a,
     Types.ObjectId_parse id = Some o ->
     find (fun a => Types.eqb (_id a) o) (appointments w) = Some a ->
     exists w' before after,
       remove id w = (Ok {| success := true |}, w') /\
       appointments w = before ++ a :: after /\
       appointments w' = before ++ after /\
       rooms w' = rooms w /\ messages w' = messages w /\
       (NoDup (map _id (appointments w)) ->
        findOne id w' = (Throw (NotFoundException "Consulta não encontrada."), w') /\
        remove id w' = (Throw (NotFoundException "Consulta não encontrada."), w'))).
Proof.
  split; [| split].
  - intros Hbad. unfold remove, bind, model_findByIdAndDelete.
    now rewrite (ObjectId_invalid_parse _ Hbad).
  - intros o Hparse Hfind. unfold remove, bind, model_findByIdAndDelete.
    rewrite Hparse, Hfind.
    rewrite (remove_first_none _ _ Hfind). now rewrite with_appointments_same.
  - intros o a Hparse Hfind.
    destruct (remove_first_split _ _ Hfind) as [before [after [Hl [Hr _]]]].
    exists (with_appointments (remove_first (fun a => Types.eqb (_id a) o) (appointments w)) w),
      before, after.
    split; [| split; [exact Hl | split; [exact Hr | split; [reflexivity | split; [reflexivity |]]]]].
    + unfold remove, bind, model_findByIdAndDelete. now rewrite Hparse, Hfind.
    + intros Hnodup. pose proof (@find_by_id_unique (appointments w) o Hnodup) as Hgone.
      unfold findOne, remove, bind, model_findById, model_findByIdAndDelete.
      rewrite Hparse. cbn [appointments with_appointments]. rewrite Hgone.
      split; [reflexivity |].
      rewrite (remove_first_none _ _ Hgone).
      match goal with
      | |- context [with_appointments ?l ?w0] =>
          change l with (appointments w0); now rewrite with_appointments_same
      end.
Qed.

(** ** AppointmentsService: what a page holds *)

Lemma In_firstn_skipn {A} (n m : nat) (l : list A) (x : A) :
  In x (firstn n (skipn m l)) -> In x l.
Proof.
  intros Hin. rewrite <- (firstn_skipn m l). apply in_or_app. right.
  rewrite <- (firstn_skipn n (skipn m l)). apply in_or_app. now left.
Qed.

(** What a call of [findAll] that returns has done. *)
Lemma findAll_inversion (q : QueryAppointmentDto) (w w' : World) (env : Envelope Item) :
  findAll q w = (Ok env, w') ->
  exists f pg lim skip,
    build_filter q = Ok f /\ pagination q = (pg, Js.Num lim, Js.Num skip) /\
    items env =
      map populate
        (firstn (Z.to_nat lim)
           (skipn (Z.to_nat skip)
              (sort_by (sort_leb (build_sort q)) (filter (matches f) (appointments w))))) /\
    total env = Z.of_nat (List.length (filter (matches f) (appointments w))) /\
    page env = Number pg /\ limit env = Number (Js.Num lim) /\
    pages env = Js.ceil_div (Js.Num (total env)) (Js.Num lim) /\
    appointments w' = appointments w /\ rooms w' = rooms w /\ messages w' = messages w.
Proof.
  unfold findAll, bind, await. intros Hrun.
  destruct (build_filter q) as [f | e]; [| discriminate].
  destruct (pagination q) as [[pg lim] skip].
  unfold Promise_all, model_find, model_countDocuments, ret in Hrun.
  destruct (checked_filter f) as [[] | e]; [| discriminate].
  destruct skip as [| skip]; [discriminate |].
  destruct lim as [| lim]; [discriminate |].
  injection Hrun as <- <-. exists f, pg, lim, skip. now repeat split.
Qed.

Lemma findAll_items_source (q : QueryAppointmentDto) (w w' : World) (env : Envelope Item) :
  findAll q w = (Ok env, w') ->
  exists f,
    build_filter q = Ok f /\
    Forall (fun it => In (doc it) (appointments w) /\ matches f (doc it) = true /\
                      it = populate (doc it)) (items env).
Proof.
  intros Hrun.
  destruct (findAll_inversion _ _ Hrun) as [f [pg [lim [skip [Hf [_ [Hitems _]]]]]]].
  exists f. split; [exact Hf |]. rewrite Hitems. apply Forall_map, Forall_forall.
  intros a Hin. apply In_firstn_skipn in Hin.
  apply (Permutation_in _ (Permutation_sym (sort_by_permutation _ _))) in Hin.
  apply filter_In in Hin as [Hin Hmatch]. now repeat split.
Qed.

Lemma map_new_ObjectId_In (ids : list string) (os : list ObjectId) (o : ObjectId) :
  map_new_ObjectId ids = Ok os -> In o os ->
  exists s, In s ids /\ Types.ObjectId_parse s = Some o.
Proof.
  revert os. induction ids as [| id r IH]; simpl; intros os Hmap Hin.
  - injection Hmap as <-. destruct Hin.
  - unfold new_ObjectId in Hmap.
    destruct (Types.ObjectId_parse id) as [o1 |] eqn:Hid; [| discriminate].
    destruct (map_new_ObjectId r) as [os1 | e]; [| discriminate].
    injection Hmap as <-. destruct Hin as [<- | Hin].
    + exists id. split; [now left | exact Hid].
    + destruct (IH os1 eq_refl Hin) as [s [Hs Hparse]]. exists s. split; [now right | exact Hparse].
Qed.

Lemma truthy_nullish (o : option string) (s : string) :
  o = Some s -> s <> "" -> Js.truthy o = true /\ Js.nullish o "" = s.
Proof.
  intros -> Hs. simpl. now destruct (String.eqb_spec s "").
Qed.

(** The keys [findAll] puts in the filter, for the fields the query
    carries. *)
Lemma build_filter_conditions (q : QueryAppointmentDto) (f : FilterQuery) :
  build_filter q = Ok f ->
  (forall s, q_provider q = Some s -> s <> "" ->
     exists o, Types.ObjectId_parse s = Some o /\ In (ProviderIs o) f) /\
  (forall v, q_pet q = Some v -> truthy_field (Some v) = true ->
     exists os, map_new_ObjectId (as_array v) = Ok os /\ In (PetIn os) f) /\
  (forall v, q_status q = Some v -> truthy_field (Some v) = true ->
     In (StatusIn (status_array v)) f) /\
  (forall s, q_q q = Some s -> s <> "" -> In (OrRegex s) f) /\
  (forall s, q_from q = Some s -> s <> "" ->
     exists bounds, In (DateTimeIs bounds) f /\ In (Gte, Date_of rt s) bounds) /\
  (forall s, q_to q = Some s -> s <> "" ->
     exists bounds, In (DateTimeIs bounds) f /\ In (Lte, Date_of rt s) bounds) /\
  (forall s, q_minPrice q = Some s -> s <> "" ->
     exists bounds, In (PriceIs bounds) f /\ In (Gte, Number_of rt s) bounds) /\
  (forall s, q_maxPrice q = Some s -> s <> "" ->
     exists bounds, In (PriceIs bounds) f /\ In (Lte, Number_of rt s) bounds).
Proof.
  unfold build_filter. intros Hbuild.
  match type of Hbuild with
  | match ?X with Ok _ => _ | Throw _ => _ end = _ =>
      destruct X as [by_provider | e] eqn:Hprovider; [| discriminate]
  end.
  match type of Hbuild with
  | match ?X with Ok _ => _ | Throw _ => _ end = _ =>
      destruct X as [by_pet | e] eqn:Hpet; [| discriminate]
  end.
  injection Hbuild as <-.
  repeat split.
  - intros s Hq Hs. destruct (truthy_nullish Hq Hs) as [Ht Hn].
    rewrite Ht, Hn in Hprovider. unfold new_ObjectId in Hprovider.
    destruct (Types.ObjectId_parse s) as [o |]; [| discriminate].
    injection Hprovider as <-. exists o. split; [reflexivity |].
    apply in_or_app. left. now left.
  - intros v Hq Hv. rewrite Hq in Hpet. rewrite Hv in Hpet. cbn [Js.nullish] in Hpet.
    destruct (map_new_ObjectId (as_array v)) as [os |]; [| discriminate].
    injection Hpet as <-. exists os. split; [reflexivity |].
    apply in_or_app. right. apply in_or_app. left. now left.
  - intros v Hq Hv. rewrite Hq, Hv. cbn [Js.nullish].
    do 2 (apply in_or_app; right). apply in_or_app. left. now left.
  - intros s Hq Hs. destruct (truthy_nullish Hq Hs) as [Ht Hn]. rewrite Ht, Hn.
    do 3 (apply in_or_app; right). apply in_or_app. left. now left.
  - intros s Hq Hs. destruct (truthy_nullish Hq Hs) as [Ht Hn]. rewrite Ht, Hn.
    cbn [orb]. eexists. split.
    + do 4 (apply in_or_app; right). apply in_or_app. left. now left.
    + apply in_or_app. left. now left.
  - intros s Hq Hs. destruct (truthy_nullish Hq Hs) as [Ht Hn]. rewrite Ht, Hn.
    rewrite orb_true_r. eexists. split.
    + do 4 (apply in_or_app; right). apply in_or_app. left. now left.
    + apply in_or_app. right. now left.
  - intros s Hq Hs. destruct (truthy_nullish Hq Hs) as [Ht Hn]. rewrite Ht, Hn.
    cbn [orb]. eexists. split.
    + do 5 (apply in_or_app; right). now left.
    + apply in_or_app. left. now left.
  - intros s Hq Hs. destruct (truthy_nullish Hq Hs) as [Ht Hn]. rewrite Ht, Hn.
    rewrite orb_true_r. eexists. split.
    + do 5 (apply in_or_app; right). now left.
    + apply in_or_app. right. now left.
Qed.

Lemma matches_holds (f : FilterQuery) (a : Appointment) (c : Condition) :
  matches f a = true -> In c f -> holds a c = true.
Proof. unfold matches. rewrite forallb_forall. auto. Qed.

Lemma within_bound {A} (leb ltb : A -> A -> bool) (x : A) (b : Bound) (v : option A)
  (bounds : list (Bound * option A)) :
  forallb (within leb ltb x) bounds = true -> In (b, v) bounds ->
  exists t, v = Some t /\
    match b with Gte => leb t x | Lte => leb x t | Lt => ltb x t end = true.
Proof.
  rewrite forallb_forall. intros Hall Hin. specialize (Hall _ Hin).
  unfold within in Hall. destruct b, v as [t |]; try discriminate; eauto.
Qed.

(** X14.  Every item of a page [findAll] returns is a stored appointment
    that satisfies each criterion the query carries: the provider asked
    for, one of the pets, one of the statuses, a date not before [from] and
    not after [to], a price (which must be present) between [minPrice] and
    [maxPrice], and a text match in [reason], [location] or [notes]; its
    [pet] and [provider] are populated from the references. *)
Theorem findAll_items_satisfy_query
  (q : QueryAppointmentDto) (w w' : World) (env : Envelope Item) :
  findAll q w = (Ok env, w') ->
  Forall
    (fun it =>
       In (doc it) (appointments w) /\
       populated_pet it = populate_pet ext (pet (doc it)) /\
       populated_provider it = populate_provider ext (provider (doc it)) /\
       (forall s, q_provider q = Some s -> s <> "" ->
          Types.ObjectId_parse s = Some (provider (doc it))) /\
       (forall v, q_pet q = Some v -> truthy_field (Some v) = true ->
          exists s, In s (as_array v) /\ Types.ObjectId_parse s = Some (pet (doc it))) /\
       (forall v, q_status q = Some v -> truthy_field (Some v) = true ->
          In (status (doc it)) (status_array v)) /\
       (forall s, q_q q = Some s -> s <> "" ->
          exists test,
            RegExp_i rt s = Some test /\
            text_matches test (reason (doc it)) || text_matches test (location (doc it))
            || text_matches test (notes (doc it)) = true) /\
       (forall s, q_from q = Some s -> s <> "" ->
          exists t, Date_of rt s = Some t /\ t <= dateTime (doc it)) /\
       (forall s, q_to q = Some s -> s <> "" ->
          exists t, Date_of rt s = Some t /\ dateTime (doc it) <= t) /\
       (forall s, q_minPrice q = Some s -> s <> "" ->
          exists m p, Number_of rt s = Some m /\ price (doc it) = Some p /\ (m <= p)%Q) /\
       (forall s, q_maxPrice q = Some s -> s <> "" ->
          exists m p, Number_of rt s = Some m /\ price (doc it) = Some p /\ (p <= m)%Q))
    (items env).
Proof.
  intros Hrun. destruct (findAll_items_source _ _ Hrun) as [f [Hf Hitems]].
  destruct (@build_filter_conditions q f Hf)
    as [Hprovider [Hpet [Hstatus [Htext [Hfrom [Hto [Hmin Hmax]]]]]]].
  eapply Forall_impl; [| exact Hitems].
  intros it [Hin [Hmatch Hpop]].
  split; [exact Hin |]. split; [now rewrite Hpop |]. split; [now rewrite Hpop |].
  repeat split.
  - intros s Hq Hs. destruct (Hprovider s Hq Hs) as [o [Hparse Hc]].
    pose proof (@matches_holds _ _ _ Hmatch Hc) as Hholds. cbn [holds] in Hholds.
    apply ObjectId_eqb_eq in Hholds. now rewrite Hholds.
  - intros v Hq Hv. destruct (Hpet v Hq Hv) as [os [Hmap Hc]].
    pose proof (@matches_holds _ _ _ Hmatch Hc) as Hholds. cbn [holds] in Hholds.
    apply existsb_exists in Hholds as [o [Ho Heq]]. apply ObjectId_eqb_eq in Heq.
    rewrite Heq. exact (@map_new_ObjectId_In _ _ _ Hmap Ho).
  - intros v Hq Hv. pose proof (@matches_holds _ _ _ Hmatch (Hstatus v Hq Hv)) as Hholds.
    cbn [holds] in Hholds. apply existsb_exists in Hholds as [x [Hx Heq]].
    apply String.eqb_eq in Heq. now rewrite Heq.
  - intros s Hq Hs. pose proof (@matches_holds _ _ _ Hmatch (Htext s Hq Hs)) as Hholds.
    cbn [holds] in Hholds. destruct (RegExp_i rt s) as [test |]; [| discriminate].
    now exists test.
  - intros s Hq Hs. destruct (Hfrom s Hq Hs) as [bounds [Hc Hb]].
    pose proof (@matches_holds _ _ _ Hmatch Hc) as Hholds. cbn [holds] in Hholds.
    destruct (@within_bound _ _ _ _ _ _ _ Hholds Hb) as [t [Ht Hle]].
    exists t. split; [exact Ht | now apply Z.leb_le].
  - intros s Hq Hs. destruct (Hto s Hq Hs) as [bounds [Hc Hb]].
    pose proof (@matches_holds _ _ _ Hmatch Hc) as Hholds. cbn [holds] in Hholds.
    destruct (@within_bound _ _ _ _ _ _ _ Hholds Hb) as [t [Ht Hle]].
    exists t. split; [exact Ht | now apply Z.leb_le].
  - intros s Hq Hs. destruct (Hmin s Hq Hs) as [bounds [Hc Hb]].
    pose proof (@matches_holds _ _ _ Hmatch Hc) as Hholds. cbn [holds] in Hholds.
    destruct (price (doc it)) as [p |]; [| discriminate].
    destruct (@within_bound _ _ _ _ _ _ _ Hholds Hb) as [m [Hm Hle]].
    exists m, p. repeat split; [exact Hm | now apply Qle_bool_iff].
  - intros s Hq Hs. destruct (Hmax s Hq Hs) as [bounds [Hc Hb]].
    pose proof (@matches_holds _ _ _ Hmatch Hc) as Hholds. cbn [holds] in Hholds.
    destruct (price (doc it)) as [p |]; [| discriminate].
    destruct (@within_bound _ _ _ _ _ _ _ Hholds Hb) as [m [Hm Hle]].
    exists m, p. repeat split; [exact Hm | now apply Qle_bool_iff].
Qed.

(** ** AppointmentsService: deleting by pet and by provider *)

Lemma filter_none {A} (p : A -> bool) (l : list A) :
  (forall x, In x l -> p x = false) -> filter p l = [].
Proof.
  induction l as [| x r IH]; simpl; intros Hall; [reflexivity |].
  rewrite (Hall x (or_introl eq_refl)). apply IH. intros y Hy. apply Hall. now right.
Qed.

Lemma filter_twice {A} (p : A -> bool) (l : list A) : filter p (filter p l) = filter p l.
Proof.
  induction l as [| x r IH]; simpl; [reflexivity |].
  destruct (p x) eqn:Hp; simpl; [rewrite Hp |]; now rewrite IH.
Qed.

Lemma model_deleteMany_twice (keep : Appointment -> bool) (w : World) :
  model_deleteMany keep (snd (model_deleteMany keep w)) = model_deleteMany keep w.
Proof.
  unfold model_deleteMany. cbn [snd appointments with_appointments].
  rewrite filter_twice. reflexivity.
Qed.

Lemma kept_appointments (key : Appointment -> ObjectId) (o : ObjectId) (l : list Appointment)
  (a : Appointment) :
  In a (filter (fun a => negb (Types.eqb (key a) o)) l) <-> In a l /\ key a <> o.
Proof.
  rewrite filter_In. split; intros [Hin Hkey]; split; try assumption.
  - intros Heq. rewrite Heq, ObjectId_eqb_refl in Hkey. discriminate.
  - destruct (Types.eqb (key a) o) eqn:Heq; [| reflexivity].
    apply ObjectId_eqb_eq in Heq. contradiction.
Qed.

Lemma valid_not_empty (s : string) (o : ObjectId) : Types.ObjectId_parse s = Some o -> s <> "".
Proof. intros Hparse ->. discriminate. Qed.

(** X15.  [removeByPet] deletes the appointments of that pet and nothing
    else: an appointment is stored afterwards exactly when it was stored
    before and is of another pet; rooms and messages are untouched; a
    second call changes nothing; and [findAll] for that pet then finds
    nothing, whatever the rest of the query.  A string that is not an
    ObjectId is a cast error, with the store as it was. *)
Theorem removeByPet_exact (petId : IdArgument) (w : World) :
  (forall s, petId = IdString s -> Types.ObjectId_isValid s = false ->
     removeByPet petId w = (Throw (CastError "pet"), w)) /\
  (forall o,
     cast_argument "pet" petId = Ok o ->
     exists w',
       removeByPet petId w = (Ok tt, w') /\
       (forall a, In a (appointments w') <-> In a (appointments w) /\ pet a <> o) /\
       rooms w' = rooms w /\ messages w' = messages w /\
       removeByPet petId w' = (Ok tt, w') /\
       (forall s q env w2,
          Types.ObjectId_parse s = Some o ->
          findAll (with_pet q (One s)) w' = (Ok env, w2) ->
          items env = [] /\ total env = 0)).
Proof.
  split.
  { intros s -> Hbad. unfold removeByPet, bind, await. cbn [cast_argument].
    now rewrite (ObjectId_invalid_parse _ Hbad). }
  intros o Hcast.
  set (keep := fun a => negb (Types.eqb (pet a) o)).
  exists (with_appointments (filter keep (appointments w)) w).
  assert (Hrun : forall w0, removeByPet petId w0 = model_deleteMany keep w0).
  { intros w0. unfold removeByPet, bind, await. now rewrite Hcast. }
  split; [apply Hrun |]. split; [intros a; apply (kept_appointments pet) |].
  split; [reflexivity |]. split; [reflexivity |]. split.
  - rewrite Hrun. exact (model_deleteMany_twice keep w).
  - intros s q env w2 Hparse Hfind.
    destruct (findAll_inversion _ _ Hfind) as [f [pg [lim [skip [Hf [_ [Hitems [Htotal _]]]]]]]].
    destruct (@build_filter_conditions _ f Hf) as [_ [Hpet _]].
    destruct (Hpet (One s) eq_refl) as [os [Hmap Hc]].
    { simpl. now destruct (String.eqb_spec s ""); [apply (valid_not_empty Hparse) in e |]. }
    cbn [as_array map_new_ObjectId] in Hmap. unfold new_ObjectId in Hmap.
    rewrite Hparse in Hmap. injection Hmap as <-.
    assert (Hnone : filter (matches f) (appointments (with_appointments
                                         (filter keep (appointments w)) w)) = []).
    { apply filter_none. intros a Ha. cbn [appointments with_appointments] in Ha.
      apply (kept_appointments pet) in Ha as [_ Hother].
      destruct (matches f a) eqn:Hmatch; [| reflexivity].
      pose proof (@matches_holds _ _ _ Hmatch Hc) as Hholds. cbn [holds existsb] in Hholds.
      rewrite orb_false_r in Hholds. apply ObjectId_eqb_eq in Hholds. contradiction. }
    rewrite Hitems, Htotal, Hnone. cbn [sort_by fold_right].
    rewrite skipn_nil, firstn_nil. split; reflexivity.
Qed.

(** X16.  [removeByProvider] deletes the appointments of that provider
    and nothing else: an appointment is stored afterwards exactly when it
    was stored before and is of another provider; rooms and messages are
    untouched; a second call changes nothing; and the provider's counters
    of the day are then both zero.  A string that is not an ObjectId is a
    cast error, with the store as it was. *)
Theorem removeByProvider_exact (providerId : IdArgument) (w : World) :
  (forall s, providerId = IdString s -> Types.ObjectId_isValid s = false ->
     removeByProvider providerId w = (Throw (CastError "provider"), w)) /\
  (forall o,
     cast_argument "provider" providerId = Ok o ->
     exists w',
       removeByProvider providerId w = (Ok tt, w') /\
       (forall a, In a (appointments w') <-> In a (appointments w) /\ provider a <> o) /\
       rooms w' = rooms w /\ messages w' = messages w /\
       removeByProvider providerId w' = (Ok tt, w') /\
       (forall s,
          Types.ObjectId_parse s = Some o ->
          exists w2,
            countAppointmentsForToday s w'
            = (Ok {| today_total := 0; today_confirmed := 0 |}, w2))).
Proof.
  split.
  { intros s -> Hbad. unfold removeByProvider, bind, await. cbn [cast_argument].
    now rewrite (ObjectId_invalid_parse _ Hbad). }
  intros o Hcast.
  set (keep := fun a => negb (Types.eqb (provider a) o)).
  exists (with_appointments (filter keep (appointments w)) w).
  assert (Hrun : forall w0, removeByProvider providerId w0 = model_deleteMany keep w0).
  { intros w0. unfold removeByProvider, bind, await. now rewrite Hcast. }
  split; [apply Hrun |]. split; [intros a; apply (kept_appointments provider) |].
  split; [reflexivity |]. split; [reflexivity |]. split.
  - rewrite Hrun. exact (model_deleteMany_twice keep w).
  - intros s Hparse.
    unfold countAppointmentsForToday, bind, await, Date_now, new_ObjectId.
    rewrite Hparse. unfold Promise_all, model_countDocuments, checked_filter, ret.
    cbn [cast_filter server_accepts forallb snd andb fst appointments log_op with_appointments].
    assert (Hzero : forall rest,
              filter (matches (ProviderIs o :: rest)) (filter keep (appointments w)) = []).
    { intros rest. apply filter_none. intros a Ha.
      apply (kept_appointments provider) in Ha as [_ Hother].
      unfold matches. cbn [forallb holds].
      destruct (Types.eqb (provider a) o) eqn:Heq; [| reflexivity].
      apply ObjectId_eqb_eq in Heq. contradiction. }
    eexists. rewrite !Hzero. reflexivity.
Qed.

(** ** AppointmentsService: updating *)

Lemma assertPet_outcome (s : string) (w : World) :
  snd (assertPet s w) = w /\
  (fst (assertPet s w) = Ok tt -> petModel_exists ext s = Ok true).
Proof.
  unfold assertPet, bind, await.
  destruct (petModel_exists ext s) as [[|] | e]; simpl; split; congruence.
Qed.

Lemma assertProvider_outcome (s : string) (w : World) :
  snd (assertProvider s w) = w /\
  (fst (assertProvider s w) = Ok tt -> providerModel_exists ext s = Ok true).
Proof.
  unfold assertProvider, bind, await.
  destruct (providerModel_exists ext s) as [[|] | e]; simpl; split; congruence.
Qed.

(** The payload [update] builds carries what the DTO carries. *)
Lemma build_payload_fields (dto : UpdateAppointmentDto) (p : UpdatePayload) :
  build_payload dto = Ok p ->
  p_dateTime p = option_map (Date_of rt) (u_dateTime dto) /\
  p_duration p = u_duration dto /\ p_reason p = u_reason dto /\
  p_location p = u_location dto /\ p_price p = u_price dto /\
  p_status p = u_status dto /\ p_notes p = u_notes dto /\
  p_email p = u_email dto /\ p_phone p = u_phone dto /\
  match u_pet dto with
  | Some s => exists o, Types.ObjectId_parse s = Some o /\ p_pet p = Some o
  | None => p_pet p = None
  end /\
  match u_provider dto with
  | Some s => exists o, Types.ObjectId_parse s = Some o /\ p_provider p = Some o
  | None => p_provider p = None
  end /\
  match u_service dto with
  | Some serv =>
      if Js.truthy serv
      then exists o, Types.ObjectId_parse (Js.nullish serv "") = Some o /\
                     p_service p = Some (Some o)
      else p_service p = Some None
  | None => p_service p = None
  end.
Proof.
  unfold build_payload, new_ObjectId. intros Hbuild.
  destruct (u_pet dto) as [s1 |].
  - destruct (Types.ObjectId_parse s1) as [o1 |]; [| discriminate].
    destruct (u_provider dto) as [s2 |].
    + destruct (Types.ObjectId_parse s2) as [o2 |]; [| discriminate].
      destruct (u_service dto) as [serv |].
      * destruct (Js.truthy serv).
        -- destruct (Types.ObjectId_parse (Js.nullish serv "")) as [o3 |]; [| discriminate].
           injection Hbuild as <-. cbn. repeat split; eauto.
        -- injection Hbuild as <-. cbn. repeat split; eauto.
      * injection Hbuild as <-. cbn. repeat split; eauto.
    + destruct (u_service dto) as [serv |].
      * destruct (Js.truthy serv).
        -- destruct (Types.ObjectId_parse (Js.nullish serv "")) as [o3 |]; [| discriminate].
           injection Hbuild as <-. cbn. repeat split; eauto.
        -- injection Hbuild as <-. cbn. repeat split; eauto.
      * injection Hbuild as <-. cbn. repeat split; eauto.
  - destruct (u_provider dto) as [s2 |].
    + destruct (Types.ObjectId_parse s2) as [o2 |]; [| discriminate].
      destruct (u_service dto) as [serv |].
      * destruct (Js.truthy serv).
        -- destruct (Types.ObjectId_parse (Js.nullish serv "")) as [o3 |]; [| discriminate].
           injection Hbuild as <-. cbn. repeat split; eauto.
        -- injection Hbuild as <-. cbn. repeat split; eauto.
      * injection Hbuild as <-. cbn. repeat split; eauto.
    + destruct (u_service dto) as [serv |].
      * destruct (Js.truthy serv).
        -- destruct (Types.ObjectId_parse (Js.nullish serv "")) as [o3 |]; [| discriminate].
           injection Hbuild as <-. cbn. repeat split; eauto.
        -- injection Hbuild as <-. cbn. repeat split; eauto.
      * injection Hbuild as <-. cbn. repeat split; eauto.
Qed.

(** The steps of [update] before the write leave the store alone. *)
Lemma update_steps (id : string) (dto : UpdateAppointmentDto) (w : World) :
  (exists e, update id dto w = (Throw e, w)) \/
  exists p o,
    (Js.truthy (u_pet dto) = true ->
     petModel_exists ext (Js.nullish (u_pet dto) "") = Ok true) /\
    (Js.truthy (u_provider dto) = true ->
     providerModel_exists ext (Js.nullish (u_provider dto) "") = Ok true) /\
    build_payload dto = Ok p /\ Types.ObjectId_parse id = Some o /\
    castable p = true /\ validatePayload dir p = true /\
    update id dto w =
      match find (fun a => Types.eqb (_id a) o) (appointments w) with
      | Some a =>
          (Ok (populate_full (apply_payload p (now w) a)),
           with_appointments
             (update_first (fun a => Types.eqb (_id a) o) (apply_payload p (now w))
                (appointments w)) w)
      | None => (Throw (NotFoundException "Consulta não encontrada."), w)
      end.
Proof.
  unfold update, bind.
  assert (Hpet : exists r,
            (if Js.truthy (u_pet dto) then assertPet (Js.nullish (u_pet dto) "") else ret tt) w
            = (r, w) /\
            (r = Ok tt -> Js.truthy (u_pet dto) = true ->
             petModel_exists ext (Js.nullish (u_pet dto) "") = Ok true)).
  { destruct (Js.truthy (u_pet dto)).
    - destruct (assertPet_outcome (Js.nullish (u_pet dto) "") w) as [Hw Hok].
      destruct (assertPet _ w) as [r w1]. cbn [fst snd] in *. subst w1.
      exists r. split; [reflexivity | auto].
    - exists (Ok tt). split; [reflexivity | discriminate]. }
  destruct Hpet as [r1 [-> Hpet]].
  destruct r1 as [[] | e1]; [| left; eauto].
  assert (Hprovider : exists r,
            (if Js.truthy (u_provider dto)
             then assertProvider (Js.nullish (u_provider dto) "") else ret tt) w
            = (r, w) /\
            (r = Ok tt -> Js.truthy (u_provider dto) = true ->
             providerModel_exists ext (Js.nullish (u_provider dto) "") = Ok true)).
  { destruct (Js.truthy (u_provider dto)).
    - destruct (assertProvider_outcome (Js.nullish (u_provider dto) "") w) as [Hw Hok].
      destruct (assertProvider _ w) as [r w1]. cbn [fst snd] in *. subst w1.
      exists r. split; [reflexivity | auto].
    - exists (Ok tt). split; [reflexivity | discriminate]. }
  destruct Hprovider as [r2 [-> Hprovider]].
  destruct r2 as [[] | e2]; [| left; eauto].
  unfold await, new_ObjectId.
  destruct (build_payload dto) as [p | e3]; [| left; eauto].
  destruct (Types.ObjectId_parse id) as [o |]; [| left; eauto].
  unfold model_findOneAndUpdate.
  destruct (castable p) eqn:Hcast; cbn [negb]; [| left; eauto].
  destruct (validatePayload dir p) eqn:Hvalid; cbn [negb]; [| left; eauto].
  right. exists p, o. repeat split; auto.
  now destruct (find _ (appointments w)).
Qed.

(** X17.  When [update] returns, an appointment with that id existed and
    its first occurrence has been rewritten field by field: a field the
    DTO carries takes the DTO's value ([pet], [provider] and [service] as
    ObjectIds, [dateTime] as the date of the text, [service: null] or ['']
    clearing the service), a field the DTO does not carry keeps its value,
    and [_id], [isRated] and [createdAt] are never changed.  The returned
    document is the stored one, populated; every other appointment, the
    rooms and the messages are as before; and a [pet] or [provider] the
    DTO names passed its existence guard. *)
Theorem update_sets_what_is_given
  (id : string) (dto : UpdateAppointmentDto) (w w' : World) (item : FullItem) :
  update id dto w = (Ok item, w') ->
  exists o old,
    Types.ObjectId_parse id = Some o /\
    find (fun a => Types.eqb (_id a) o) (appointments w) = Some old /\
    find (fun a => Types.eqb (_id a) o) (appointments w') = Some (full_doc item) /\
    item = populate_full (full_doc item) /\
    _id (full_doc item) = _id old /\ isRated (full_doc item) = isRated old /\
    createdAt (full_doc item) = createdAt old /\
    match u_pet dto with
    | Some s => Types.ObjectId_parse s = Some (pet (full_doc item)) /\
                (s <> "" -> petModel_exists ext s = Ok true)
    | None => pet (full_doc item) = pet old
    end /\
    match u_provider dto with
    | Some s => Types.ObjectId_parse s = Some (provider (full_doc item)) /\
                (s <> "" -> providerModel_exists ext s = Ok true)
    | None => provider (full_doc item) = provider old
    end /\
    match u_service dto with
    | Some serv =>
        if Js.truthy serv
        then exists so, Types.ObjectId_parse (Js.nullish serv "") = Some so /\
                        service (full_doc item) = Some so
        else service (full_doc item) = None
    | None => service (full_doc item) = service old
    end /\
    match u_dateTime dto with
    | Some s => Date_of rt s = Some (dateTime (full_doc item))
    | None => dateTime (full_doc item) = dateTime old
    end /\
    duration (full_doc item) = Js.nullish (option_map Some (u_duration dto)) (duration old) /\
    reason (full_doc item) = Js.nullish (option_map Some (u_reason dto)) (reason old) /\
    location (full_doc item) = Js.nullish (option_map Some (u_location dto)) (location old) /\
    price (full_doc item) = Js.nullish (option_map Some (u_price dto)) (price old) /\
    status (full_doc item) = Js.nullish (u_status dto) (status old) /\
    notes (full_doc item) = Js.nullish (option_map Some (u_notes dto)) (notes old) /\
    email (full_doc item) = Js.nullish (option_map Some (u_email dto)) (email old) /\
    phone (full_doc item) = Js.nullish (option_map Some (u_phone dto)) (phone old) /\
    Forall2 (fun a b => _id b = _id a /\ (_id a <> o -> b = a))
      (appointments w) (appointments w') /\
    rooms w' = rooms w /\ messages w' = messages w.
Proof.
  intros Hrun.
  destruct (update_steps id dto w) as [[e He] | [p [o [Hg1 [Hg2 [Hp [Ho [Hcast [_ Hstep]]]]]]]]];
    [congruence |].
  rewrite Hstep in Hrun. clear Hstep.
  destruct (find (fun a => Types.eqb (_id a) o) (appointments w)) as [old |] eqn:Hfind;
    [| discriminate].
  injection Hrun as <- <-. exists o, old.
  destruct (@build_payload_fields dto p Hp)
    as [Hdate [Hdur [Hreason [Hloc [Hprice [Hstatus [Hnotes [Hemail [Hphone
        [Hpet [Hprovider Hservice]]]]]]]]]]].
  cbn [full_doc populate_full appointments rooms messages with_appointments].
  split; [exact Ho |]. split; [exact Hfind |]. split.
  { rewrite find_update_first by (intros x Hx; exact Hx). now rewrite Hfind. }
  split; [reflexivity |].
  cbn [apply_payload _id isRated createdAt pet provider service dateTime duration reason
       location price status notes email phone].
  rewrite Hdur, Hreason, Hloc, Hprice, Hstatus, Hnotes, Hemail, Hphone.
  repeat split.
  - destruct (u_pet dto) as [s |] eqn:Hs.
    + destruct Hpet as [po [Hparse ->]]. split; [exact Hparse |].
      intros Hne. apply Hg1. cbn. now destruct (String.eqb_spec s "").
    + now rewrite Hpet.
  - destruct (u_provider dto) as [s |] eqn:Hs.
    + destruct Hprovider as [po [Hparse ->]]. split; [exact Hparse |].
      intros Hne. apply Hg2. cbn. now destruct (String.eqb_spec s "").
    + now rewrite Hprovider.
  - destruct (u_service dto) as [serv |].
    + destruct (Js.truthy serv).
      * destruct Hservice as [so [Hparse ->]]. now exists so.
      * now rewrite Hservice.
    + now rewrite Hservice.
  - rewrite Hdate. unfold castable in Hcast. rewrite Hdate in Hcast.
    destruct (u_dateTime dto) as [s |]; [| reflexivity].
    cbn in *. destruct (Date_of rt s); [reflexivity | discriminate].
  - now destruct (u_duration dto).
  - now destruct (u_reason dto).
  - now destruct (u_location dto).
  - now destruct (u_price dto).
  - now destruct (u_notes dto).
  - now destruct (u_email dto).
  - now destruct (u_phone dto).
  - apply update_first_Forall2.
    + intros x. split; [reflexivity | auto].
    + intros x Hx. apply ObjectId_eqb_eq in Hx. split; [reflexivity | contradiction].
Qed.

(** X18.  [update] writes nothing unless it returns: whenever it throws,
    the store is exactly as it was.  A [pet] the DTO names that does not
    exist is NotFound; an empty-string [pet] is not guarded (it is falsy)
    and then makes the ObjectId constructor throw; and an id nobody has is
    NotFound once the guards, the payload and the validators have
    passed. *)
Theorem update_failures (id : string) (dto : UpdateAppointmentDto) (w : World) :
  (forall e w', update id dto w = (Throw e, w') -> w' = w) /\
  (forall s, u_pet dto = Some s -> s <> "" -> petModel_exists ext s = Ok false ->
     update id dto w = (Throw (NotFoundException "Pet não encontrado."), w)) /\
  (u_pet dto = Some "" ->
     (Js.truthy (u_provider dto) = true ->
      providerModel_exists ext (Js.nullish (u_provider dto) "") = Ok true) ->
     update id dto w = (Throw BSONError, w)) /\
  (forall p o,
     (Js.truthy (u_pet dto) = true ->
      petModel_exists ext (Js.nullish (u_pet dto) "") = Ok true) ->
     (Js.truthy (u_provider dto) = true ->
      providerModel_exists ext (Js.nullish (u_provider dto) "") = Ok true) ->
     build_payload dto = Ok p -> castable p = true -> validatePayload dir p = true ->
     Types.ObjectId_parse id = Some o ->
     find (fun a => Types.eqb (_id a) o) (appointments w) = None ->
     update id dto w = (Throw (NotFoundException "Consulta não encontrada."), w)).
Proof.
  split; [| split; [| split]].
  - intros e w' Hrun.
    destruct (update_steps id dto w) as [[e' He] | [p [o [_ [_ [_ [_ [_ [_ Hstep]]]]]]]]];
      [congruence |].
    rewrite Hstep in Hrun.
    destruct (find _ (appointments w)); [discriminate | congruence].
  - intros s Hs Hne Hmissing. unfold update, bind. rewrite Hs. cbn [Js.truthy Js.nullish].
    destruct (String.eqb_spec s ""); [contradiction |]. cbn [negb].
    unfold assertPet, bind, await. now rewrite Hmissing.
  - intros Hs Hguard. unfold update, bind. rewrite Hs. cbn [Js.truthy String.eqb negb].
    unfold ret at 1.
    destruct (Js.truthy (u_provider dto)) eqn:Htruthy.
    + unfold assertProvider, bind, await. rewrite (Hguard eq_refl). unfold ret at 1.
      unfold build_payload. now rewrite Hs.
    + unfold ret at 1. unfold await, build_payload. now rewrite Hs.
  - intros p o Hg1 Hg2 Hp Hcast Hvalid Ho Hnone. unfold update, bind.
    destruct (Js.truthy (u_pet dto)) eqn:Ht1.
    + unfold assertPet, bind, await. rewrite (Hg1 eq_refl). unfold ret at 1.
      destruct (Js.truthy (u_provider dto)) eqn:Ht2.
      * unfold assertProvider, bind, await. rewrite (Hg2 eq_refl). unfold ret at 1.
        rewrite Hp. unfold new_ObjectId. rewrite Ho. unfold model_findOneAndUpdate.
        now rewrite Hcast, Hvalid, Hnone.
      * unfold ret at 1. unfold await. rewrite Hp. unfold new_ObjectId. rewrite Ho.
        unfold model_findOneAndUpdate. now rewrite Hcast, Hvalid, Hnone.
    + unfold ret at 1.
      destruct (Js.truthy (u_provider dto)) eqn:Ht2.
      * unfold assertProvider, bind, await. rewrite (Hg2 eq_refl). unfold ret at 1.
        rewrite Hp. unfold new_ObjectId. rewrite Ho. unfold model_findOneAndUpdate.
        now rewrite Hcast, Hvalid, Hnone.
      * unfold ret at 1. unfold await. rewrite Hp. unfold new_ObjectId. rewrite Ho.
        unfold model_findOneAndUpdate. now rewrite Hcast, Hvalid, Hnone.
Qed.

(** ** AppointmentsService: pages and their order *)


Lemma StronglySorted_app_inv {A} (R : A -> A -> Prop) (l1 l2 : list A) :
  StronglySorted R (l1 ++ l2) -> StronglySorted R l1 /\ StronglySorted R l2.
Proof.
  induction l1 as [| x r IH]; simpl; intros Hs.
  - split; [constructor | exact Hs].
  - inversion Hs as [| ? ? Hrest Hall]; subst. destruct (IH Hrest) as [H1 H2].
    split; [| exact H2]. constructor; [exact H1 |].
    apply Forall_app in Hall. tauto.
Qed.

Lemma StronglySorted_window {A} (R : A -> A -> Prop) (n m : nat) (l : list A) :
  StronglySorted R l -> StronglySorted R (firstn n (skipn m l)).
Proof.
  intros Hs. rewrite <- (firstn_skipn m l) in Hs.
  apply StronglySorted_app_inv in Hs as [_ Hs].
  rewrite <- (firstn_skipn n (skipn m l)) in Hs.
  now apply StronglySorted_app_inv in Hs as [Hs _].
Qed.

Lemma sorted_window (leb : Appointment -> Appointment -> bool)
  (R : Appointment -> Appointment -> Prop) (n m : nat) (l : list Appointment) :
  (forall a b, leb a b = false -> leb b a = true) ->
  (forall a b, leb a b = true -> R a b) ->
  (forall a b c, R a b -> R b c -> R a c) ->
  StronglySorted (fun x y => R (doc x) (doc y))
    (map populate (firstn n (skipn m (sort_by leb l)))).
Proof.
  intros Htotal Hsound Htrans.
  apply StronglySorted_map with (f := populate) (R := fun x y => R (doc x) (doc y)).
  cbn [doc populate]. apply StronglySorted_window.
  apply Sorted_StronglySorted; [exact Htrans |].
  pose proof (sort_by_sorted leb Htotal l) as Hs.
  induction Hs as [| x r Hr IH Hhd]; constructor; [exact IH |].
  destruct Hhd; constructor. now apply Hsound.
Qed.

Lemma dateTime_descending (a b : Appointment) :
  sort_leb [("dateTime", Descending); ("createdAt", Descending)] a b = true <->
  dateTime b < dateTime a \/ (dateTime b = dateTime a /\ createdAt b <= createdAt a).
Proof.
  unfold sort_leb. cbn [sort_compare]. change (key_at "dateTime" a) with (KDate (dateTime a)).
  change (key_at "dateTime" b) with (KDate (dateTime b)).
  change (key_at "createdAt" a) with (KDate (createdAt a)).
  change (key_at "createdAt" b) with (KDate (createdAt b)).
  cbn [key_compare].
  destruct (Z.compare_spec (dateTime a) (dateTime b));
    destruct (Z.compare_spec (createdAt a) (createdAt b)); cbn [CompOpp];
    split; intros Hx; try reflexivity; try discriminate; lia.
Qed.

Lemma dateTime_ascending (a b : Appointment) :
  sort_leb [("dateTime", Ascending)] a b = true <-> dateTime a <= dateTime b.
Proof.
  unfold sort_leb. cbn [sort_compare]. change (key_at "dateTime" a) with (KDate (dateTime a)).
  change (key_at "dateTime" b) with (KDate (dateTime b)).
  cbn [key_compare].
  destruct (Z.compare_spec (dateTime a) (dateTime b));
    split; intros Hx; try reflexivity; try discriminate; lia.
Qed.


(** X20.  Without a [sort] field the items of a page come most recent
    first: by [dateTime] descending and, for equal dates, [createdAt]
    descending; with [asc] equal to ['true'] they come by [dateTime]
    ascending. *)
Theorem findAll_default_order
  (q : QueryAppointmentDto) (w w' : World) (env : Envelope Item) :
  Js.truthy (q_sort q) = false ->
  findAll q w = (Ok env, w') ->
  (q_asc q = Some "true" ->
   StronglySorted (fun x y => dateTime (doc x) <= dateTime (doc y)) (items env)) /\
  (q_asc q <> Some "true" ->
   StronglySorted
     (fun x y =>
        dateTime (doc y) < dateTime (doc x) \/
        (dateTime (doc y) = dateTime (doc x) /\ createdAt (doc y) <= createdAt (doc x)))
     (items env)).
Proof.
  intros Hsort Hrun.
  destruct (findAll_inversion _ _ Hrun) as [f [pg [lim [skip [_ [_ [Hitems _]]]]]]].
  rewrite Hitems. unfold build_sort. rewrite Hsort. split.
  - intros ->. cbn [String.eqb Ascii.eqb Bool.eqb].
    apply sorted_window with (R := fun a b => dateTime a <= dateTime b).
    + intros a b Hab. apply dateTime_ascending.
      destruct (sort_leb [("dateTime", Ascending)] a b) eqn:Hle; [discriminate |].
      assert (Hnot : ~ dateTime a <= dateTime b)
        by (intros Hc; apply dateTime_ascending in Hc; congruence).
      lia.
    + intros a b. apply dateTime_ascending.
    + intros a b c. lia.
  - intros Hasc.
    assert (Hspec :
      match q_asc q with
      | Some flag =>
          if String.eqb flag "true" then [("dateTime", Ascending)]
          else [("dateTime", Descending); ("createdAt", Descending)]
      | None => [("dateTime", Descending); ("createdAt", Descending)]
      end = [("dateTime", Descending); ("createdAt", Descending)]).
    { destruct (q_asc q) as [flag |]; [| reflexivity].
      destruct (String.eqb_spec flag "true"); [congruence | reflexivity]. }
    rewrite Hspec.
    apply sorted_window
      with (R := fun a b => dateTime b < dateTime a \/
                            (dateTime b = dateTime a /\ createdAt b <= createdAt a)).
    + intros a b Hab. apply dateTime_descending.
      assert (Hnot : ~ (dateTime b < dateTime a \/
                        (dateTime b = dateTime a /\ createdAt b <= createdAt a)))
        by (intros Hc; apply dateTime_descending in Hc; congruence).
      lia.
    + intros a b. apply dateTime_descending.
    + intros a b c. lia.
Qed.

(** ** AppointmentsService: the listings of a provider and of a tutor *)

(** X21.  [findAllByProviderUser] lists only the provider's own
    appointments: when the user has a provider profile, every item is a
    stored appointment of that provider, whatever [provider] the query
    itself asks for. *)
Theorem findAllByProviderUser_own_appointments
  (user : string) (q : QueryAppointmentDto) (w w' : World) (env : Envelope Item)
  (p : Provider) :
  providersService_findOneByUserId ext user = Ok (Some p) ->
  Types.ObjectId_parse (Types.toString (provider_id p)) = Some (provider_id p) ->
  findAllByProviderUser user q w = (Ok env, w') ->
  Forall (fun it => In (doc it) (appointments w) /\ provider (doc it) = provider_id p)
    (items env) /\
  appointments w' = appointments w /\ rooms w' = rooms w /\ messages w' = messages w.
Proof.
  intros Hprofile Hcanonical Hrun.
  unfold findAllByProviderUser, bind, await in Hrun. rewrite Hprofile in Hrun.
  destruct (findAll_items_source _ _ Hrun) as [f [Hf Hitems]].
  destruct (findAll_inversion _ _ Hrun) as [_ [_ [_ [_ [_ [_ [_ [_ [_ [_ [_ Hstore]]]]]]]]]]].
  split; [| exact Hstore].
  destruct (@build_filter_conditions _ f Hf) as [Hprovider _].
  destruct (Hprovider (Types.toString (provider_id p)) eq_refl
              (valid_not_empty Hcanonical)) as [o [Hparse Hc]].
  eapply Forall_impl; [| exact Hitems].
  intros it [Hin [Hmatch _]]. split; [exact Hin |].
  pose proof (@matches_holds _ _ _ Hmatch Hc) as Hholds. cbn [holds] in Hholds.
  apply ObjectId_eqb_eq in Hholds. congruence.
Qed.

(** X22.  [findAllByTutorId] lists only appointments of the tutor's pets:
    every item is a stored appointment whose pet is one of the pets the
    pets service returned for the tutor, whatever [pet] the query itself
    asks for. *)
Theorem findAllByTutorId_own_pets
  (tutor : string) (q : QueryAppointmentDto) (w w' : World) (env : Envelope ReviewedItem)
  (pets : list Pet) :
  petsService_findAllByTutor ext tutor = Ok pets ->
  findAllByTutorId tutor q w = (Ok env, w') ->
  Forall
    (fun ri =>
       In (doc (appointment ri)) (appointments w) /\
       exists p, In p pets /\
                 Types.ObjectId_parse (Types.toString (pet_id p))
                 = Some (pet (doc (appointment ri))))
    (items env).
Proof.
  intros Hpets Hrun.
  unfold findAllByTutorId, bind in Hrun. unfold await at 1 in Hrun. rewrite Hpets in Hrun.
  destruct pets as [| p0 rest].
  { unfold console_log, ret in Hrun. injection Hrun as <- _. constructor. }
  set (mine := p0 :: rest) in *.
  destruct (findAll (with_pet q (Many (map (fun p => Types.toString (pet_id p)) mine))) w)
    as [[result | e] w1] eqn:Hbase; [| discriminate].
  unfold await in Hrun.
  destruct (reviewsService_findReviewedAppointments ext tutor _) as [reviewed | e];
    [| discriminate].
  unfold ret in Hrun. injection Hrun as <- _. cbn [items].
  destruct (findAll_items_source _ _ Hbase) as [f [Hf Hitems]].
  destruct (@build_filter_conditions _ f Hf) as [_ [Hpet _]].
  destruct (Hpet _ eq_refl eq_refl) as [os [Hmap Hc]]. cbn [as_array] in Hmap.
  apply Forall_map. eapply Forall_impl; [| exact Hitems].
  intros it [Hin [Hmatch _]]. cbn [appointment with_review_status]. split; [exact Hin |].
  pose proof (@matches_holds _ _ _ Hmatch Hc) as Hholds. cbn [holds] in Hholds.
  apply existsb_exists in Hholds as [o [Ho Heq]]. apply ObjectId_eqb_eq in Heq.
  destruct (@map_new_ObjectId_In _ _ _ Hmap Ho) as [s [Hs Hparse]].
  apply in_map_iff in Hs as [p [<- Hp]]. exists p. split; [exact Hp | congruence].
Qed.

(** ** ChatController *)

(** What a call of [sendMessage] that returns has done. *)
Lemma sendMessage_inversion (sender : string) (dto : SendMessageDto) (w w' : World)
  (m : Message) :
  sendMessage sender dto w = (Ok m, w') ->
  exists r,
    In r (rooms w) /\ Types.ObjectId_parse (dto_roomId dto) = Some (room_id r) /\
    roomId m = room_id r /\ Types.ObjectId_parse sender = Some (senderId m) /\
    content m = dto_content dto /\ message_createdAt m = now w /\
    messages w' = messages w ++ [m].
Proof.
  unfold sendMessage. intros Hrun.
  destruct (Types.ObjectId_isValid (dto_roomId dto)) eqn:Hvalid; [| discriminate].
  cbn [negb] in Hrun. unfold bind, chatRoomModel_findById in Hrun.
  rewrite (ObjectId_valid_parse _ Hvalid) in Hrun.
  destruct (find _ (rooms w)) as [r |] eqn:Hfind; [| discriminate].
  unfold await, new_ObjectId in Hrun.
  destruct (Types.ObjectId_parse sender) as [s |] eqn:Hsender; [| discriminate].
  unfold messageModel_create, Date_now, room_save_updatedAt, ret in Hrun.
  injection Hrun as <- <-. exists r.
  apply find_some in Hfind as [Hin Heq]. apply ObjectId_eqb_eq in Heq.
  cbn. rewrite Heq, (ObjectId_valid_parse _ Hvalid). now repeat split.
Qed.

(** X23.  A message posted to [rooms/:id/messages] goes to the room of the
    path: when the handler returns, the room of the stored message is the
    existing room the path names, whatever [roomId] the body carries; the
    sender is the authenticated user and the content is the body's. *)
Theorem ChatController_sendMessage_path_room
  (id : string) (dto : SendMessageDto) (userId : string) (w w' : World) (m : Message) :
  ChatController_sendMessage id dto userId w = (Ok m, w') ->
  exists r,
    In r (rooms w) /\ Types.ObjectId_parse id = Some (room_id r) /\ roomId m = room_id r /\
    Types.ObjectId_parse userId = Some (senderId m) /\ content m = dto_content dto /\
    messages w' = messages w ++ [m].
Proof.
  unfold ChatController_sendMessage. intros Hrun.
  destruct (sendMessage_inversion _ _ _ Hrun) as [r [Hin [Hid [Hroom [Hs [Hc [_ Hm]]]]]]].
  exists r. now repeat split.
Qed.

End Services.

(* ================================================================= *)
(** * The services on the sample data *)

(** The local day of the examples: 2 November 2025, three hours behind UTC;
    the day after the last day of a month is the first of the next. *)
Example local_day_examples :
  startOfToday Sample.runtime Sample.noon = Sample.day_start /\
  endOfToday Sample.runtime Sample.noon = Sample.day_end /\
  Date.civil (Date.Day (Sample.noon - 10800000)) = (2025, 10, 2) /\
  Date.MakeDay 2025 11 32 = Date.MakeDay 2026 0 1 /\
  Date.MakeDay 2024 1 30 = Date.MakeDay 2024 2 1.
Proof. repeat split. Qed.

(** The dates of the examples: noon of the sample day, local time, is
    15:00 UTC; a string of digits is no date; 30 February carries over to
    2 March. *)
Example iso_date_examples :
  Sample.iso_date "2025-11-02T15:00:00.000Z" = Some Sample.noon /\
  Sample.iso_date "2025-11-02T03:00:00.000Z" = Some Sample.day_start /\
  Sample.iso_date "1970-01-01T00:00:00.000Z" = Some 0 /\
  Sample.iso_date "1762095600000" = None /\
  Sample.iso_date "2025-11-02 15:00" = None /\
  Sample.iso_date "2025-13-02T15:00:00.000Z" = None /\
  Sample.iso_date "2025-02-30T00:00:00.000Z" = Sample.iso_date "2025-03-02T00:00:00.000Z" /\
  Sample.iso_date "2025-11-02T24:00:00.000Z" = Sample.iso_date "2025-11-03T00:00:00.000Z".
Proof. repeat split. Qed.

Example word_pattern_examples :
  match Sample.word_pattern "VAC" with
  | Some test => (test "Rabies vaccine", test "check-up")
  | None => (false, false)
  end = (true, false) /\
  Sample.word_pattern "(" = None /\
  Sample.whole_number "250" = Some (inject_Z 250) /\ Sample.whole_number "25px" = None.
Proof. repeat split. Qed.


(** Booking for Mia: the tutors service rejects, the appointment is
    stored and returned, the failure is logged and no room is created. *)
Lemma create_survives_room_provisioning_witness :
  exists created w',
    create Sample.runtime Sample.appointment_schema Sample.collaborators
      (Sample.booking Sample.pet_mia Sample.provider_vet) Sample.empty_world
      = (Ok created, w') /\
    appointments w' = appointments Sample.empty_world ++ [created] /\
    (~ linked_users Sample.collaborators (Sample.booking Sample.pet_mia Sample.provider_vet) ->
     rooms w' = rooms Sample.empty_world).
Proof.
  pose proof (@create_survives_room_provisioning Sample.runtime Sample.appointment_schema
                Sample.collaborators (Sample.booking Sample.pet_mia Sample.provider_vet)
                (OID Sample.pet_mia) (OID Sample.provider_vet) Sample.empty_world
                eq_refl eq_refl eq_refl eq_refl) as Hcreate.
  vm_compute new_document in Hcreate. cbv beta iota in Hcreate.
  eexists. exact Hcreate.
Defined.

Example create_when_tutor_lookup_rejects :
  let '(r, w') :=
    create Sample.runtime Sample.appointment_schema Sample.collaborators
      (Sample.booking Sample.pet_mia Sample.provider_vet) Sample.empty_world in
  (exists a, r = Ok a /\ appointments w' = [a]) /\ rooms w' = [] /\
  console w' = ["Erro ao criar/associar sala de chat para o agendamento:"].
Proof. vm_compute. repeat split. eexists. split; reflexivity. Qed.

Example create_when_provider_has_no_user :
  let '(r, w') :=
    create Sample.runtime Sample.appointment_schema Sample.collaborators
      (Sample.booking Sample.pet_rex Sample.provider_spa) Sample.empty_world in
  (exists a, r = Ok a /\ appointments w' = [a]) /\ rooms w' = [] /\ console w' = [].
Proof. vm_compute. repeat split. eexists. split; reflexivity. Qed.

Example create_provisions_a_room :
  let '(r, w') :=
    create Sample.runtime Sample.appointment_schema Sample.collaborators
      (Sample.booking Sample.pet_rex Sample.provider_vet) Sample.empty_world in
  (exists a, r = Ok a /\ appointments w' = [a]) /\
  map name (rooms w') = ["Atendimento - Rex"] /\
  map participants (rooms w') = [[OID Sample.user_vet; OID Sample.user_ana]].
Proof. vm_compute. repeat split. eexists. split; reflexivity. Qed.

(** C2, as stated, fails: with the provider id "xyz" [findAll] throws
    instead of returning an envelope. *)
Lemma findAll_rejects_malformed_provider_id :
  findAll Sample.runtime Sample.collaborators
    (with_provider Sample.any_query "xyz") Sample.world
    = (Throw BSONError, Sample.world) /\
  ~ (exists env w',
       findAll Sample.runtime Sample.collaborators
         (with_provider Sample.any_query "xyz") Sample.world = (Ok env, w')).
Proof.
  assert (H : findAll Sample.runtime Sample.collaborators
                (with_provider Sample.any_query "xyz") Sample.world
              = (Throw BSONError, Sample.world)) by reflexivity.
  split; [exact H |]. intros [env [w' Hok]]. rewrite H in Hok. discriminate.
Qed.

Example findAll_rejects_malformed_pet_id :
  fst (findAll Sample.runtime Sample.collaborators
         (with_pet Sample.any_query (Many [Sample.pet_rex; "not-an-id"])) Sample.world)
    = Throw BSONError.
Proof. reflexivity. Qed.

Lemma findAll_answers_well_formed_witness :
  (exists env w',
     findAll Sample.runtime Sample.collaborators
       (with_provider (Sample.paged (Some "2") (Some "2")) Sample.provider_vet) Sample.world
       = (Ok env, w') /\
     appointments w' = appointments Sample.world /\
     exists pg lim,
       page env = Number (Js.Num pg) /\ limit env = Number (Js.Num lim) /\
       1 <= pg /\ 1 <= lim <= 100 /\
       pages env = Js.Num (- (- total env / lim)) /\
       Z.of_nat (List.length (items env)) <= lim) /\
  findAll Sample.runtime Sample.collaborators
    (with_provider Sample.any_query "vet-01") Sample.world
    = (Throw BSONError, Sample.world) /\
  findAll Sample.runtime Sample.collaborators
    (with_pet Sample.any_query (One "rex")) Sample.world
    = (Throw BSONError, Sample.world).
Proof.
  split; [| split].
  - apply (proj1 (@findAll_answers_well_formed Sample.runtime Sample.collaborators
                    (with_provider (Sample.paged (Some "2") (Some "2")) Sample.provider_vet)
                    Sample.world)).
    reflexivity.
  - apply (proj1 (proj2 (@findAll_answers_well_formed Sample.runtime Sample.collaborators
                           (with_provider Sample.any_query "vet-01") Sample.world))
             "vet-01" eq_refl).
    + discriminate.
    + reflexivity.
  - exact (proj2 (proj2 (@findAll_answers_well_formed Sample.runtime Sample.collaborators
                           (with_pet Sample.any_query (One "rex")) Sample.world))
             (One "rex") eq_refl eq_refl eq_refl eq_refl).
Defined.

(** A page that is not a number makes the plan [NaN]: [Math.max] does not
    replace it by 1. *)
Example pagination_of_non_numeric_page :
  pagination (Sample.paged (Some "abc") None) = (Js.NaN, Js.Num 20, Js.NaN) /\
  pagination (Sample.paged None (Some "many")) = (Js.Num 1, Js.NaN, Js.NaN).
Proof. split; reflexivity. Qed.

Example findAll_second_page :
  match fst (findAll Sample.runtime Sample.collaborators
               (with_provider (Sample.paged (Some "2") (Some "2")) Sample.provider_vet)
               Sample.world) with
  | Ok env =>
      map (fun it => Types.toString (_id (doc it))) (items env)
        = ["0000000000000000000000a3"; "0000000000000000000000a4"] /\
      total env = 6 /\ page env = Number (Js.Num 2) /\ limit env = Number (Js.Num 2) /\
      pages env = Js.Num 3
  | Throw _ => False
  end.
Proof. vm_compute. repeat split. Qed.

Lemma pagination_plan_witness :
  pagination (Sample.paged (Some "0") (Some "250"))
    = (Js.Num 1, Js.Num 100, Js.Num 0) /\
  pagination (Sample.paged (Some "3") None) = (Js.Num 3, Js.Num 20, Js.Num 40) /\
  pagination (Sample.paged (Some "") (Some " 7 per page"))
    = (Js.Num 1, Js.Num 7, Js.Num 0) /\
  pagination (Sample.paged (Some "9007199254740991") (Some "1"))
    = (Js.Num 9007199254740991, Js.Num 1, Js.Num 9007199254740990).
Proof.
  split; [| split; [| split]].
  - exact (proj1 (@pagination_plan (Sample.paged (Some "0") (Some "250")) 0 250
                    (or_intror eq_refl) (or_intror eq_refl) eq_refl eq_refl eq_refl)).
  - exact (proj1 (@pagination_plan (Sample.paged (Some "3") None) 3 20
                    (or_intror eq_refl) eq_refl eq_refl eq_refl eq_refl)).
  - exact (proj1 (@pagination_plan (Sample.paged (Some "") (Some " 7 per page")) 1 7
                    (or_introl (conj eq_refl eq_refl)) (or_intror eq_refl)
                    eq_refl eq_refl eq_refl)).
  - exact (proj1 (@pagination_plan (Sample.paged (Some "9007199254740991") (Some "1"))
                    9007199254740991 1
                    (or_intror eq_refl) (or_intror eq_refl) eq_refl eq_refl eq_refl)).
Defined.

(** Ana's appointments: the review lookup names the first appointment, and
    only that item is marked. *)
Lemma findAllByTutorId_review_join_witness :
  exists result w1 reviewedIds env,
    findAll Sample.runtime Sample.collaborators
      (with_pet Sample.any_query (Many [Sample.pet_rex])) Sample.world = (Ok result, w1) /\
    reviewsService_findReviewedAppointments Sample.collaborators Sample.tutor_ana
      (map (fun it => Types.toString (_id (doc it))) (items result)) = Ok reviewedIds /\
    findAllByTutorId Sample.runtime Sample.collaborators Sample.tutor_ana
      Sample.any_query Sample.world = (Ok env, w1) /\
    map appointment (items env) = items result /\
    (forall r, In r (items env) ->
       (isReviewed r = true <-> In (Types.toString (_id (doc (appointment r)))) reviewedIds)) /\
    total env = total result /\ pages env = pages result /\
    page env = page result /\ limit env = limit result.
Proof.
  pose proof (@findAllByTutorId_review_join Sample.runtime Sample.collaborators
                Sample.tutor_ana Sample.any_query Sample.world) as Hjoin.
  specialize (Hjoin _ _ _ _ eq_refl ltac:(discriminate) eq_refl eq_refl).
  destruct Hjoin as [env Henv].
  do 3 eexists. exists env.
  split; [vm_compute; reflexivity |]. split; [vm_compute; reflexivity |]. exact Henv.
Defined.

Example findAllByTutorId_marks_reviewed :
  match fst (findAllByTutorId Sample.runtime Sample.collaborators Sample.tutor_ana
               Sample.any_query Sample.world) with
  | Ok env =>
      map (fun r => (Types.toString (_id (doc (appointment r))), isReviewed r)) (items env)
        = [("0000000000000000000000a6", false); ("0000000000000000000000a5", false);
           ("0000000000000000000000a3", false); ("0000000000000000000000a7", false);
           ("0000000000000000000000a2", false); ("0000000000000000000000a1", true)] /\
      total env = 6 /\ pages env = Js.Num 1
  | Throw _ => False
  end.
Proof. vm_compute. repeat split. Qed.

(** Bob owns no pet. *)
Lemma findAllByTutorId_no_pets_witness :
  exists w',
    findAllByTutorId Sample.runtime Sample.collaborators Sample.tutor_bob
      (Sample.paged (Some "3") None) Sample.world =
      (Ok {| items := []; total := 0; page := Str "3"; limit := Number (Js.Num 20);
             pages := Js.Num 0 |}, w') /\
    issued w' = issued Sample.world /\
    appointments w' = appointments Sample.world /\ rooms w' = rooms Sample.world /\
    messages w' = messages Sample.world.
Proof.
  exact (@findAllByTutorId_no_pets Sample.runtime Sample.collaborators Sample.tutor_bob
           (Sample.paged (Some "3") None) Sample.world eq_refl).
Defined.

(** Ana and the vet: the first call creates the room, the second finds it. *)
Lemma getOrCreateRoomForParticipants_twice_witness :
  exists room w1,
    getOrCreateRoomForParticipants [Sample.user_ana; Sample.user_vet] None Sample.empty_world
      = (Ok room, w1) /\
    getOrCreateRoomForParticipants [Sample.user_ana; Sample.user_vet] (Some "Outra sala") w1
      = (Ok room, w1) /\
    find (fun r => Types.eqb (room_id r) (room_id room)) (rooms w1) <> None.
Proof.
  exact (@getOrCreateRoomForParticipants_twice Sample.user_ana Sample.user_vet None
           (Some "Outra sala") Sample.empty_world eq_refl eq_refl).
Defined.

Example getOrCreateRoomForParticipants_creates_once :
  let '(r1, w1) :=
    getOrCreateRoomForParticipants [Sample.user_ana; Sample.user_vet] None Sample.empty_world in
  let '(r2, w2) :=
    getOrCreateRoomForParticipants [Sample.user_vet; Sample.user_ana] None w1 in
  r1 = r2 /\ List.length (rooms w1) = 1%nat /\ w2 = w1 /\
  exists room, r1 = Ok room /\ room_id room = OID "000000000000000000000001".
Proof. vm_compute. repeat split. eexists. split; reflexivity. Qed.

(** A malformed room id, an id no room has, and the room of Ana and the
    vet. *)
Lemma sendMessage_getMessages_room_id_witness :
  sendMessage Sample.user_ana {| dto_roomId := "room-1"; dto_content := "oi" |} Sample.world
    = (Throw (NotFoundException "Sala não encontrada"), Sample.world) /\
  sendMessage Sample.user_ana
    {| dto_roomId := "0000000000000000000000b9"; dto_content := "oi" |} Sample.world
    = (Throw (NotFoundException "Sala não encontrada"), Sample.world) /\
  getMessages "room-1" Sample.world = (Ok [], Sample.world) /\
  exists found,
    getMessages "0000000000000000000000b1" Sample.world = (Ok found, Sample.world) /\
    StronglySorted (fun a b => message_createdAt a <= message_createdAt b) found /\
    Permutation
      (filter (fun m => Types.eqb (roomId m) (room_id Sample.room_ana_vet))
         (messages Sample.world)) found.
Proof.
  split; [| split; [| split]].
  - exact (proj1 (@sendMessage_getMessages_room_id Sample.user_ana
                    {| dto_roomId := "room-1"; dto_content := "oi" |} Sample.world) eq_refl).
  - exact (proj1 (proj2 (@sendMessage_getMessages_room_id Sample.user_ana
                    {| dto_roomId := "0000000000000000000000b9"; dto_content := "oi" |}
                    Sample.world)) _ eq_refl eq_refl).
  - exact (proj1 (proj2 (proj2 (@sendMessage_getMessages_room_id Sample.user_ana
                    {| dto_roomId := "room-1"; dto_content := "oi" |} Sample.world)))
             eq_refl).
  - exact (proj2 (proj2 (proj2 (@sendMessage_getMessages_room_id Sample.user_ana
                    {| dto_roomId := "0000000000000000000000b1"; dto_content := "oi" |}
                    Sample.world))) _ Sample.room_ana_vet eq_refl eq_refl).
Defined.

Example getMessages_in_creation_order :
  fst (getMessages "0000000000000000000000b1" Sample.world)
    = Ok [ Sample.message_at "0000000000000000000000c3" "0000000000000000000000b1" 100 "first";
           Sample.message_at "0000000000000000000000c4" "0000000000000000000000b1" 200 "second";
           Sample.message_at "0000000000000000000000c1" "0000000000000000000000b1" 300 "third" ].
Proof. reflexivity. Qed.

Example sendMessage_stores_and_touches_room :
  let '(r, w') :=
    sendMessage Sample.user_ana
      {| dto_roomId := "0000000000000000000000b1"; dto_content := "oi" |} Sample.world in
  (exists m, r = Ok m /\ messages w' = messages Sample.world ++ [m] /\ content m = "oi") /\
  map updatedAt (rooms w') = [Sample.noon].
Proof. vm_compute. split; [eexists; repeat split | reflexivity]. Qed.

(** The vet's day: of the six appointments of the vet, those one second
    before the local midnight and at the next local midnight are outside
    the window; of the four inside, two are cancelled or completed. *)
Lemma countAppointmentsForToday_window_witness :
  exists w',
    countAppointmentsForToday Sample.runtime Sample.provider_vet Sample.world
      = (Ok {| today_total := 2; today_confirmed := 1 |}, w') /\
    appointments w' = appointments Sample.world /\
    (Sample.day_start + -10800000) mod Date.msPerDay = 0 /\
    Sample.day_start <= Sample.noon < Sample.day_end /\
    Sample.day_end = Sample.day_start + Date.msPerDay /\
    (forall t,
       (Sample.day_start <=? t) && (t <? Sample.day_end)
       = (Date.Day (t + -10800000) =? Date.Day (Sample.noon + -10800000))) /\
    Date.Day (Sample.day_start - 1000 + -10800000) = Date.Day (Sample.noon + -10800000) - 1 /\
    Date.Day (Sample.day_end + -10800000) = Date.Day (Sample.noon + -10800000) + 1.
Proof.
  destruct (@countAppointmentsForToday_window Sample.runtime Sample.provider_vet
              (OID Sample.provider_vet) Sample.world eq_refl) as [w' [Hrun [Hsame Hday]]].
  exists w'. split; [exact Hrun |]. split; [exact Hsame |].
  exact (Hday (-10800000) (fun _ _ => eq_refl) eq_refl).
Defined.

Example countAppointmentsForToday_boundaries :
  startOfToday Sample.runtime (now Sample.world) = Sample.day_start /\
  endOfToday Sample.runtime (now Sample.world) = Sample.day_end /\
  map (fun a => (dateTime a - Sample.day_start, status a))
    (filter (fun a => Types.eqb (provider a) (OID Sample.provider_vet)) (appointments Sample.world))
    = [(-1000, "confirmed"); (0, "confirmed"); (43200000, "scheduled");
       (43200000, "cancelled"); (86399000, "completed"); (86400000, "confirmed")] /\
  fst (countAppointmentsForToday Sample.runtime Sample.provider_vet Sample.world)
    = Ok {| today_total := 2; today_confirmed := 1 |}.
Proof. vm_compute. repeat split. Qed.

(** Cancelling the third appointment of the sample. *)
Lemma updateAppointmentStatus_frame_witness :
  let outcome :=
    updateAppointmentStatus Sample.appointment_schema "0000000000000000000000a3"
      {| set_status := Some "cancelled"; set_isRated := None |} Sample.world in
  fst outcome = Ok tt /\
  exists a',
    find (fun a => Types.eqb (_id a) (OID "0000000000000000000000a3"))
      (appointments (snd outcome)) = Some a' /\
    same_but_status_rating_updatedAt
      (Sample.appointment_at "0000000000000000000000a3" Sample.pet_rex Sample.provider_vet
         Sample.noon "scheduled") a' /\
    status a' = "cancelled" /\ isRated a' = false /\
    appointment_updatedAt a' = Sample.noon.
Proof.
  exact (proj2 (proj2 (proj2 (proj2 (proj2
           (@updateAppointmentStatus_frame Sample.appointment_schema
              "0000000000000000000000a3"
              {| set_status := Some "cancelled"; set_isRated := None |} Sample.world)))))
           (OID "0000000000000000000000a3") eq_refl eq_refl).
Defined.

(** C9, as stated, fails: cancelling the third appointment changes its
    status and also moves its update timestamp, from the time it was written
    to the time of the call; and the id ["a3"], which no appointment has, is
    answered with a cast error, not with NotFound. *)
Lemma updateAppointmentStatus_changes_the_timestamp :
  let cancel := {| set_status := Some "cancelled"; set_isRated := None |} in
  let outcome :=
    updateAppointmentStatus Sample.appointment_schema "0000000000000000000000a3" cancel
      Sample.world in
  (exists old new,
     find (fun a => Types.eqb (_id a) (OID "0000000000000000000000a3"))
       (appointments Sample.world) = Some old /\
     find (fun a => Types.eqb (_id a) (OID "0000000000000000000000a3"))
       (appointments (snd outcome)) = Some new /\
     fst outcome = Ok tt /\
     appointment_updatedAt old = 1762000000000 /\
     appointment_updatedAt new = 1762095600000 /\
     appointment_updatedAt new <> appointment_updatedAt old) /\
  fst (updateAppointmentStatus Sample.appointment_schema "a3" cancel Sample.world)
  = Throw (CastError "_id") /\
  fst (updateAppointmentStatus Sample.appointment_schema "a3" cancel Sample.world)
  <> Throw (NotFoundException "Agendamento não encontrado para atualização de status.").
Proof.
  cbv zeta. split; [| split; [reflexivity | discriminate]].
  do 2 eexists. split; [reflexivity |]. split; [reflexivity |].
  split; [reflexivity |]. split; [reflexivity |]. split; [reflexivity | discriminate].
Qed.

Example updateAppointmentStatus_unknown_id :
  updateAppointmentStatus Sample.appointment_schema "0000000000000000000000ff"
    {| set_status := Some "cancelled"; set_isRated := None |} Sample.world
  = (Throw (NotFoundException "Agendamento não encontrado para atualização de status."),
     log_op OpFindByIdAndUpdate Sample.world).
Proof. reflexivity. Qed.

Example updateAppointmentStatus_sets_rating_only :
  map (fun a => (status a, isRated a))
    (appointments (snd (updateAppointmentStatus Sample.appointment_schema
                          "0000000000000000000000a2"
                          {| set_status := None; set_isRated := Some true |} Sample.world)))
  = [("confirmed", false); ("confirmed", true); ("scheduled", false); ("cancelled", false);
     ("completed", false); ("confirmed", false); ("confirmed", false)].
Proof. reflexivity. Qed.

(** Ana is no provider. *)
Lemma findAllByProviderUser_no_provider_witness :
  findAllByProviderUser Sample.runtime Sample.collaborators Sample.user_ana
    (Sample.paged (Some "4") (Some "50")) Sample.world =
    (Ok {| items := []; total := 0; page := Number (Js.Num 1); limit := Str "50";
           pages := Js.Num 1 |}, Sample.world) /\
  issued (snd (findAllByProviderUser Sample.runtime Sample.collaborators Sample.user_ana
                 (Sample.paged (Some "4") (Some "50")) Sample.world)) = issued Sample.world.
Proof.
  exact (@findAllByProviderUser_no_provider Sample.runtime Sample.collaborators
           Sample.user_ana (Sample.paged (Some "4") (Some "50")) Sample.world eq_refl).
Defined.

Example empty_envelopes_differ :
  (exists env w', findAllByProviderUser Sample.runtime Sample.collaborators Sample.user_ana
                    Sample.any_query Sample.world = (Ok env, w') /\ pages env = Js.Num 1) /\
  (exists env w', findAllByTutorId Sample.runtime Sample.collaborators Sample.tutor_bob
                    Sample.any_query Sample.world = (Ok env, w') /\ pages env = Js.Num 0).
Proof. split; do 2 eexists; split; reflexivity. Qed.

(** The room of Ana and the vet answers a query for the vet alone. *)
Lemma getOrCreateRoomForParticipants_superset_witness :
  exists r',
    getOrCreateRoomForParticipants [Sample.user_vet] None Sample.world
      = (Ok r', Sample.world) /\
    In r' (rooms Sample.world) /\ isActive r' = true /\
    all_in [OID Sample.user_vet] (participants r') = true.
Proof.
  apply (@getOrCreateRoomForParticipants_superset [Sample.user_vet] [OID Sample.user_vet]
           None Sample.world Sample.room_ana_vet eq_refl).
  - now left.
  - reflexivity.
  - reflexivity.
Defined.

(** Noon of the sample: the day started twelve hours ago. *)
Lemma today_window_holds_now_witness :
  startOfToday Sample.runtime Sample.noon <= Sample.noon
    < endOfToday Sample.runtime Sample.noon /\
  endOfToday Sample.runtime Sample.noon - startOfToday Sample.runtime Sample.noon
    = Date.msPerDay /\
  (startOfToday Sample.runtime Sample.noon + -10800000) mod Date.msPerDay = 0.
Proof.
  apply (@today_window_holds_now Sample.runtime Sample.noon (-10800000)).
  - intros s b. reflexivity.
  - vm_compute. reflexivity.
Defined.

(* ================================================================= *)
(** * The remaining operations on the sample data *)

(** The vet writes in the room shared with Ana. *)
Lemma sendMessage_stores_witness :
  exists m w',
    sendMessage Sample.user_vet Fixture.greeting Sample.world = (Ok m, w') /\
    roomId m = OID "0000000000000000000000b1" /\ senderId m = OID Sample.user_vet /\
    content m = "oi" /\ message_createdAt m = Sample.noon /\
    messages w' = messages Sample.world ++ [m] /\
    exists found, getMessages "0000000000000000000000b1" w' = (Ok found, w') /\ In m found.
Proof.
  destruct (@sendMessage_stores Sample.user_vet Fixture.greeting Sample.world
              (OID "0000000000000000000000b1") (OID Sample.user_vet) Sample.room_ana_vet
              eq_refl eq_refl eq_refl)
    as [m [w' [Hrun [Hroom [Hsender [Hcontent [Htime [Hmessages
         [_ [_ [_ [found [Hget [Hin _]]]]]]]]]]]]]].
  exists m, w'. repeat split; try assumption. now exists found.
Defined.

(** A sender that is not an ObjectId. *)
Lemma sendMessage_malformed_sender_witness :
  sendMessage "ana" Fixture.greeting Sample.world = (Throw BSONError, Sample.world).
Proof.
  apply (@sendMessage_malformed_sender "ana" Fixture.greeting Sample.world
           (OID "0000000000000000000000b1") Sample.room_ana_vet); reflexivity.
Defined.

(** The oldest of Ana's rooms becomes the first of her listing. *)
Lemma sendMessage_moves_room_first_witness :
  exists m w' first others,
    sendMessage Sample.user_vet Fixture.greeting Fixture.chat_world = (Ok m, w') /\
    getRoomsByUser Fixture.directory Sample.user_ana w' = (Ok (first :: others), w') /\
    room_id (view_room first) = OID "0000000000000000000000b1" /\
    updatedAt (view_room first) = 1000.
Proof.
  apply (@sendMessage_moves_room_first Fixture.directory Sample.user_vet Sample.user_ana
           Fixture.greeting Fixture.chat_world (OID "0000000000000000000000b1")
           (OID Sample.user_vet) (OID Sample.user_ana)
           (Fixture.room_at "0000000000000000000000b1" [Sample.user_ana; Sample.user_vet]
              true 100)
           eq_refl eq_refl eq_refl eq_refl).
  - now left.
  - reflexivity.
  - intros r0 [<- | [<- | [<- | [<- | []]]]]; reflexivity.
Defined.

Example getRoomsByUser_of_ana :
  match fst (getRoomsByUser Fixture.directory Sample.user_ana Fixture.chat_world) with
  | Ok views =>
      map (fun v => (Types.toString (room_id (view_room v)), List.length (view_participants v)))
        views
  | Throw _ => []
  end = [("0000000000000000000000b3", 1%nat); ("0000000000000000000000b1", 2%nat)].
Proof. reflexivity. Qed.

(** A second room for the same two users. *)
Lemma createRoom_adds_a_room_witness :
  exists r w',
    createRoom Fixture.second_room Sample.user_bob Sample.world = (Ok r, w') /\
    rooms w' = [Sample.room_ana_vet; r] /\
    participants r = participants Sample.room_ana_vet /\
    getRoomById (Types.toString (room_id r)) w' = (Ok r, w').
Proof.
  destruct (proj2 (@createRoom_adds_a_room Fixture.second_room Sample.user_bob Sample.world)
              eq_refl)
    as [r [w' [Hrun [Hrooms [_ [_ [Hparticipants [_ [_ Hget]]]]]]]]].
  exists r, w'. repeat split; try assumption.
  apply Hget. intros r0 [<- | []] Heq. vm_compute in Heq. discriminate Heq.
Defined.

(** Ana starts a conversation with the vet, whose user is registered under
    [usuario]: the room they share is returned. *)
Lemma getOrCreateRoomForTutorAndProviderUser_cases_witness :
  exists r,
    getOrCreateRoomForTutorAndProviderUser Fixture.directory Sample.user_ana
      Sample.provider_vet Sample.world = (Ok r, Sample.world) /\
    In (OID Sample.user_ana) (participants r) /\ In (OID Sample.user_vet) (participants r).
Proof.
  destruct (@getOrCreateRoomForTutorAndProviderUser_cases Fixture.directory Sample.user_ana
              Sample.provider_vet Sample.world) as [_ [_ Hfound]].
  destruct (Hfound Fixture.vet_profile eq_refl eq_refl) as [_ Hroom].
  destruct (Hroom (OID Sample.user_ana) eq_refl eq_refl)
    as [r [w' [Hrun [_ [_ [Htutor [Hprovider _]]]]]]].
  exists r. repeat split; try assumption.
  rewrite Hrun. f_equal.
  change w' with (snd (Ok r, w')). rewrite <- Hrun. reflexivity.
Defined.

Example getOrCreateRoomForTutorAndProviderUser_unlinked :
  getOrCreateRoomForTutorAndProviderUser Fixture.directory Sample.user_ana
    Sample.provider_spa Sample.world
  = (Throw (NotFoundException "Usuário do prestador não está vinculado no cadastro."),
     Sample.world).
Proof. reflexivity. Qed.

(** A booking for Rex with the vet, read back. *)
Lemma create_then_findOne_witness :
  exists a w',
    create Sample.runtime Sample.appointment_schema Sample.collaborators
      (Sample.booking Sample.pet_rex Sample.provider_vet) Sample.world = (Ok a, w') /\
    findOne Sample.collaborators Fixture.directory (Types.toString (_id a)) w'
    = (Ok (populate_full Sample.collaborators Fixture.directory a), w') /\
    status a = "scheduled" /\ isRated a = false /\ dateTime a = Sample.noon.
Proof.
  assert (Hrun : exists a w',
            create Sample.runtime Sample.appointment_schema Sample.collaborators
              (Sample.booking Sample.pet_rex Sample.provider_vet) Sample.world = (Ok a, w'))
    by (do 2 eexists; vm_compute; reflexivity).
  destruct Hrun as [a [w' Hrun]].
  destruct (@create_then_findOne Sample.runtime Sample.appointment_schema
              Sample.collaborators Fixture.directory _ _ _ _ Hrun)
    as [Hfind [_ [_ [Hrated [Hstatus Hdate]]]]].
  { intros old Hin Heq.
    repeat (destruct Hin as [<- | Hin]; [vm_compute in Heq; discriminate Heq |]).
    destruct Hin. }
  exists a, w'. repeat split; try assumption.
  change (Some Sample.noon = Some (dateTime a)) in Hdate. congruence.
Defined.

(** The payload names Rex, the path names Mia: the booking is for Mia. *)
Lemma createForPet_createForProvider_path_id_witness :
  exists a w',
    createForPet Sample.runtime Sample.appointment_schema Sample.collaborators
      Sample.pet_mia (Sample.booking Sample.pet_rex Sample.provider_vet) Sample.world
    = (Ok a, w') /\
    pet a = OID Sample.pet_mia /\ provider a = OID Sample.provider_vet.
Proof.
  assert (Hrun : exists a w',
            createForPet Sample.runtime Sample.appointment_schema Sample.collaborators
              Sample.pet_mia (Sample.booking Sample.pet_rex Sample.provider_vet) Sample.world
            = (Ok a, w'))
    by (do 2 eexists; vm_compute; reflexivity).
  destruct Hrun as [a [w' Hrun]].
  destruct (proj1 (@createForPet_createForProvider_path_id Sample.runtime
                     Sample.appointment_schema Sample.collaborators _ _ _ _ _) Hrun)
    as [_ [Hpet [Hprovider _]]].
  exists a, w'. split; [exact Hrun |].
  change (Some (OID Sample.pet_mia) = Some (pet a)) in Hpet.
  change (Some (OID Sample.provider_vet) = Some (provider a)) in Hprovider.
  split; congruence.
Defined.

Lemma sample_ids_unique : NoDup (map _id (appointments Sample.world)).
Proof.
  repeat constructor; vm_compute; intros Hin;
    repeat (destruct Hin as [Heq | Hin]; [discriminate Heq |]); exact Hin.
Qed.

(** The third appointment of the sample is removed, and is then gone. *)
Lemma remove_deletes_one_witness :
  exists w',
    remove "0000000000000000000000a3" Sample.world = (Ok {| success := true |}, w') /\
    List.length (appointments w') = 6%nat /\
    findOne Sample.collaborators Fixture.directory "0000000000000000000000a3" w'
    = (Throw (NotFoundException "Consulta não encontrada."), w') /\
    remove "0000000000000000000000a3" w'
    = (Throw (NotFoundException "Consulta não encontrada."), w').
Proof.
  destruct (@remove_deletes_one Sample.collaborators Fixture.directory
              "0000000000000000000000a3" Sample.world) as [_ [_ Hfound]].
  destruct (Hfound (OID "0000000000000000000000a3")
              (Sample.appointment_at "0000000000000000000000a3" Sample.pet_rex
                 Sample.provider_vet Sample.noon "scheduled") eq_refl eq_refl)
    as [w' [before [after [Hrun [Hsplit [Hafter [_ [_ Hgone]]]]]]]].
  destruct (Hgone sample_ids_unique) as [Hfind Hagain].
  exists w'. repeat split; try assumption.
  apply (f_equal (@List.length _)) in Hsplit. rewrite Hafter.
  rewrite length_app in *. cbn [List.length] in Hsplit.
  change (List.length (appointments Sample.world)) with 7%nat in Hsplit. lia.
Defined.

(** The vet's appointments of the morning. *)
Lemma findAll_items_satisfy_query_witness :
  exists env w',
    findAll Sample.runtime Sample.collaborators Fixture.vet_day Sample.world = (Ok env, w') /\
    List.length (items env) = 2%nat /\
    Forall
      (fun it =>
         In (doc it) (appointments Sample.world) /\
         provider (doc it) = OID Sample.provider_vet /\
         In (status (doc it)) ["confirmed"; "scheduled"] /\
         Sample.day_start <= dateTime (doc it) <= Sample.noon)
      (items env).
Proof.
  assert (Hrun : exists env w',
            findAll Sample.runtime Sample.collaborators Fixture.vet_day Sample.world
            = (Ok env, w') /\ List.length (items env) = 2%nat)
    by (do 2 eexists; split; vm_compute; reflexivity).
  destruct Hrun as [env [w' [Hrun Hlen]]].
  exists env, w'. split; [exact Hrun |]. split; [exact Hlen |].
  eapply Forall_impl; [| exact (@findAll_items_satisfy_query Sample.runtime
                                  Sample.collaborators _ _ _ _ Hrun)].
  intros it [Hin [_ [_ [Hprovider [_ [Hstatus [_ [Hfrom [Hto _]]]]]]]]].
  split; [exact Hin |].
  specialize (Hprovider _ eq_refl ltac:(discriminate)).
  specialize (Hstatus _ eq_refl eq_refl).
  destruct (Hfrom _ eq_refl ltac:(discriminate)) as [t1 [Ht1 Hle1]].
  destruct (Hto _ eq_refl ltac:(discriminate)) as [t2 [Ht2 Hle2]].
  change (Some (OID Sample.provider_vet) = Some (provider (doc it))) in Hprovider.
  change (Some Sample.day_start = Some t1) in Ht1.
  change (Some Sample.noon = Some t2) in Ht2.
  split; [congruence |]. split; [exact Hstatus |].
  injection Ht1 as <-. injection Ht2 as <-. lia.
Defined.

(** Mia's appointment is deleted; a search for Mia then finds nothing. *)
Lemma removeByPet_exact_witness :
  exists w',
    removeByPet (IdString Sample.pet_mia) Sample.world = (Ok tt, w') /\
    removeByPet (IdString Sample.pet_mia) w' = (Ok tt, w') /\
    (forall a, In a (appointments w') <->
               In a (appointments Sample.world) /\ pet a <> OID Sample.pet_mia) /\
    exists env w2,
      findAll Sample.runtime Sample.collaborators
        (with_pet Sample.any_query (One Sample.pet_mia)) w' = (Ok env, w2) /\
      items env = [] /\ total env = 0.
Proof.
  destruct (proj2 (@removeByPet_exact Sample.runtime Sample.collaborators
                     (IdString Sample.pet_mia) Sample.world) (OID Sample.pet_mia) eq_refl)
    as [w' [Hrun [Hkept [_ [_ [Htwice Hnone]]]]]].
  exists w'. split; [exact Hrun |]. split; [exact Htwice |]. split; [exact Hkept |].
  assert (Hw : w' = snd (removeByPet (IdString Sample.pet_mia) Sample.world))
    by now rewrite Hrun.
  assert (Hfind : exists env w2,
            findAll Sample.runtime Sample.collaborators
              (with_pet Sample.any_query (One Sample.pet_mia)) w' = (Ok env, w2))
    by (rewrite Hw; do 2 eexists; vm_compute; reflexivity).
  destruct Hfind as [env [w2 Hfind]]. exists env, w2. split; [exact Hfind |].
  exact (Hnone Sample.pet_mia Sample.any_query env w2 eq_refl Hfind).
Defined.

(** The vet leaves: the counters of the day drop to zero. *)
Lemma removeByProvider_exact_witness :
  exists w' w2,
    removeByProvider (IdObject (OID Sample.provider_vet)) Sample.world = (Ok tt, w') /\
    (forall a, In a (appointments w') <->
               In a (appointments Sample.world) /\ provider a <> OID Sample.provider_vet) /\
    countAppointmentsForToday Sample.runtime Sample.provider_vet w'
    = (Ok {| today_total := 0; today_confirmed := 0 |}, w2).
Proof.
  destruct (proj2 (@removeByProvider_exact Sample.runtime
                     (IdObject (OID Sample.provider_vet)) Sample.world)
              (OID Sample.provider_vet) eq_refl)
    as [w' [Hrun [Hkept [_ [_ [_ Hcount]]]]]].
  destruct (Hcount Sample.provider_vet eq_refl) as [w2 Hzero].
  exists w', w2. split; [exact Hrun |]. split; [exact Hkept | exact Hzero].
Defined.

(** The third appointment is moved one hour later. *)
Lemma update_sets_what_is_given_witness :
  exists item w',
    update Sample.runtime Sample.collaborators Fixture.directory
      "0000000000000000000000a3" (Fixture.reschedule "2025-11-02T16:00:00.000Z" "later") Sample.world
    = (Ok item, w') /\
    dateTime (full_doc item) = 1762099200000 /\ reason (full_doc item) = Some "later" /\
    status (full_doc item) = "scheduled" /\ pet (full_doc item) = OID Sample.pet_rex /\
    List.length (appointments w') = 7%nat.
Proof.
  assert (Hrun : exists item w',
            update Sample.runtime Sample.collaborators Fixture.directory
              "0000000000000000000000a3" (Fixture.reschedule "2025-11-02T16:00:00.000Z" "later")
              Sample.world = (Ok item, w'))
    by (do 2 eexists; vm_compute; reflexivity).
  destruct Hrun as [item [w' Hrun]].
  destruct (@update_sets_what_is_given Sample.runtime Sample.collaborators
              Fixture.directory _ _ _ _ _ Hrun)
    as (o & old & Ho & Hold & _ & _ & _ & _ & _ & Hpet & _ & _ & Hdate & _ & Hreason & _
        & _ & Hstatus & _ & _ & _ & Hothers & _).
  vm_compute in Ho. injection Ho as <-.
  vm_compute in Hold. injection Hold as <-.
  cbn [Fixture.reschedule u_pet u_dateTime] in Hpet, Hdate.
  change (Some 1762099200000 = Some (dateTime (full_doc item))) in Hdate.
  injection Hdate as Hdate.
  exists item, w'. repeat split; try assumption; try (symmetry; assumption).
  apply Forall2_length in Hothers. rewrite <- Hothers. reflexivity.
Defined.

(** An empty [pet] passes the guard and breaks the ObjectId constructor. *)
Lemma update_failures_witness :
  update Sample.runtime Sample.collaborators Fixture.directory
    "0000000000000000000000a3" (Fixture.for_pet "") Sample.world
  = (Throw BSONError, Sample.world) /\
  update Sample.runtime Sample.collaborators Fixture.directory
    "0000000000000000000000a3" (Fixture.for_pet Sample.provider_vet) Sample.world
  = (Throw (NotFoundException "Pet não encontrado."), Sample.world).
Proof.
  split.
  - destruct (@update_failures Sample.runtime Sample.collaborators Fixture.directory
                "0000000000000000000000a3" (Fixture.for_pet "") Sample.world)
      as [_ [_ [Hempty _]]].
    apply Hempty; [reflexivity | discriminate].
  - destruct (@update_failures Sample.runtime Sample.collaborators Fixture.directory
                "0000000000000000000000a3" (Fixture.for_pet Sample.provider_vet) Sample.world)
      as [_ [Hguard _]].
    apply (Hguard Sample.provider_vet); [reflexivity | discriminate | reflexivity].
Defined.


(** The sample listing without a sort: most recent first. *)
Lemma findAll_default_order_witness :
  exists env w',
    findAll Sample.runtime Sample.collaborators Sample.any_query Sample.world = (Ok env, w') /\
    List.length (items env) = 7%nat /\
    StronglySorted
      (fun x y =>
         dateTime (doc y) < dateTime (doc x) \/
         (dateTime (doc y) = dateTime (doc x) /\ createdAt (doc y) <= createdAt (doc x)))
      (items env).
Proof.
  assert (Hrun : exists env w',
            findAll Sample.runtime Sample.collaborators Sample.any_query Sample.world
            = (Ok env, w') /\ List.length (items env) = 7%nat)
    by (do 2 eexists; split; vm_compute; reflexivity).
  destruct Hrun as [env [w' [Hrun Hlen]]].
  exists env, w'. split; [exact Hrun |]. split; [exact Hlen |].
  apply (proj2 (@findAll_default_order Sample.runtime Sample.collaborators
                  Sample.any_query Sample.world w' env eq_refl Hrun)).
  discriminate.
Defined.

(** The vet asks for the spa's appointments and gets the vet's own. *)
Lemma findAllByProviderUser_own_appointments_witness :
  exists env w',
    findAllByProviderUser Sample.runtime Sample.collaborators Sample.user_vet
      (with_provider Sample.any_query Sample.provider_spa) Sample.world = (Ok env, w') /\
    total env = 6 /\
    Forall (fun it => In (doc it) (appointments Sample.world) /\
                      provider (doc it) = OID Sample.provider_vet) (items env).
Proof.
  assert (Hrun : exists env w',
            findAllByProviderUser Sample.runtime Sample.collaborators Sample.user_vet
              (with_provider Sample.any_query Sample.provider_spa) Sample.world
            = (Ok env, w') /\ total env = 6)
    by (do 2 eexists; split; vm_compute; reflexivity).
  destruct Hrun as [env [w' [Hrun Htotal]]].
  exists env, w'. split; [exact Hrun |]. split; [exact Htotal |].
  exact (proj1 (@findAllByProviderUser_own_appointments Sample.runtime Sample.collaborators
                  Sample.user_vet (with_provider Sample.any_query Sample.provider_spa)
                  Sample.world w' env
                  {| provider_id := OID Sample.provider_vet;
                     userId := Some (OID Sample.user_vet) |}
                  eq_refl eq_refl Hrun)).
Defined.

(** Ana asks for Mia's appointments and gets those of her own pet, Rex. *)
Lemma findAllByTutorId_own_pets_witness :
  exists env w',
    findAllByTutorId Sample.runtime Sample.collaborators Sample.tutor_ana
      (with_pet Sample.any_query (One Sample.pet_mia)) Sample.world = (Ok env, w') /\
    total env = 6 /\
    Forall (fun ri => pet (doc (appointment ri)) = OID Sample.pet_rex) (items env).
Proof.
  assert (Hrun : exists env w',
            findAllByTutorId Sample.runtime Sample.collaborators Sample.tutor_ana
              (with_pet Sample.any_query (One Sample.pet_mia)) Sample.world
            = (Ok env, w') /\ total env = 6)
    by (do 2 eexists; split; vm_compute; reflexivity).
  destruct Hrun as [env [w' [Hrun Htotal]]].
  exists env, w'. split; [exact Hrun |]. split; [exact Htotal |].
  eapply Forall_impl; [| exact (@findAllByTutorId_own_pets Sample.runtime
                                  Sample.collaborators Sample.tutor_ana
                                  (with_pet Sample.any_query (One Sample.pet_mia))
                                  Sample.world w' env _ eq_refl Hrun)].
  intros ri [_ [p [[<- | []] Hparse]]].
  change (Some (OID Sample.pet_rex) = Some (pet (doc (appointment ri)))) in Hparse.
  congruence.
Defined.

(** The body names a room that does not exist; the path decides. *)
Lemma ChatController_sendMessage_path_room_witness :
  exists m w',
    ChatController_sendMessage "0000000000000000000000b1" Fixture.misdirected
      Sample.user_vet Sample.world = (Ok m, w') /\
    roomId m = OID "0000000000000000000000b1" /\ content m = "oi" /\
    messages w' = messages Sample.world ++ [m].
Proof.
  assert (Hrun : exists m w',
            ChatController_sendMessage "0000000000000000000000b1" Fixture.misdirected
              Sample.user_vet Sample.world = (Ok m, w'))
    by (do 2 eexists; vm_compute; reflexivity).
  destruct Hrun as [m [w' Hrun]].
  destruct (@ChatController_sendMessage_path_room _ _ _ _ _ _ Hrun)
    as [r [_ [Hid [Hroom [_ [Hcontent Hmessages]]]]]].
  exists m, w'. repeat split; try assumption.
  change (Some (OID "0000000000000000000000b1") = Some (room_id r)) in Hid. congruence.
Defined.

Example sendMessage_rejects_the_misdirected :
  sendMessage Sample.user_vet Fixture.misdirected Sample.world
  = (Throw (NotFoundException "Sala não encontrada"), Sample.world).
Proof. reflexivity. Qed.

(** Ana's listing: her two open rooms; the closed one is left out. *)
Lemma getRoomsByUser_listing_witness :
  exists views,
    getRoomsByUser Fixture.directory Sample.user_ana Fixture.chat_world
    = (Ok views, Fixture.chat_world) /\
    List.length views = 2%nat /\
    Forall (fun v => isActive (view_room v) = true /\
                     In (OID Sample.user_ana) (participants (view_room v))) views.
Proof.
  destruct (proj2 (@getRoomsByUser_listing Fixture.directory Sample.user_ana
                     Fixture.chat_world) (OID Sample.user_ana) eq_refl)
    as [views [Hrun [_ [Hperm Hall]]]].
  exists views. split; [exact Hrun |]. split.
  - rewrite <- (length_map view_room), <- (Permutation_length Hperm). reflexivity.
  - eapply Forall_impl; [| exact Hall]. intros v [Hactive [Hmember _]]. now split.
Defined.

(** An update that carries nothing changes the update timestamp only. *)
Example update_with_nothing_to_change :
  match update Sample.runtime Sample.collaborators Fixture.directory
          "0000000000000000000000a3" Fixture.no_change Sample.world with
  | (Ok item, w') =>
      status (full_doc item) = "scheduled" /\ dateTime (full_doc item) = Sample.noon /\
      reason (full_doc item) = Some "vaccine" /\
      createdAt (full_doc item) = 1762000000000 /\
      appointment_updatedAt (full_doc item) = Sample.noon /\
      map appointment_updatedAt (appointments w')
      = [1762000000000; 1762000000000; Sample.noon; 1762000000000; 1762000000000;
         1762000000000; 1762000000000]
  | (Throw _, _) => False
  end.
Proof. repeat split. Qed.

(** The vet has a provider profile, Ana has none. *)
Example getProviderByUser_of_the_vet_and_of_ana :
  getProviderByUser Sample.collaborators Sample.user_vet Sample.world
  = (Ok {| provider_id := OID Sample.provider_vet; userId := Some (OID Sample.user_vet) |},
     Sample.world) /\
  getProviderByUser Sample.collaborators Sample.user_ana Sample.world
  = (Throw (NotFoundException "Perfil de Prestador não encontrado para o usuário logado."),
     Sample.world).
Proof. split; reflexivity. Qed.
